(** * SceneManager.cpp: the scene-state pipeline

    A shallow embedding of [Source/SceneManager.cpp]: the texture and
    material registries, the transform composition of
    [SetTransformations], the shader-state setters and the bottle builder
    [CreateBottle1].

    Conventions of the embedding.
    - A C++ [float] (and the [double] literals that are narrowed to
      [float]) is a real number of [R]: rounding, overflow and NaN are not
      modelled.  [glm::radians] multiplies by [PI / 180].
    - An [int] is a [Z]; the registry counter never gets near the 32-bit
      range before an array access has already left its bounds.
    - A call either returns ([Ok]), runs into undefined behaviour
      ([Fault]: a null [m_pShaderManager] dereferenced, an index outside
      the fixed array [m_textureIDs]) or exhausts the fuel of a loop
      ([OutOfFuel]; the lemmas on the loops show that each ends within the
      fuel it is given).
    - The objects behind the class's pointers and library calls are part
      of the state: the shader program's uniforms as the log of the writes
      made through [ShaderManager], the OpenGL texture state, and the draw
      calls issued through [ShapeMeshes].  Console output is left out. *)

From Stdlib Require Import Reals Lra ZArith.
From stdpp Require Import base option list strings gmap.

#[local] Open Scope Z_scope.

(** ** GLM: vectors, matrices and the transform constructors *)

Module Glm.
#[local] Open Scope R_scope.

Record vec2 := Vec2 { x2 : R; y2 : R }.
Record vec3 := Vec3 { x3 : R; y3 : R; z3 : R }.
Record vec4 := Vec4 { x4 : R; y4 : R; z4 : R; w4 : R }.

(** [glm::mat4] is stored by columns: [m[i]] is column [i]. *)
Record mat4 := Mat4 { col0 : vec4; col1 : vec4; col2 : vec4; col3 : vec4 }.

Definition vec3_scale (v : vec3) (k : R) : vec3 :=
  Vec3 (x3 v * k) (y3 v * k) (z3 v * k).

Definition vec4_scale (v : vec4) (k : R) : vec4 :=
  Vec4 (x4 v * k) (y4 v * k) (z4 v * k) (w4 v * k).

Definition vec4_add (a b : vec4) : vec4 :=
  Vec4 (x4 a + x4 b) (y4 a + y4 b) (z4 a + z4 b) (w4 a + w4 b).

(** [mat4(1.0f)] *)
Definition identity : mat4 :=
  Mat4 (Vec4 1 0 0 0) (Vec4 0 1 0 0) (Vec4 0 0 1 0) (Vec4 0 0 0 1).

Definition dot (a b : vec3) : R := x3 a * x3 b + y3 a * y3 b + z3 a * z3 b.

Definition inversesqrt (x : R) : R := 1 / sqrt x.

Definition normalize (v : vec3) : vec3 := vec3_scale v (inversesqrt (dot v v)).

(** [glm::radians] *)
Definition radians (degrees : R) : R := degrees * (PI / 180).

(** [glm::scale(m, v)] *)
Definition scale_m (m : mat4) (v : vec3) : mat4 :=
  Mat4 (vec4_scale (col0 m) (x3 v))
       (vec4_scale (col1 m) (y3 v))
       (vec4_scale (col2 m) (z3 v))
       (col3 m).

(** [glm::translate(m, v)] *)
Definition translate_m (m : mat4) (v : vec3) : mat4 :=
  Mat4 (col0 m) (col1 m) (col2 m)
       (vec4_add
          (vec4_add
             (vec4_add (vec4_scale (col0 m) (x3 v)) (vec4_scale (col1 m) (y3 v)))
             (vec4_scale (col2 m) (z3 v)))
          (col3 m)).

(** [glm::rotate(m, angle, v)]: [rIJ] is GLM's [Rotate[I][J]], column [I],
    row [J]. *)
Definition rotate_m (m : mat4) (angle : R) (v : vec3) : mat4 :=
  let c := cos angle in
  let s := sin angle in
  let axis := normalize v in
  let temp := vec3_scale axis (1 - c) in
  let r00 := c + x3 temp * x3 axis in
  let r01 := x3 temp * y3 axis + s * z3 axis in
  let r02 := x3 temp * z3 axis - s * y3 axis in
  let r10 := y3 temp * x3 axis - s * z3 axis in
  let r11 := c + y3 temp * y3 axis in
  let r12 := y3 temp * z3 axis + s * x3 axis in
  let r20 := z3 temp * x3 axis + s * y3 axis in
  let r21 := z3 temp * y3 axis - s * x3 axis in
  let r22 := c + z3 temp * z3 axis in
  Mat4
    (vec4_add (vec4_add (vec4_scale (col0 m) r00) (vec4_scale (col1 m) r01))
              (vec4_scale (col2 m) r02))
    (vec4_add (vec4_add (vec4_scale (col0 m) r10) (vec4_scale (col1 m) r11))
              (vec4_scale (col2 m) r12))
    (vec4_add (vec4_add (vec4_scale (col0 m) r20) (vec4_scale (col1 m) r21))
              (vec4_scale (col2 m) r22))
    (col3 m).

(** The one-argument forms of [glm/gtx/transform.hpp] start from the
    identity. *)
Definition scale (v : vec3) : mat4 := scale_m identity v.
Definition rotate (angle : R) (v : vec3) : mat4 := rotate_m identity angle v.
Definition translate (v : vec3) : mat4 := translate_m identity v.

(** [mat4 * vec4] *)
Definition mat_vec (m : mat4) (v : vec4) : vec4 :=
  vec4_add
    (vec4_add (vec4_scale (col0 m) (x4 v)) (vec4_scale (col1 m) (y4 v)))
    (vec4_add (vec4_scale (col2 m) (z4 v)) (vec4_scale (col3 m) (w4 v))).

(** [mat4 * mat4]: column [j] of the product is [m1] applied to column [j]
    of [m2]. *)
Definition mat_col (m1 : mat4) (b : vec4) : vec4 :=
  vec4_add
    (vec4_add
       (vec4_add (vec4_scale (col0 m1) (x4 b)) (vec4_scale (col1 m1) (y4 b)))
       (vec4_scale (col2 m1) (z4 b)))
    (vec4_scale (col3 m1) (w4 b)).

Definition mat_mul (m1 m2 : mat4) : mat4 :=
  Mat4 (mat_col m1 (col0 m2)) (mat_col m1 (col1 m2))
       (mat_col m1 (col2 m2)) (mat_col m1 (col3 m2)).

End Glm.
Export Glm.

Declare Scope mat_scope.
Delimit Scope mat_scope with mat.
Infix "*" := mat_mul : mat_scope.

(** ** Outcomes of a call *)

Inductive result (A : Type) : Type :=
| Ok (a : A)
| Fault
| OutOfFuel.
Arguments Ok {A} a.
Arguments Fault {A}.
Arguments OutOfFuel {A}.

#[export] Instance result_ret : MRet result := @Ok.
#[export] Instance result_bind : MBind result := λ A B f r,
  match r with
  | Ok a => f a
  | Fault => Fault
  | OutOfFuel => OutOfFuel
  end.

(** [while (cond) body], run for at most [fuel] iterations. *)
Fixpoint while {S : Type} (fuel : nat) (cond : S → bool)
    (body : S → result S) (s : S) : result S :=
  if cond s then
    match fuel with
    | O => OutOfFuel
    | Datatypes.S n => s' ← body s; while n cond body s'
    end
  else Ok s.

(** Reading and writing [a[i]]; an index outside the array is undefined
    behaviour. *)
Definition array_get {T : Type} (a : list T) (i : Z) : result T :=
  if decide (0 ≤ i) then
    match a !! Z.to_nat i with
    | Some v => Ok v
    | None => Fault
    end
  else Fault.

Definition array_set {T : Type} (a : list T) (i : Z) (v : T) : result (list T) :=
  if decide (0 ≤ i < Z.of_nat (length a)) then Ok (<[Z.to_nat i := v]> a)
  else Fault.

(** ** ShaderManager: named uniforms *)

Inductive uvalue : Type :=
| UInt (n : Z)
| UBool (b : bool)
| UFloat (f : R)
| UVec2 (v : vec2)
| UVec3 (v : vec3)
| UVec4 (v : vec4)
| UMat4 (m : mat4)
| USampler2D (slot : Z).

(** Modelled from the spec: the class [ShaderManager] is not part of this
    source file; it "exposes named-uniform setters for integer/boolean,
    float, 2-vector, 3-vector, 4-vector, and 4x4-matrix values, addressed by
    string key".  The program's uniform state is the log of the writes made
    to it, oldest first. *)
Definition ShaderManager : Type := list (string * uvalue).

Module Shader.

(** Modelled from the spec: [ShaderManager::setIntValue] writes the uniform
    [name]. *)
Definition setIntValue (name : string) (v : Z) (sm : ShaderManager) : ShaderManager :=
  sm ++ [(name, UInt v)].
(** Modelled from the spec: [ShaderManager::setBoolValue] writes the uniform
    [name]. *)
Definition setBoolValue (name : string) (v : bool) (sm : ShaderManager) : ShaderManager :=
  sm ++ [(name, UBool v)].
(** Modelled from the spec: [ShaderManager::setFloatValue] writes the uniform
    [name]. *)
Definition setFloatValue (name : string) (v : R) (sm : ShaderManager) : ShaderManager :=
  sm ++ [(name, UFloat v)].
(** Modelled from the spec: [ShaderManager::setVec2Value] writes the uniform
    [name]. *)
Definition setVec2Value (name : string) (v : vec2) (sm : ShaderManager) : ShaderManager :=
  sm ++ [(name, UVec2 v)].
(** Modelled from the spec: [ShaderManager::setVec3Value] writes the uniform
    [name]. *)
Definition setVec3Value (name : string) (v : vec3) (sm : ShaderManager) : ShaderManager :=
  sm ++ [(name, UVec3 v)].
(** Modelled from the spec: [ShaderManager::setVec4Value] writes the uniform
    [name]. *)
Definition setVec4Value (name : string) (v : vec4) (sm : ShaderManager) : ShaderManager :=
  sm ++ [(name, UVec4 v)].
(** Modelled from the spec: [ShaderManager::setMat4Value] writes the uniform
    [name]. *)
Definition setMat4Value (name : string) (v : mat4) (sm : ShaderManager) : ShaderManager :=
  sm ++ [(name, UMat4 v)].
(** Modelled from the spec: [ShaderManager::setSampler2DValue] writes the uniform
    [name]. *)
Definition setSampler2DValue (name : string) (v : Z) (sm : ShaderManager) : ShaderManager :=
  sm ++ [(name, USampler2D v)].

(** Modelled from the spec: the value a uniform holds is that of the last
    write to its name. *)
Fixpoint uniform (name : string) (sm : ShaderManager) : option uvalue :=
  match sm with
  | [] => None
  | (n, v) :: rest =>
      match uniform name rest with
      | Some v' => Some v'
      | None => if String.eqb n name then Some v else None
      end
  end.

End Shader.

(** C++ converts the [bool] passed to [setIntValue] to [int]. *)
Definition int_of_bool (b : bool) : Z := if b then 1 else 0.

(** ** The OpenGL texture state *)

Inductive GLformat : Type := GL_RGB8 | GL_RGBA8.

Record GLimage : Type := {
  img_format : GLformat;
  img_width : Z;
  img_height : Z;
  img_mipmaps : bool
}.

Record GLContext : Type := {
  gl_unused : Z;                 (* next texture name glGenTextures hands out *)
  gl_active : Z;                 (* glActiveTexture: unit index from GL_TEXTURE0 *)
  gl_bound : gmap Z Z;           (* GL_TEXTURE_2D binding of each unit *)
  gl_images : gmap Z GLimage     (* image of each texture object *)
}.

Module GL.

Definition glGenTextures (gl : GLContext) : Z * GLContext :=
  (gl_unused gl,
   {| gl_unused := gl_unused gl + 1; gl_active := gl_active gl;
      gl_bound := gl_bound gl; gl_images := gl_images gl |}).

Definition glActiveTexture (unit : Z) (gl : GLContext) : GLContext :=
  {| gl_unused := gl_unused gl; gl_active := unit;
     gl_bound := gl_bound gl; gl_images := gl_images gl |}.

Definition glBindTexture (texture : Z) (gl : GLContext) : GLContext :=
  {| gl_unused := gl_unused gl; gl_active := gl_active gl;
     gl_bound := <[gl_active gl := texture]> (gl_bound gl);
     gl_images := gl_images gl |}.

(** The texture bound to the active unit; 0 is the default texture. *)
Definition current_texture (gl : GLContext) : Z :=
  default 0 (gl_bound gl !! gl_active gl).

Definition glTexImage2D (fmt : GLformat) (width height : Z) (gl : GLContext) : GLContext :=
  {| gl_unused := gl_unused gl; gl_active := gl_active gl;
     gl_bound := gl_bound gl;
     gl_images :=
       <[current_texture gl :=
           {| img_format := fmt; img_width := width; img_height := height;
              img_mipmaps := false |}]> (gl_images gl) |}.

Definition glGenerateMipmap (gl : GLContext) : GLContext :=
  {| gl_unused := gl_unused gl; gl_active := gl_active gl;
     gl_bound := gl_bound gl;
     gl_images :=
       alter (λ im, {| img_format := img_format im; img_width := img_width im;
                       img_height := img_height im; img_mipmaps := true |})
             (current_texture gl) (gl_images gl) |}.

End GL.

(** ** stb_image: a decoded file *)

Record stb_image : Type := {
  width : Z;
  height : Z;
  colorChannels : Z
}.

(** ** ShapeMeshes: the draw calls *)

Inductive Mesh : Type := PlaneMesh | BoxMesh | CylinderMesh | TaperedCylinderMesh | TorusMesh.

(** Modelled from the spec: the class [ShapeMeshes] is not part of this
    source file; its [Draw<Shape>Mesh] "issues a draw call using whatever
    transform/shader state is currently active".  A draw call is recorded
    with the uniform state it was issued under ([None]: no shader program
    known to the scene). *)
Definition DrawCall : Type := Mesh * option ShaderManager.

(** ** SceneManager *)

(** The structs and members of the class are declared in [SceneManager.h],
    which is not part of this source file; they are taken from the uses
    made of them here.  The two structs both have a field [tag]; each gets
    its module. *)
Module TEXTURE_INFO.
(** Modelled from the spec: a texture entry is a tag and the GPU handle,
    the fields [tag] and [ID] that the source reads and writes. *)
Record t : Type := { tag : string; ID : Z }.
End TEXTURE_INFO.

Module OBJECT_MATERIAL.
(** Modelled from the spec: a material entry is a tag, a diffuse and a
    specular colour and a shininess, the fields that the source reads and
    writes. *)
Record t : Type := {
  diffuseColor : vec3;
  specularColor : vec3;
  shininess : R;
  tag : string
}.
End OBJECT_MATERIAL.

(** Modelled from the spec: the members the methods use, with the OpenGL
    context they act on; the capacity of the array [m_textureIDs] is the
    length of the list. *)
Record SceneManager : Type := {
  m_pShaderManager : option ShaderManager;   (* [None] is NULL *)
  m_basicMeshes : list DrawCall;             (* draw calls issued, oldest first *)
  m_loadedTextures : Z;
  m_textureIDs : list TEXTURE_INFO.t;          (* fixed-size array *)
  m_objectMaterials : list OBJECT_MATERIAL.t;  (* std::vector *)
  gl : GLContext
}.

Definition g_ModelName : string := "model".
Definition g_ColorValueName : string := "objectColor".
Definition g_TextureValueName : string := "objectTexture".
Definition g_UseTextureName : string := "bUseTexture".
Definition g_UseLightingName : string := "bUseLighting".

Definition set_shader (p : option ShaderManager) (st : SceneManager) : SceneManager :=
  {| m_pShaderManager := p; m_basicMeshes := m_basicMeshes st;
     m_loadedTextures := m_loadedTextures st; m_textureIDs := m_textureIDs st;
     m_objectMaterials := m_objectMaterials st; gl := gl st |}.

Definition set_gl (g : GLContext) (st : SceneManager) : SceneManager :=
  {| m_pShaderManager := m_pShaderManager st; m_basicMeshes := m_basicMeshes st;
     m_loadedTextures := m_loadedTextures st; m_textureIDs := m_textureIDs st;
     m_objectMaterials := m_objectMaterials st; gl := g |}.

Definition set_textures (n : Z) (a : list TEXTURE_INFO.t) (st : SceneManager) : SceneManager :=
  {| m_pShaderManager := m_pShaderManager st; m_basicMeshes := m_basicMeshes st;
     m_loadedTextures := n; m_textureIDs := a;
     m_objectMaterials := m_objectMaterials st; gl := gl st |}.

Definition set_materials (ms : list OBJECT_MATERIAL.t) (st : SceneManager) : SceneManager :=
  {| m_pShaderManager := m_pShaderManager st; m_basicMeshes := m_basicMeshes st;
     m_loadedTextures := m_loadedTextures st; m_textureIDs := m_textureIDs st;
     m_objectMaterials := ms; gl := gl st |}.

(** [m_pShaderManager->f(...)]: a null pointer is dereferenced all the same. *)
Definition call_shader (f : ShaderManager → ShaderManager) (st : SceneManager)
    : result SceneManager :=
  match m_pShaderManager st with
  | Some sm => Ok (set_shader (Some (f sm)) st)
  | None => Fault
  end.

(** Modelled from the spec: [m_basicMeshes->Draw...Mesh()] adds a draw call
    under the current uniform state. *)
Definition draw (m : Mesh) (st : SceneManager) : result SceneManager :=
  Ok {| m_pShaderManager := m_pShaderManager st;
        m_basicMeshes := m_basicMeshes st ++ [(m, m_pShaderManager st)];
        m_loadedTextures := m_loadedTextures st; m_textureIDs := m_textureIDs st;
        m_objectMaterials := m_objectMaterials st; gl := gl st |}.

(** *** Texture registry *)

Definition with_ID (textureID : Z) (e : TEXTURE_INFO.t) : TEXTURE_INFO.t :=
  {| TEXTURE_INFO.tag := TEXTURE_INFO.tag e; TEXTURE_INFO.ID := textureID |}.
Definition with_tag (tag : string) (e : TEXTURE_INFO.t) : TEXTURE_INFO.t :=
  {| TEXTURE_INFO.tag := tag; TEXTURE_INFO.ID := TEXTURE_INFO.ID e |}.

(** [a[i].field = v] *)
Definition array_modify {T : Type} (a : list T) (i : Z) (f : T → T) : result (list T) :=
  e ← array_get a i; array_set a i (f e).

Section Textures.

(** [stbi_load]: the decoder is given; [None] is the null pointer it returns
    for a file it cannot read. *)
Variable stbi_load : string → option stb_image.

Definition CreateGLTexture (filename : string) (tag : string) (st : SceneManager)
    : result (bool * SceneManager) :=
  match stbi_load filename with
  | Some image =>
      let '(textureID, g) := GL.glGenTextures (gl st) in
      let g := GL.glBindTexture textureID g in
      (* glTexImage2D in the format of the channel count, or [return false] *)
      let uploaded :=
        if colorChannels image =? 3 then
          Some (GL.glTexImage2D GL_RGB8 (width image) (height image) g)
        else if colorChannels image =? 4 then
          Some (GL.glTexImage2D GL_RGBA8 (width image) (height image) g)
        else None in
      match uploaded with
      | None => Ok (false, set_gl g st)
      | Some g =>
          let g := GL.glGenerateMipmap g in
          let g := GL.glBindTexture 0 g in
          let st := set_gl g st in
          a ← array_modify (m_textureIDs st) (m_loadedTextures st) (with_ID textureID);
          let st := set_textures (m_loadedTextures st) a st in
          a ← array_modify (m_textureIDs st) (m_loadedTextures st) (with_tag tag);
          let st := set_textures (m_loadedTextures st) a st in
          let st := set_textures (m_loadedTextures st + 1) (m_textureIDs st) st in
          Ok (true, st)
      end
  | None => Ok (false, st)
  end.

(** A run of loads, as [LoadSceneTextures] makes them; the results are
    collected, the source ignores them. *)
Fixpoint load_all (files : list (string * string)) (st : SceneManager)
    : result (list bool * SceneManager) :=
  match files with
  | [] => Ok ([], st)
  | (filename, tag) :: rest =>
      '(b, st) ← CreateGLTexture filename tag st;
      '(bs, st) ← load_all rest st;
      Ok (b :: bs, st)
  end.

End Textures.

(** The loop of [BindGLTextures], from [i] on. *)
Definition BindGLTextures_body (st : SceneManager) (s : Z * GLContext)
    : result (Z * GLContext) :=
  let '(i, g) := s in
  let g := GL.glActiveTexture i g in
  e ← array_get (m_textureIDs st) i;
  let g := GL.glBindTexture (TEXTURE_INFO.ID e) g in
  Ok (i + 1, g).

Definition BindGLTextures (st : SceneManager) : result SceneManager :=
  '(_, g) ← while (Z.to_nat (m_loadedTextures st))
              (λ s, fst s <? m_loadedTextures st)
              (BindGLTextures_body st) (0, gl st);
  Ok (set_gl g st).

(** The state of the scanning loops: [index], [bFound] and the value found. *)
Record scan (V : Type) : Type := Scan { index : Z; bFound : bool; found : V }.
Arguments Scan {V} index bFound found.
Arguments index {V} s.
Arguments bFound {V} s.
Arguments found {V} s.

Definition scanning {V : Type} (size : Z) (s : scan V) : bool :=
  (index s <? size) && negb (bFound s).

(** One turn of the loop of [FindTextureID]. *)
Definition FindTextureID_step (tag : string) (st : SceneManager) (s : scan Z)
    : result (scan Z) :=
  e ← array_get (m_textureIDs st) (index s);
  if String.eqb (TEXTURE_INFO.tag e) tag
  then Ok (Scan (index s) true (TEXTURE_INFO.ID e))
  else Ok (Scan (index s + 1) (bFound s) (found s)).

Definition FindTextureID (tag : string) (st : SceneManager) : result Z :=
  s ← while (Z.to_nat (m_loadedTextures st) + 1)
        (scanning (m_loadedTextures st))
        (FindTextureID_step tag st)
        (Scan 0 false (-1));
  Ok (found s).

(** One turn of the loop of [FindTextureSlot]. *)
Definition FindTextureSlot_step (tag : string) (st : SceneManager) (s : scan Z)
    : result (scan Z) :=
  e ← array_get (m_textureIDs st) (index s);
  if String.eqb (TEXTURE_INFO.tag e) tag
  then Ok (Scan (index s) true (index s))
  else Ok (Scan (index s + 1) (bFound s) (found s)).

Definition FindTextureSlot (tag : string) (st : SceneManager) : result Z :=
  s ← while (Z.to_nat (m_loadedTextures st) + 1)
        (scanning (m_loadedTextures st))
        (FindTextureSlot_step tag st)
        (Scan 0 false (-1));
  Ok (found s).

(** *** Material registry *)

(** The three assignments through the reference [material]; its [tag] is
    not assigned. *)
Definition copy_material (e material : OBJECT_MATERIAL.t) : OBJECT_MATERIAL.t :=
  {| OBJECT_MATERIAL.diffuseColor := OBJECT_MATERIAL.diffuseColor e;
     OBJECT_MATERIAL.specularColor := OBJECT_MATERIAL.specularColor e;
     OBJECT_MATERIAL.shininess := OBJECT_MATERIAL.shininess e;
     OBJECT_MATERIAL.tag := OBJECT_MATERIAL.tag material |}.

(** One turn of the loop of [FindMaterial]. *)
Definition FindMaterial_step (tag : string) (st : SceneManager)
    (s : scan OBJECT_MATERIAL.t) : result (scan OBJECT_MATERIAL.t) :=
  e ← array_get (m_objectMaterials st) (index s);
  if String.eqb (OBJECT_MATERIAL.tag e) tag
  then Ok (Scan (index s) true (copy_material e (found s)))
  else Ok (Scan (index s + 1) (bFound s) (found s)).

(** [FindMaterial] fills the caller's [material] through the reference and
    returns the flag. *)
Definition FindMaterial (tag : string) (material : OBJECT_MATERIAL.t) (st : SceneManager)
    : result (bool * OBJECT_MATERIAL.t) :=
  if Z.of_nat (length (m_objectMaterials st)) =? 0 then Ok (false, material)
  else
    s ← while (length (m_objectMaterials st) + 1)
          (scanning (Z.of_nat (length (m_objectMaterials st))))
          (FindMaterial_step tag st)
          (Scan 0 false material);
    Ok (true, found s).

(** *** Transform composition and the shader-state setters *)

Definition is_null {A : Type} (p : option A) : bool :=
  match p with Some _ => false | None => true end.

(** The matrix [modelView] that [SetTransformations] computes. *)
Definition modelView (scaleXYZ : vec3)
    (XrotationDegrees YrotationDegrees ZrotationDegrees : R)
    (positionXYZ : vec3) : mat4 :=
  let scale := Glm.scale scaleXYZ in
  let rotationX := rotate (radians XrotationDegrees) (Vec3 1 0 0) in
  let rotationY := rotate (radians YrotationDegrees) (Vec3 0 1 0) in
  let rotationZ := rotate (radians ZrotationDegrees) (Vec3 0 0 1) in
  let translation := translate positionXYZ in
  (translation * rotationZ * rotationY * rotationX * scale)%mat.

Definition SetTransformations (scaleXYZ : vec3)
    (XrotationDegrees YrotationDegrees ZrotationDegrees : R)
    (positionXYZ : vec3) (st : SceneManager) : result SceneManager :=
  let modelView :=
    modelView scaleXYZ XrotationDegrees YrotationDegrees ZrotationDegrees
      positionXYZ in
  if negb (is_null (m_pShaderManager st)) then
    call_shader (Shader.setMat4Value g_ModelName modelView) st
  else Ok st.

Definition SetShaderColor (redColorValue greenColorValue blueColorValue alphaValue : R)
    (st : SceneManager) : result SceneManager :=
  let currentColor := Vec4 redColorValue greenColorValue blueColorValue alphaValue in
  if negb (is_null (m_pShaderManager st)) then
    st ← call_shader (Shader.setIntValue g_UseTextureName (int_of_bool false)) st;
    call_shader (Shader.setVec4Value g_ColorValueName currentColor) st
  else Ok st.

Definition SetShaderTexture (textureTag : string) (st : SceneManager)
    : result SceneManager :=
  if negb (is_null (m_pShaderManager st)) then
    st ← call_shader (Shader.setIntValue g_UseTextureName (int_of_bool true)) st;
    textureID ← FindTextureSlot textureTag st;
    call_shader (Shader.setSampler2DValue g_TextureValueName textureID) st
  else Ok st.

Definition SetTextureUVScale (u v : R) (st : SceneManager) : result SceneManager :=
  if negb (is_null (m_pShaderManager st)) then
    call_shader (Shader.setVec2Value "UVscale" (Vec2 u v)) st
  else Ok st.

Section Scene.

(** What the uninitialised local [OBJECT_MATERIAL material] of
    [SetShaderMaterial] holds before [FindMaterial] fills it: any value. *)
Variable indeterminate : OBJECT_MATERIAL.t.

Definition SetShaderMaterial (materialTag : string) (st : SceneManager)
    : result SceneManager :=
  if Z.of_nat (length (m_objectMaterials st)) >? 0 then
    let material := indeterminate in
    r ← FindMaterial materialTag material st;
    let bReturn : bool := fst r in
    let material : OBJECT_MATERIAL.t := snd r in
    if bReturn then
      st ← call_shader (Shader.setVec3Value "material.diffuseColor"
                          (OBJECT_MATERIAL.diffuseColor material)) st;
      st ← call_shader (Shader.setVec3Value "material.specularColor"
                          (OBJECT_MATERIAL.specularColor material)) st;
      call_shader (Shader.setFloatValue "material.shininess"
                     (OBJECT_MATERIAL.shininess material)) st
    else Ok st
  else Ok st.

#[local] Open Scope R_scope.

Definition CreateBottle1 (hs1x hs1y hs1z hs1 : R) (tex : string) (st : SceneManager)
    : result SceneManager :=
  (* cylinder inside to represent sauces *)
  let scaleXYZ := Vec3 (hs1 * 0.7) (hs1 * 2.8) (hs1 * 0.7) in
  let positionXYZ := Vec3 (0.0 + hs1x) (hs1 * (0.2 + hs1y)) (0.0 + hs1z) in
  st ← SetTransformations scaleXYZ 0.0 0.0 0.0 positionXYZ st;
  st ← SetTextureUVScale 50.0 50.0 st;
  st ← SetShaderTexture tex st;
  st ← draw CylinderMesh st;
  (* cylinder base *)
  let scaleXYZ := Vec3 (hs1 * 0.8) (hs1 * 3.0) (hs1 * 0.8) in
  let positionXYZ := Vec3 (0.0 + hs1x) (hs1 * (0.0 + hs1y)) (0.0 + hs1z) in
  st ← SetTransformations scaleXYZ 0.0 0.0 0.0 positionXYZ st;
  st ← SetShaderColor 0.7 0.7 0.8 0.3 st;
  st ← SetShaderMaterial "glass" st;
  st ← draw CylinderMesh st;
  (* tapered cylinder for neck of bottle *)
  let scaleXYZ := Vec3 (hs1 * 0.8) (hs1 * 1.0) (hs1 * 0.8) in
  let positionXYZ := Vec3 (0.0 + hs1x) (hs1 * (3.0 + hs1y)) (0.0 + hs1z) in
  st ← SetTransformations scaleXYZ 0.0 0.0 0.0 positionXYZ st;
  st ← SetShaderColor 0.7 0.7 0.8 0.3 st;
  st ← SetShaderMaterial "glass" st;
  st ← draw TaperedCylinderMesh st;
  (* cylinder for lid *)
  let scaleXYZ := Vec3 (hs1 * 0.5) (hs1 * 0.7) (hs1 * 0.5) in
  let positionXYZ := Vec3 (0.0 + hs1x) (hs1 * (4.8 + hs1y)) (0.0 + hs1z) in
  st ← SetTransformations scaleXYZ 0.0 0.0 0.0 positionXYZ st;
  st ← SetTextureUVScale 1.0 1.0 st;
  st ← SetShaderTexture "lid" st;
  st ← SetShaderMaterial "plastic" st;
  st ← draw CylinderMesh st;
  (* additional cylinder for non-tapered part of neck *)
  let scaleXYZ := Vec3 (hs1 * 0.4) (hs1 * 1.0) (hs1 * 0.4) in
  let positionXYZ := Vec3 (0.0 + hs1x) (hs1 * (4.0 + hs1y)) (0.0 + hs1z) in
  st ← SetTransformations scaleXYZ 0.0 0.0 0.0 positionXYZ st;
  st ← SetShaderColor 0.7 0.7 0.8 0.3 st;
  st ← SetShaderMaterial "glass" st;
  draw CylinderMesh st.

End Scene.

Definition DefineObjectMaterials (st : SceneManager) : SceneManager :=
  let push (m : OBJECT_MATERIAL.t) (st : SceneManager) :=
    set_materials (m_objectMaterials st ++ [m]) st in
  let glassMaterial :=
    {| OBJECT_MATERIAL.diffuseColor := Vec3 0.2 0.2 0.2;
       OBJECT_MATERIAL.specularColor := Vec3 1.0 1.0 1.0;
       OBJECT_MATERIAL.shininess := 95.0;
       OBJECT_MATERIAL.tag := "glass" |}%R in
  let st := push glassMaterial st in
  let plasticMaterial :=
    {| OBJECT_MATERIAL.diffuseColor := Vec3 0.1 0.1 0.1;
       OBJECT_MATERIAL.specularColor := Vec3 0.1 0.1 0.1;
       OBJECT_MATERIAL.shininess := 0.01;
       OBJECT_MATERIAL.tag := "plastic" |}%R in
  let st := push plasticMaterial st in
  let woodMaterial :=
    {| OBJECT_MATERIAL.diffuseColor := Vec3 0.3 0.3 0.3;
       OBJECT_MATERIAL.specularColor := Vec3 0.7 0.7 0.7;
       OBJECT_MATERIAL.shininess := 80.0;
       OBJECT_MATERIAL.tag := "wood" |}%R in
  let st := push woodMaterial st in
  let wallMaterial :=
    {| OBJECT_MATERIAL.diffuseColor := Vec3 0.3 0.3 0.3;
       OBJECT_MATERIAL.specularColor := Vec3 0.6 0.6 0.6;
       OBJECT_MATERIAL.shininess := 75.0;
       OBJECT_MATERIAL.tag := "wall" |}%R in
  let st := push wallMaterial st in
  let shelfMaterial :=
    {| OBJECT_MATERIAL.diffuseColor := Vec3 0.6 0.6 0.6;
       OBJECT_MATERIAL.specularColor := Vec3 0.2 0.2 0.2;
       OBJECT_MATERIAL.shininess := 0.2;
       OBJECT_MATERIAL.tag := "shelf" |}%R in
  push shelfMaterial st.

(** The files and tags of [LoadSceneTextures], in its order. *)
Definition scene_textures : list (string * string) :=
  [("textures/wood.jpg", "wood"); ("textures/sauce1.jpg", "sauce1");
   ("textures/sauce2.jpg", "sauce2"); ("textures/sauce3.jpg", "sauce3");
   ("textures/sauce4.jpg", "sauce4"); ("textures/lid.jpg", "lid");
   ("textures/wall.jpg", "wall"); ("textures/shelfwood.jpg", "shelf");
   ("textures/redplastic.jpg", "redplastic")].

Definition LoadSceneTextures (stbi_load : string → option stb_image)
    (st : SceneManager) : result SceneManager :=
  '(_, st) ← load_all stbi_load scene_textures st;
  BindGLTextures st.

(** ** The matrices the specification names

    The textbook matrices for column vectors in a right-handed frame,
    written row by row; these follow the specification's words and are
    compared with GLM's constructors below. *)

Module Spec.
#[local] Open Scope R_scope.

Definition of_rows (r0 r1 r2 r3 : vec4) : mat4 :=
  Mat4 (Vec4 (x4 r0) (x4 r1) (x4 r2) (x4 r3))
       (Vec4 (y4 r0) (y4 r1) (y4 r2) (y4 r3))
       (Vec4 (z4 r0) (z4 r1) (z4 r2) (z4 r3))
       (Vec4 (w4 r0) (w4 r1) (w4 r2) (w4 r3)).

Definition Scale (s : vec3) : mat4 :=
  of_rows (Vec4 (x3 s) 0 0 0)
          (Vec4 0 (y3 s) 0 0)
          (Vec4 0 0 (z3 s) 0)
          (Vec4 0 0 0 1).

Definition Translate (t : vec3) : mat4 :=
  of_rows (Vec4 1 0 0 (x3 t))
          (Vec4 0 1 0 (y3 t))
          (Vec4 0 0 1 (z3 t))
          (Vec4 0 0 0 1).

Definition RotateX (degrees : R) : mat4 :=
  let a := degrees * PI / 180 in
  of_rows (Vec4 1 0 0 0)
          (Vec4 0 (cos a) (- sin a) 0)
          (Vec4 0 (sin a) (cos a) 0)
          (Vec4 0 0 0 1).

Definition RotateY (degrees : R) : mat4 :=
  let a := degrees * PI / 180 in
  of_rows (Vec4 (cos a) 0 (sin a) 0)
          (Vec4 0 1 0 0)
          (Vec4 (- sin a) 0 (cos a) 0)
          (Vec4 0 0 0 1).

Definition RotateZ (degrees : R) : mat4 :=
  let a := degrees * PI / 180 in
  of_rows (Vec4 (cos a) (- sin a) 0 0)
          (Vec4 (sin a) (cos a) 0 0)
          (Vec4 0 0 1 0)
          (Vec4 0 0 0 1).

End Spec.

(** ** Reading the scene back *)

(** A scene before any texture is loaded or material defined; the array
    [m_textureIDs] has [capacity] slots. *)
Definition empty_slot : TEXTURE_INFO.t :=
  {| TEXTURE_INFO.tag := ""; TEXTURE_INFO.ID := 0 |}.

Definition fresh_gl : GLContext :=
  {| gl_unused := 1; gl_active := 0; gl_bound := ∅; gl_images := ∅ |}.

Definition fresh_scene (capacity : nat) (shader : option ShaderManager) : SceneManager :=
  {| m_pShaderManager := shader; m_basicMeshes := [];
     m_loadedTextures := 0; m_textureIDs := replicate capacity empty_slot;
     m_objectMaterials := []; gl := fresh_gl |}.

(** The registry counter stays within the array. *)
Definition registry_ok (st : SceneManager) : Prop :=
  m_loadedTextures st ≤ Z.of_nat (length (m_textureIDs st)).

(** No registered texture carries [tag]. *)
Definition texture_absent (tag : string) (st : SceneManager) : Prop :=
  ∀ (i : nat) (e : TEXTURE_INFO.t),
    Z.of_nat i < m_loadedTextures st → m_textureIDs st !! i = Some e →
    TEXTURE_INFO.tag e ≠ tag.

(** No defined material carries [tag]. *)
Definition material_absent (tag : string) (st : SceneManager) : Prop :=
  ∀ e : OBJECT_MATERIAL.t, e ∈ m_objectMaterials st → OBJECT_MATERIAL.tag e ≠ tag.

(** Whether slot [i] of the texture array, or entry [i] of the material
    list, carries [tag]. *)
Definition tag_at (a : list TEXTURE_INFO.t) (tag : string) (i : Z) : bool :=
  match a !! Z.to_nat i with
  | Some e => String.eqb (TEXTURE_INFO.tag e) tag
  | None => false
  end.

Definition material_at (a : list OBJECT_MATERIAL.t) (tag : string) (i : Z) : bool :=
  match a !! Z.to_nat i with
  | Some e => String.eqb (OBJECT_MATERIAL.tag e) tag
  | None => false
  end.

(** What the loop of [FindMaterial] copies out at entry [i]. *)
Definition material_hit (a : list OBJECT_MATERIAL.t) (i : Z) (m : OBJECT_MATERIAL.t)
    : OBJECT_MATERIAL.t :=
  match a !! Z.to_nat i with
  | Some e => copy_material e m
  | None => m
  end.

(** The scene after [DefineObjectMaterials], no texture loaded, with the
    given shader pointer and 16 texture slots. *)
Definition scene_with_materials (shader : option ShaderManager) : SceneManager :=
  DefineObjectMaterials (fresh_scene 16 shader).

(** [st] with a shader bound whose log is [sm], and [draws] issued. *)
Definition scene_at (sm : ShaderManager) (draws : list DrawCall) (st : SceneManager)
    : SceneManager :=
  {| m_pShaderManager := Some sm; m_basicMeshes := draws;
     m_loadedTextures := m_loadedTextures st; m_textureIDs := m_textureIDs st;
     m_objectMaterials := m_objectMaterials st; gl := gl st |}.

(** What a load does to the OpenGL state when the image is accepted. *)
Definition uploaded (fmt : GLformat) (image : stb_image) (g : GLContext) : GLContext :=
  GL.glBindTexture 0
    (GL.glGenerateMipmap
       (GL.glTexImage2D fmt (width image) (height image)
          (GL.glBindTexture (gl_unused g) (snd (GL.glGenTextures g))))).

Definition format_of (image : stb_image) : GLformat :=
  if colorChannels image =? 3 then GL_RGB8 else GL_RGBA8.

(** The registry of [st'] is that of [st] after the loads [files], each
    accepted: the count has grown by their number, the array has kept its
    size and the slots below the old count, and the slot of load [k] holds
    its tag with the texture name generated for it. *)
Definition loaded_after (files : list (string * string)) (st st' : SceneManager)
    : Prop :=
  m_loadedTextures st' = m_loadedTextures st + Z.of_nat (length files)
  ∧ length (m_textureIDs st') = length (m_textureIDs st)
  ∧ (files ≠ [] → registry_ok st')
  ∧ gl_unused (gl st') = gl_unused (gl st) + Z.of_nat (length files)
  ∧ (∀ i : nat, (i < Z.to_nat (m_loadedTextures st))%nat →
       m_textureIDs st' !! i = m_textureIDs st !! i)
  ∧ (∀ (k : nat) (filename tag : string),
       files !! k = Some (filename, tag) →
       m_textureIDs st' !! (Z.to_nat (m_loadedTextures st) + k)%nat =
       Some {| TEXTURE_INFO.tag := tag;
               TEXTURE_INFO.ID := gl_unused (gl st) + Z.of_nat k |}).

(** A decoder that reads every file as a 64 x 64 image of [channels]
    channels. *)
Definition decode_as (channels : Z) (filename : string) : option stb_image :=
  Some {| width := 64; height := 64; colorChannels := channels |}.

(** The scene once its materials are defined and its nine textures loaded
    from RGB files; a shader is bound. *)
Definition loaded_scene : SceneManager :=
  match load_all (decode_as 3) scene_textures (scene_with_materials (Some [])) with
  | Ok (_, st) => st
  | _ => scene_with_materials (Some [])
  end.

(** A scene whose 16 texture slots are all taken. *)
Definition full_scene : SceneManager :=
  set_textures 16 (m_textureIDs (fresh_scene 16 None)) (fresh_scene 16 None).

(** [texture_absent], computed. *)
Definition no_texture_tagged (tag : string) (st : SceneManager) : bool :=
  forallb (λ e, negb (String.eqb (TEXTURE_INFO.tag e) tag))
    (take (Z.to_nat (m_loadedTextures st)) (m_textureIDs st)).

(** The model matrix a draw call was issued under. *)
Definition model_of (d : DrawCall) : option mat4 :=
  match snd d with
  | Some sm =>
      match Shader.uniform g_ModelName sm with
      | Some (UMat4 m) => Some m
      | _ => None
      end
  | None => None
  end.

(** Size and position of a primitive drawn without rotation: the diagonal
    and the last column of its model matrix. *)
Definition size_of (m : mat4) : vec3 :=
  Vec3 (x4 (col0 m)) (y4 (col1 m)) (z4 (col2 m)).

Definition position_of (m : mat4) : vec3 :=
  Vec3 (x4 (col3 m)) (y4 (col3 m)) (z4 (col3 m)).

(** The draw calls a builder adds to those of [st]. *)
Definition drawn_by (build : SceneManager → result SceneManager) (st : SceneManager)
    : list DrawCall :=
  match build st with
  | Ok st' => drop (length (m_basicMeshes st)) (m_basicMeshes st')
  | _ => []
  end.

(** A setter that, on a scene with a shader bound, only appends writes to
    the log, none of them to "model". *)
Definition shading (f : SceneManager → result SceneManager) : Prop :=
  ∀ (sm : ShaderManager) (d : list DrawCall) (st : SceneManager),
    registry_ok st →
    ∃ ws, f (scene_at sm d st) = Ok (scene_at (sm ++ ws) d st)
          ∧ Shader.uniform g_ModelName ws = None.

(** The model matrices of the primitives that [CreateBottle1] draws, in
    the order it draws them. *)
Definition bottle_models (indeterminate : OBJECT_MATERIAL.t) (hs1x hs1y hs1z hs1 : R)
    (tex : string) (st : SceneManager) : list (option mat4) :=
  model_of <$> drawn_by (CreateBottle1 indeterminate hs1x hs1y hs1z hs1 tex) st.

(** The claim of proportional scaling as the specification words it: every
    primitive of the build with factor [2 * hs1] has twice the size and
    twice the position of the same primitive of the build with [hs1]. *)
Definition doubles_size_and_position (indeterminate : OBJECT_MATERIAL.t)
    (hs1x hs1y hs1z hs1 : R) (tex : string) (st : SceneManager) : Prop :=
  ∀ (k : nat) (a b : mat4),
    bottle_models indeterminate hs1x hs1y hs1z hs1 tex st !! k = Some (Some a) →
    bottle_models indeterminate hs1x hs1y hs1z (2 * hs1) tex st !! k = Some (Some b) →
    size_of b = vec3_scale (size_of a) 2
    ∧ position_of b = vec3_scale (position_of a) 2.

(** A material of zeros, to stand for the uninitialised local. *)
Definition zero_material : OBJECT_MATERIAL.t :=
  {| OBJECT_MATERIAL.diffuseColor := Vec3 0 0 0;
     OBJECT_MATERIAL.specularColor := Vec3 0 0 0;
     OBJECT_MATERIAL.shininess := 0;
     OBJECT_MATERIAL.tag := "" |}.

(** ** The rest of the class *)

(** The loop of [DestroyGLTextures]: [glGenTextures(1, &m_textureIDs[i].ID)]
    generates a name and stores it in slot [i]. *)
Definition DestroyGLTextures_body (s : Z * (list TEXTURE_INFO.t * GLContext))
    : result (Z * (list TEXTURE_INFO.t * GLContext)) :=
  let '(i, (a, g)) := s in
  let '(name, g) := GL.glGenTextures g in
  a ← array_modify a i (with_ID name);
  Ok (i + 1, (a, g)).

Definition DestroyGLTextures (st : SceneManager) : result SceneManager :=
  '(_, (a, g)) ← while (Z.to_nat (m_loadedTextures st))
                   (λ s, fst s <? m_loadedTextures st)
                   DestroyGLTextures_body (0, (m_textureIDs st, gl st));
  Ok (set_gl g (set_textures (m_loadedTextures st) a st)).

(** [SetupSceneLights]: every call goes through [m_pShaderManager]
    unguarded; the three-float form of [setVec3Value] passes the vector of
    its arguments. *)
Definition SetupSceneLights (st : SceneManager) : result SceneManager :=
  st ← call_shader (Shader.setBoolValue g_UseLightingName true) st;
  st ← call_shader (Shader.setVec3Value "directionalLight.direction"
                      (Vec3 (-0.05) (-0.3) (-0.1))%R) st;
  st ← call_shader (Shader.setVec3Value "directionalLight.ambient"
                      (Vec3 0.07 0.05 0.05)%R) st;
  st ← call_shader (Shader.setVec3Value "directionalLight.diffuse"
                      (Vec3 0.8 0.6 0.6)%R) st;
  st ← call_shader (Shader.setVec3Value "directionalLight.specular"
                      (Vec3 1.0 0.8 0.8)%R) st;
  st ← call_shader (Shader.setBoolValue "directionalLight.bActive" true) st;
  st ← call_shader (Shader.setVec3Value "pointLights[0].position"
                      (Vec3 3.0 2.0 2.0)%R) st;
  st ← call_shader (Shader.setVec3Value "pointLights[0].ambient"
                      (Vec3 0.1 0.1 0.1)%R) st;
  st ← call_shader (Shader.setVec3Value "pointLights[0].diffuse"
                      (Vec3 0.15 0.15 0.15)%R) st;
  st ← call_shader (Shader.setVec3Value "pointLights[0].specular"
                      (Vec3 0.35 0.35 0.35)%R) st;
  st ← call_shader (Shader.setBoolValue "pointLights[0].bActive" true) st;
  st ← call_shader (Shader.setVec3Value "pointLights[1].position"
                      (Vec3 (-3.0) 2.0 2.0)%R) st;
  st ← call_shader (Shader.setVec3Value "pointLights[1].ambient"
                      (Vec3 0.1 0.1 0.1)%R) st;
  st ← call_shader (Shader.setVec3Value "pointLights[1].diffuse"
                      (Vec3 0.15 0.15 0.15)%R) st;
  st ← call_shader (Shader.setVec3Value "pointLights[1].specular"
                      (Vec3 0.35 0.35 0.35)%R) st;
  st ← call_shader (Shader.setBoolValue "pointLights[1].bActive" true) st;
  st ← call_shader (Shader.setVec3Value "pointLights[2].position"
                      (Vec3 0.0 2.0 2.0)%R) st;
  st ← call_shader (Shader.setVec3Value "pointLights[2].ambient"
                      (Vec3 0.2 0.2 0.2)%R) st;
  st ← call_shader (Shader.setVec3Value "pointLights[2].diffuse"
                      (Vec3 0.5 0.5 0.5)%R) st;
  st ← call_shader (Shader.setVec3Value "pointLights[2].specular"
                      (Vec3 0.9 0.9 0.9)%R) st;
  call_shader (Shader.setBoolValue "pointLights[2].bActive" true) st.

(** Modelled from the spec: [Load<Shape>Mesh] of the class [ShapeMeshes],
    which is not part of this source file, is a "one-time geometry upload";
    the shapes uploaded are returned beside the scene, in the order of the
    calls. *)
Definition PrepareScene (stbi_load : string → option stb_image)
    (st : SceneManager) : result (SceneManager * list Mesh) :=
  st ← LoadSceneTextures stbi_load st;
  let st := DefineObjectMaterials st in
  st ← SetupSceneLights st;
  Ok (st, [PlaneMesh; BoxMesh; CylinderMesh; TaperedCylinderMesh; TorusMesh]).

Section Builders.

Variable indeterminate : OBJECT_MATERIAL.t.

#[local] Open Scope R_scope.

Definition CreateShelf (st : SceneManager) : result SceneManager :=
  (* shorter shelf *)
  st ← SetTransformations (Vec3 10.0 1.0 2.0) 0.0 0.0 0.0 (Vec3 0.0 0.5 3.0) st;
  st ← SetShaderTexture "shelf" st;
  st ← SetShaderMaterial indeterminate "shelf" st;
  st ← draw BoxMesh st;
  (* medium shelf *)
  st ← SetTransformations (Vec3 10.0 2.0 2.0) 0.0 0.0 0.0 (Vec3 0.0 1.0 1.0) st;
  st ← SetShaderTexture "shelf" st;
  st ← SetShaderMaterial indeterminate "shelf" st;
  st ← draw BoxMesh st;
  (* large shelf *)
  st ← SetTransformations (Vec3 10.0 3.0 2.0) 0.0 0.0 0.0 (Vec3 0.0 1.5 (-1.0)) st;
  st ← SetShaderTexture "shelf" st;
  st ← SetShaderMaterial indeterminate "shelf" st;
  st ← draw BoxMesh st;
  (* sides of lower shelf *)
  st ← SetTransformations (Vec3 0.3 1.3 2.2) 0.0 0.0 0.0 (Vec3 5.0 0.65 3.0) st;
  st ← SetShaderTexture "shelf" st;
  st ← SetShaderMaterial indeterminate "shelf" st;
  st ← draw BoxMesh st;
  st ← SetTransformations (Vec3 0.3 1.3 2.2) 0.0 0.0 0.0 (Vec3 (-5.0) 0.65 3.0) st;
  st ← SetShaderTexture "shelf" st;
  st ← SetShaderMaterial indeterminate "shelf" st;
  st ← draw BoxMesh st;
  (* sides of middle shelf *)
  st ← SetTransformations (Vec3 0.3 2.3 2.2) 0.0 0.0 0.0 (Vec3 5.0 1.15 1.0) st;
  st ← SetShaderTexture "shelf" st;
  st ← SetShaderMaterial indeterminate "shelf" st;
  st ← draw BoxMesh st;
  st ← SetTransformations (Vec3 0.3 2.3 2.2) 0.0 0.0 0.0 (Vec3 (-5.0) 1.15 1.0) st;
  st ← SetShaderTexture "shelf" st;
  st ← SetShaderMaterial indeterminate "shelf" st;
  st ← draw BoxMesh st;
  (* sides of top shelf *)
  st ← SetTransformations (Vec3 0.3 3.3 2.2) 0.0 0.0 0.0 (Vec3 5.0 1.65 (-1.0)) st;
  st ← SetShaderTexture "shelf" st;
  st ← SetShaderMaterial indeterminate "shelf" st;
  st ← draw BoxMesh st;
  st ← SetTransformations (Vec3 0.3 3.3 2.2) 0.0 0.0 0.0 (Vec3 (-5.0) 1.65 (-1.0)) st;
  st ← SetShaderTexture "shelf" st;
  st ← SetShaderMaterial indeterminate "shelf" st;
  draw BoxMesh st.

Definition CreateBottle2 (hs2x hs2y hs2z hs2 : R) (tex : string) (st : SceneManager)
    : result SceneManager :=
  (* standard bottle *)
  st ← CreateBottle1 indeterminate hs2x hs2y hs2z hs2 tex st;
  (* torus for ring *)
  let scaleXYZ := Vec3 (hs2 * 0.6) (hs2 * 0.4) (hs2 * 0.6) in
  let positionXYZ := Vec3 (hs2x + 0.0) (hs2 * (hs2y + 4.2)) (hs2z + 0.0) in
  st ← SetTransformations scaleXYZ (-67.0) 0.0 13.0 positionXYZ st;
  st ← SetShaderTexture "lid" st;
  st ← SetShaderMaterial indeterminate "plastic" st;
  draw TorusMesh st.

Definition CreateBottle3 (hs3x hs3y hs3z hs3 : R) (tex : string) (st : SceneManager)
    : result SceneManager :=
  (* cylinder inside to represent sauces *)
  let scaleXYZ := Vec3 (hs3 * 1.0) (hs3 * 2.8) (hs3 * 1.0) in
  let positionXYZ := Vec3 (0.0 + hs3x) (hs3 * (0.2 + hs3y)) (0.0 + hs3z) in
  st ← SetTransformations scaleXYZ 0.0 0.0 0.0 positionXYZ st;
  st ← SetTextureUVScale 50.0 50.0 st;
  st ← SetShaderTexture tex st;
  st ← draw CylinderMesh st;
  (* cylinder base *)
  let scaleXYZ := Vec3 (hs3 * 1.1) (hs3 * 3.0) (hs3 * 1.1) in
  let positionXYZ := Vec3 (0.0 + hs3x) (hs3 * (0.0 + hs3y)) (0.0 + hs3z) in
  st ← SetTransformations scaleXYZ 0.0 0.0 0.0 positionXYZ st;
  st ← SetShaderColor 0.7 0.7 0.8 0.3 st;
  st ← SetShaderMaterial indeterminate "glass" st;
  st ← draw CylinderMesh st;
  (* tapered cylinder for neck of bottle *)
  let scaleXYZ := Vec3 (hs3 * 1.0) (hs3 * 1.0) (hs3 * 1.0) in
  let positionXYZ := Vec3 (0.0 + hs3x) (hs3 * (3.0 + hs3y)) (0.0 + hs3z) in
  st ← SetTransformations scaleXYZ 0.0 0.0 0.0 positionXYZ st;
  st ← SetShaderTexture "redplastic" st;
  st ← SetShaderMaterial indeterminate "plastic" st;
  st ← draw TaperedCylinderMesh st;
  (* tapered cylinder for neck of bottle *)
  let scaleXYZ := Vec3 (hs3 * 0.4) (hs3 * 1.3) (hs3 * 0.4) in
  let positionXYZ := Vec3 (0.0 + hs3x) (hs3 * (4.0 + hs3y)) (0.0 + hs3z) in
  st ← SetTransformations scaleXYZ 0.0 0.0 0.0 positionXYZ st;
  st ← SetShaderTexture "redplastic" st;
  st ← SetShaderMaterial indeterminate "plastic" st;
  st ← draw TaperedCylinderMesh st;
  (* tapered cylinder for tip of bottle *)
  let scaleXYZ := Vec3 (hs3 * 0.1) (hs3 * 0.1) (hs3 * 0.1) in
  let positionXYZ := Vec3 (0.0 + hs3x) (hs3 * (5.33 + hs3y)) (0.0 + hs3z) in
  st ← SetTransformations scaleXYZ 0.0 0.0 0.0 positionXYZ st;
  st ← SetShaderTexture "redplastic" st;
  st ← SetShaderMaterial indeterminate "plastic" st;
  draw TaperedCylinderMesh st.

End Builders.

(** ** Reading the registries as lists *)

(** The tags of the registered textures, slot 0 first. *)
Definition registered_tags (st : SceneManager) : list string :=
  TEXTURE_INFO.tag <$> take (Z.to_nat (m_loadedTextures st)) (m_textureIDs st).

(** The position of the first occurrence of [tag], or -1. *)
Fixpoint first_index (tag : string) (tags : list string) : Z :=
  match tags with
  | [] => -1
  | t :: rest =>
      if String.eqb t tag then 0
      else let k := first_index tag rest in
           if k <? 0 then -1 else k + 1
  end.

(** The tags of the loads that answered [true], in the order of loading. *)
Fixpoint kept_tags (files : list (string * string)) (results : list bool)
    : list string :=
  match files, results with
  | (_, tag) :: files, true :: results => tag :: kept_tags files results
  | _ :: files, false :: results => kept_tags files results
  | _, _ => []
  end.

(** The first entry of a list of materials that carries [tag]. *)
Fixpoint first_material (tag : string) (ms : list OBJECT_MATERIAL.t)
    : option OBJECT_MATERIAL.t :=
  match ms with
  | [] => None
  | e :: rest =>
      if String.eqb (OBJECT_MATERIAL.tag e) tag then Some e
      else first_material tag rest
  end.

(** The three uniforms [SetShaderMaterial] writes for a material. *)
Definition material_writes (m : OBJECT_MATERIAL.t) : ShaderManager :=
  [("material.diffuseColor"%string, UVec3 (OBJECT_MATERIAL.diffuseColor m));
   ("material.specularColor"%string, UVec3 (OBJECT_MATERIAL.specularColor m));
   ("material.shininess"%string, UFloat (OBJECT_MATERIAL.shininess m))].

(** A decoder that cannot read [missing] and reads every other file as a
    64 x 64 RGB image. *)
Definition decode_except (missing : string) (filename : string) : option stb_image :=
  if String.eqb filename missing then None else decode_as 3 filename.

(** The scene of [loaded_scene] when "textures/sauce2.jpg" cannot be read. *)
Definition gapped_scene : SceneManager :=
  match load_all (decode_except "textures/sauce2.jpg") scene_textures
          (scene_with_materials (Some [])) with
  | Ok (_, st) => st
  | _ => scene_with_materials (Some [])
  end.

(** [loaded_scene] after [BindGLTextures]. *)
Definition bound_scene : SceneManager :=
  match BindGLTextures loaded_scene with
  | Ok st => st
  | _ => loaded_scene
  end.

(** What [FindMaterial] leaves in the caller's [material]: the three
    values of the first entry carrying [tag], or [material] as it was. *)
Definition found_material (tag : string) (material : OBJECT_MATERIAL.t)
    (st : SceneManager) : OBJECT_MATERIAL.t :=
  match first_material tag (m_objectMaterials st) with
  | Some e => copy_material e material
  | None => material
  end.

(** A registry where the tag "glass" is defined twice, with different
    values. *)
Definition twice_glass (shader : option ShaderManager) : SceneManager :=
  set_materials
    [ {| OBJECT_MATERIAL.diffuseColor := Vec3 0.2 0.2 0.2;
         OBJECT_MATERIAL.specularColor := Vec3 1.0 1.0 1.0;
         OBJECT_MATERIAL.shininess := 95.0;
         OBJECT_MATERIAL.tag := "glass" |}%R;
      {| OBJECT_MATERIAL.diffuseColor := Vec3 0.9 0.9 0.9;
         OBJECT_MATERIAL.specularColor := Vec3 0.1 0.1 0.1;
         OBJECT_MATERIAL.shininess := 1.0;
         OBJECT_MATERIAL.tag := "glass" |}%R ]
    (fresh_scene 16 shader).

(** What [SetShaderMaterial] appends to the shader's writes: nothing when
    no material is defined, else the three uniforms of what [FindMaterial]
    left in the local. *)
Definition material_log (indeterminate : OBJECT_MATERIAL.t) (tag : string)
    (st : SceneManager) : ShaderManager :=
  match m_objectMaterials st with
  | [] => []
  | _ :: _ => material_writes (found_material tag indeterminate st)
  end.

(** What [SetShaderTexture] appends to the shader's writes. *)
Definition texture_log (tag : string) (st : SceneManager) : ShaderManager :=
  [(g_UseTextureName, UInt 1);
   (g_TextureValueName, USampler2D (first_index tag (registered_tags st)))].

(** What [SetShaderColor] appends to the shader's writes. *)
Definition color_log (r g b a : R) : ShaderManager :=
  [(g_UseTextureName, UInt 0); (g_ColorValueName, UVec4 (Vec4 r g b a))].



(** [st] with no shader bound, and [draws] issued. *)
Definition unbound_at (draws : list DrawCall) (st : SceneManager) : SceneManager :=
  {| m_pShaderManager := None; m_basicMeshes := draws;
     m_loadedTextures := m_loadedTextures st; m_textureIDs := m_textureIDs st;
     m_objectMaterials := m_objectMaterials st; gl := gl st |}.

(** * Properties *)

(** ** GLM's constructors are the textbook matrices *)

Section GlmFacts.
#[local] Open Scope R_scope.

Lemma vec3_eq (a b c a' b' c' : R) :
  a = a' → b = b' → c = c' → Vec3 a b c = Vec3 a' b' c'.
Proof. by intros -> -> ->. Qed.

Lemma vec4_eq (a b c d a' b' c' d' : R) :
  a = a' → b = b' → c = c' → d = d' → Vec4 a b c d = Vec4 a' b' c' d'.
Proof. by intros -> -> -> ->. Qed.

Lemma mat4_eq (a b c d a' b' c' d' : vec4) :
  a = a' → b = b' → c = c' → d = d' → Mat4 a b c d = Mat4 a' b' c' d'.
Proof. by intros -> -> -> ->. Qed.

Lemma sqrt_unit (u : R) : u = 1 → 1 / sqrt u = 1.
Proof. intros ->. rewrite sqrt_1. field. Qed.

Lemma normalize_X : normalize (Vec3 1 0 0) = Vec3 1 0 0.
Proof.
  unfold normalize, inversesqrt, dot, vec3_scale; cbn [x3 y3 z3].
  rewrite sqrt_unit by ring. apply vec3_eq; ring.
Qed.

Lemma normalize_Y : normalize (Vec3 0 1 0) = Vec3 0 1 0.
Proof.
  unfold normalize, inversesqrt, dot, vec3_scale; cbn [x3 y3 z3].
  rewrite sqrt_unit by ring. apply vec3_eq; ring.
Qed.

Lemma normalize_Z : normalize (Vec3 0 0 1) = Vec3 0 0 1.
Proof.
  unfold normalize, inversesqrt, dot, vec3_scale; cbn [x3 y3 z3].
  rewrite sqrt_unit by ring. apply vec3_eq; ring.
Qed.

Lemma radians_degrees (d : R) : radians d = d * PI / 180.
Proof. unfold radians. field. Qed.

Ltac mat_ring :=
  cbn [x3 y3 z3 x4 y4 z4 w4 col0 col1 col2 col3];
  apply mat4_eq; apply vec4_eq; ring.

Ltac unfold_glm :=
  unfold Glm.scale, rotate, translate, scale_m, rotate_m, translate_m,
    mat_mul, mat_col, mat_vec, vec4_add, vec4_scale, vec3_scale, identity,
    Spec.Scale, Spec.Translate, Spec.RotateX, Spec.RotateY, Spec.RotateZ,
    Spec.of_rows.

Lemma scale_spec (v : vec3) : Glm.scale v = Spec.Scale v.
Proof. unfold_glm. mat_ring. Qed.

Lemma translate_spec (v : vec3) : translate v = Spec.Translate v.
Proof. unfold_glm. mat_ring. Qed.

Lemma rotate_X_spec (d : R) : rotate (radians d) (Vec3 1 0 0) = Spec.RotateX d.
Proof.
  unfold rotate, rotate_m. rewrite normalize_X, radians_degrees.
  unfold_glm. mat_ring.
Qed.

Lemma rotate_Y_spec (d : R) : rotate (radians d) (Vec3 0 1 0) = Spec.RotateY d.
Proof.
  unfold rotate, rotate_m. rewrite normalize_Y, radians_degrees.
  unfold_glm. mat_ring.
Qed.

Lemma rotate_Z_spec (d : R) : rotate (radians d) (Vec3 0 0 1) = Spec.RotateZ d.
Proof.
  unfold rotate, rotate_m. rewrite normalize_Z, radians_degrees.
  unfold_glm. mat_ring.
Qed.

Lemma mat_vec_mul (a b : mat4) (v : vec4) :
  mat_vec (a * b)%mat v = mat_vec a (mat_vec b v).
Proof.
  unfold mat_mul, mat_col, mat_vec, vec4_add, vec4_scale.
  cbn [x4 y4 z4 w4 col0 col1 col2 col3]. apply vec4_eq; ring.
Qed.

Lemma modelView_spec (s : vec3) (rx ry rz : R) (p : vec3) :
  modelView s rx ry rz p =
  (Spec.Translate p * Spec.RotateZ rz * Spec.RotateY ry * Spec.RotateX rx
   * Spec.Scale s)%mat.
Proof.
  unfold modelView.
  by rewrite scale_spec, translate_spec, rotate_X_spec, rotate_Y_spec,
    rotate_Z_spec.
Qed.

End GlmFacts.

(** ** Transform composition *)

Section Transform.
#[local] Open Scope R_scope.

Lemma SetTransformations_bound (s : vec3) (rx ry rz : R) (p : vec3)
    (st : SceneManager) (sm : ShaderManager) :
  m_pShaderManager st = Some sm →
  SetTransformations s rx ry rz p st =
  Ok (set_shader (Some (sm ++ [(g_ModelName, UMat4 (modelView s rx ry rz p))])) st).
Proof.
  intros Hsm. unfold SetTransformations, call_shader. by rewrite Hsm.
Qed.

(** C4: with a shader bound, [SetTransformations] writes to the uniform
    "model" the product Translate * RotateZ * RotateY * RotateX * Scale of
    the five matrices built from its arguments, the rotations from degrees
    turned into radians; applied to a vector, the product scales first,
    then rotates about X, about Y, about Z, and translates last. *)
Theorem C4_model_matrix_is_T_Rz_Ry_Rx_S (s : vec3) (rx ry rz : R) (p : vec3)
    (st : SceneManager) (sm : ShaderManager) :
  m_pShaderManager st = Some sm →
  let M := (Spec.Translate p * Spec.RotateZ rz * Spec.RotateY ry
            * Spec.RotateX rx * Spec.Scale s)%mat in
  SetTransformations s rx ry rz p st =
    Ok (set_shader (Some (sm ++ [("model"%string, UMat4 M)])) st)
  ∧ ∀ v : vec4,
      mat_vec M v =
      mat_vec (Spec.Translate p)
        (mat_vec (Spec.RotateZ rz)
           (mat_vec (Spec.RotateY ry)
              (mat_vec (Spec.RotateX rx) (mat_vec (Spec.Scale s) v)))).
Proof.
  intros Hsm M. split.
  - rewrite (SetTransformations_bound _ _ _ _ _ _ _ Hsm).
    by rewrite modelView_spec.
  - intros v. subst M. by rewrite !mat_vec_mul.
Qed.

Lemma C4_witness :
  let st := fresh_scene 16 (Some []) in
  SetTransformations (Vec3 20 1 10) 90 0 0 (Vec3 0 10 (-5)) st =
  Ok (set_shader
        (Some [("model"%string,
                UMat4 (Spec.Translate (Vec3 0 10 (-5)) * Spec.RotateZ 0
                       * Spec.RotateY 0 * Spec.RotateX 90
                       * Spec.Scale (Vec3 20 1 10))%mat)]) st).
Proof.
  intros st.
  exact (proj1 (C4_model_matrix_is_T_Rz_Ry_Rx_S (Vec3 20 1 10) 90 0 0
                  (Vec3 0 10 (-5)) st [] eq_refl)).
Defined.

Lemma quarter_turn : 90 * PI / 180 = PI / 2.
Proof. field. Qed.

Lemma zero_turn : 0 * PI / 180 = 0.
Proof. field. Qed.

Ltac vec_ring :=
  unfold Spec.Translate, Spec.Scale, Spec.RotateX, Spec.RotateY, Spec.RotateZ,
    Spec.of_rows, mat_vec, vec4_add, vec4_scale;
  cbn [x3 y3 z3 x4 y4 z4 w4 col0 col1 col2 col3]; apply vec4_eq; ring.

Lemma Scale_vec (s : vec3) (v : vec4) :
  mat_vec (Spec.Scale s) v = Vec4 (x3 s * x4 v) (y3 s * y4 v) (z3 s * z4 v) (w4 v).
Proof. vec_ring. Qed.

Lemma Translate_vec (t : vec3) (v : vec4) :
  mat_vec (Spec.Translate t) v =
  Vec4 (x4 v + x3 t * w4 v) (y4 v + y3 t * w4 v) (z4 v + z3 t * w4 v) (w4 v).
Proof. vec_ring. Qed.

Lemma RotateX_vec (d : R) (v : vec4) :
  let a := d * PI / 180 in
  mat_vec (Spec.RotateX d) v =
  Vec4 (x4 v) (cos a * y4 v - sin a * z4 v) (sin a * y4 v + cos a * z4 v) (w4 v).
Proof. vec_ring. Qed.

Lemma RotateY_vec (d : R) (v : vec4) :
  let a := d * PI / 180 in
  mat_vec (Spec.RotateY d) v =
  Vec4 (cos a * x4 v + sin a * z4 v) (y4 v) (cos a * z4 v - sin a * x4 v) (w4 v).
Proof. vec_ring. Qed.

Lemma RotateZ_vec (d : R) (v : vec4) :
  let a := d * PI / 180 in
  mat_vec (Spec.RotateZ d) v =
  Vec4 (cos a * x4 v - sin a * y4 v) (sin a * x4 v + cos a * y4 v) (z4 v) (w4 v).
Proof. vec_ring. Qed.

Lemma quarter_turn_X (v : vec4) :
  mat_vec (modelView (Vec3 1 1 1) 90 0 0 (Vec3 0 0 0)) v =
  Vec4 (x4 v) (- z4 v) (y4 v) (w4 v).
Proof.
  rewrite modelView_spec, !mat_vec_mul.
  rewrite Scale_vec, RotateX_vec, RotateY_vec, RotateZ_vec, Translate_vec.
  rewrite quarter_turn, zero_turn, cos_PI2, sin_PI2, cos_0, sin_0.
  cbn [x3 y3 z3 x4 y4 z4 w4]. apply vec4_eq; ring.
Qed.

(** C5, as the code has it: the transform composed from scale (1,1,1),
    rotation (90,0,0) degrees and translation (0,0,0) maps the unit vector
    along +Y to the unit vector along +Z. *)
Theorem C5_quarter_turn_about_X_maps_Y_to_Z (w : R) :
  mat_vec (modelView (Vec3 1 1 1) 90 0 0 (Vec3 0 0 0)) (Vec4 0 1 0 w) =
  Vec4 0 0 1 w.
Proof.
  rewrite quarter_turn_X. cbn [x4 y4 z4 w4]. apply vec4_eq; ring.
Qed.

(** C5 as stated fails: the image of +Y is not the unit vector along -Z. *)
Lemma C5_counterexample :
  mat_vec (modelView (Vec3 1 1 1) 90 0 0 (Vec3 0 0 0)) (Vec4 0 1 0 0) ≠
  Vec4 0 0 (-1) 0.
Proof.
  rewrite quarter_turn_X. cbn [x4 y4 z4 w4]. intros H.
  apply (f_equal z4) in H. cbn [z4] in H. lra.
Qed.

End Transform.

(** ** The scanning loops *)

Lemma while_done {S : Type} (fuel : nat) (cond : S → bool)
    (body : S → result S) (s : S) :
  cond s = false → while fuel cond body s = Ok s.
Proof. intros H. destruct fuel; simpl; by rewrite H. Qed.

Lemma while_step {S : Type} (fuel : nat) (cond : S → bool)
    (body : S → result S) (s s' : S) :
  cond s = true → body s = Ok s' →
  while (Datatypes.S fuel) cond body s = while fuel cond body s'.
Proof. intros Hc Hb. simpl. by rewrite Hc, Hb. Qed.

Section Scanning.

Context {V : Type}.
Variable size : Z.
Variable body : scan V → result (scan V).
Variable matches : Z → bool.
Variable hit : Z → V → V.

Hypothesis body_spec : ∀ (i : Z) (v : V), 0 ≤ i < size →
  body (Scan i false v) =
  if matches i then Ok (Scan i true (hit i v)) else Ok (Scan (i + 1) false v).

Lemma scanning_true (i : Z) (v : V) :
  i < size → scanning size (Scan i false v) = true.
Proof. intros H. unfold scanning; simpl. rewrite andb_true_r. by apply Z.ltb_lt. Qed.

Lemma scanning_past (i : Z) (b : bool) (v : V) :
  size ≤ i → scanning size (Scan i b v) = false.
Proof. intros H. unfold scanning; simpl. by rewrite (proj2 (Z.ltb_ge i size) H). Qed.

Lemma scanning_found (i : Z) (v : V) : scanning size (Scan i true v) = false.
Proof. unfold scanning; simpl. apply andb_false_r. Qed.

(** No match from [i] on: the loop runs off the end with [bFound] still
    false and the value untouched. *)
Lemma scan_miss (fuel : nat) (i : Z) (v : V) :
  0 ≤ i → size - i ≤ Z.of_nat fuel →
  (∀ j, i ≤ j < size → matches j = false) →
  while fuel (scanning size) body (Scan i false v) =
  Ok (Scan (Z.max i size) false v).
Proof.
  revert i. induction fuel as [|n IH]; intros i Hi Hfuel Hmiss.
  - rewrite while_done by (apply scanning_past; lia).
    by rewrite Z.max_l by lia.
  - destruct (decide (i < size)) as [Hlt|Hge].
    + rewrite (while_step n _ _ _ (Scan (i + 1) false v)).
      * rewrite IH; [|lia|lia|intros j Hj; apply Hmiss; lia].
        by rewrite !Z.max_r by lia.
      * by apply scanning_true.
      * rewrite body_spec by lia. by rewrite Hmiss by lia.
    + rewrite while_done by (apply scanning_past; lia).
      by rewrite Z.max_l by lia.
Qed.

(** The first match at [k]: the loop stops there. *)
Lemma scan_hit (fuel : nat) (i k : Z) (v : V) :
  0 ≤ i ≤ k → k < size → k - i + 1 ≤ Z.of_nat fuel →
  matches k = true → (∀ j, i ≤ j < k → matches j = false) →
  while fuel (scanning size) body (Scan i false v) = Ok (Scan k true (hit k v)).
Proof.
  revert i. induction fuel as [|n IH]; intros i Hi Hk Hfuel Hhit Hmiss; [lia|].
  destruct (decide (i = k)) as [->|Hne].
  - rewrite (while_step n _ _ _ (Scan k true (hit k v))).
    + apply while_done, scanning_found.
    + apply scanning_true; lia.
    + rewrite body_spec by lia. by rewrite Hhit.
  - rewrite (while_step n _ _ _ (Scan (i + 1) false v)).
    + apply IH; [lia|lia|lia|done|intros j Hj; apply Hmiss; lia].
    + apply scanning_true; lia.
    + rewrite body_spec by lia. by rewrite Hmiss by lia.
Qed.

(** With one more iteration than there are entries the loop always ends. *)
Lemma scan_total (fuel : nat) (i : Z) (v : V) :
  0 ≤ i → size - i + 1 ≤ Z.of_nat fuel →
  ∃ s, while fuel (scanning size) body (Scan i false v) = Ok s.
Proof.
  revert i. induction fuel as [|n IH]; intros i Hi Hfuel.
  - eexists. apply while_done, scanning_past. lia.
  - destruct (decide (i < size)) as [Hlt|Hge].
    + destruct (matches i) eqn:Hm.
      * eexists. rewrite (while_step n _ _ _ (Scan i true (hit i v))).
        -- apply while_done, scanning_found.
        -- by apply scanning_true.
        -- rewrite body_spec by lia. by rewrite Hm.
      * destruct (IH (i + 1)) as [s Hs]; [lia|lia|].
        exists s. rewrite (while_step n _ _ _ (Scan (i + 1) false v)); [done| |].
        -- by apply scanning_true.
        -- rewrite body_spec by lia. by rewrite Hm.
    + eexists. apply while_done, scanning_past. lia.
Qed.

End Scanning.

Lemma array_get_Some {T : Type} (a : list T) (i : Z) (e : T) :
  0 ≤ i → a !! Z.to_nat i = Some e → array_get a i = Ok e.
Proof. intros Hi He. unfold array_get. rewrite decide_True by done. by rewrite He. Qed.

Lemma array_get_in_range {T : Type} (a : list T) (i : Z) :
  0 ≤ i < Z.of_nat (length a) → ∃ e, a !! Z.to_nat i = Some e ∧ array_get a i = Ok e.
Proof.
  intros Hi. destruct (lookup_lt_is_Some_2 a (Z.to_nat i)) as [e He]; [lia|].
  exists e. split; [done|]. apply array_get_Some; [lia|done].
Qed.

Lemma array_get_past {T : Type} (a : list T) (i : Z) :
  Z.of_nat (length a) ≤ i → array_get a i = Fault.
Proof.
  intros Hi. unfold array_get. case_decide; [|done].
  by rewrite lookup_ge_None_2 by lia.
Qed.

(** *** FindTextureSlot *)

Lemma FindTextureSlot_body (st : SceneManager) (tag : string) (Hok : registry_ok st)
    (i v : Z) :
  0 ≤ i < m_loadedTextures st →
  FindTextureSlot_step tag st (Scan i false v) =
  if tag_at (m_textureIDs st) tag i then Ok (Scan i true ((λ k _, k) i v))
  else Ok (Scan (i + 1) false v).
Proof.
  intros Hi. unfold FindTextureSlot_step. simpl.
  destruct (array_get_in_range (m_textureIDs st) i) as (e & He & ->).
  { unfold registry_ok in Hok. lia. }
  unfold tag_at. rewrite He. simpl. by destruct (String.eqb _ _).
Qed.

Lemma FindTextureSlot_miss (tag : string) (st : SceneManager) :
  registry_ok st → texture_absent tag st → FindTextureSlot tag st = Ok (-1).
Proof.
  intros Hok Habs. unfold FindTextureSlot.
  rewrite (scan_miss (m_loadedTextures st) _ (tag_at (m_textureIDs st) tag)
             (λ k _, k) (FindTextureSlot_body st tag Hok)).
  - done.
  - done.
  - lia.
  - intros j Hj. unfold tag_at.
    destruct (m_textureIDs st !! Z.to_nat j) as [e|] eqn:He; [|done].
    apply String.eqb_neq. apply (Habs (Z.to_nat j) e); [lia|done].
Qed.

Lemma FindTextureSlot_hit (tag : string) (st : SceneManager) (k : nat)
    (e : TEXTURE_INFO.t) :
  registry_ok st → Z.of_nat k < m_loadedTextures st →
  m_textureIDs st !! k = Some e → TEXTURE_INFO.tag e = tag →
  (∀ (j : nat) (e' : TEXTURE_INFO.t),
     (j < k)%nat → m_textureIDs st !! j = Some e' → TEXTURE_INFO.tag e' ≠ tag) →
  FindTextureSlot tag st = Ok (Z.of_nat k).
Proof.
  intros Hok Hk He Htag Hfirst. unfold FindTextureSlot.
  rewrite (scan_hit (m_loadedTextures st) _ (tag_at (m_textureIDs st) tag)
             (λ k _, k) (FindTextureSlot_body st tag Hok) _ 0 (Z.of_nat k)).
  - done.
  - lia.
  - done.
  - lia.
  - unfold tag_at. rewrite Nat2Z.id, He. by apply String.eqb_eq.
  - intros j Hj. unfold tag_at.
    destruct (m_textureIDs st !! Z.to_nat j) as [e'|] eqn:He'; [|done].
    apply String.eqb_neq. apply (Hfirst (Z.to_nat j) e'); [lia|done].
Qed.

(** *** FindTextureID *)

Lemma FindTextureID_body (st : SceneManager) (tag : string) (Hok : registry_ok st)
    (i v : Z) :
  0 ≤ i < m_loadedTextures st →
  FindTextureID_step tag st (Scan i false v) =
  if tag_at (m_textureIDs st) tag i
  then Ok (Scan i true
             ((λ k w, default w (TEXTURE_INFO.ID <$> m_textureIDs st !! Z.to_nat k)) i v))
  else Ok (Scan (i + 1) false v).
Proof.
  intros Hi. unfold FindTextureID_step. simpl.
  destruct (array_get_in_range (m_textureIDs st) i) as (e & He & ->).
  { unfold registry_ok in Hok. lia. }
  unfold tag_at. rewrite He. simpl. by destruct (String.eqb _ _).
Qed.

Lemma FindTextureID_total (tag : string) (st : SceneManager) :
  registry_ok st → ∃ id, FindTextureID tag st = Ok id.
Proof.
  intros Hok. unfold FindTextureID.
  destruct (scan_total (m_loadedTextures st) _ (tag_at (m_textureIDs st) tag)
              _ (FindTextureID_body st tag Hok)
              (Z.to_nat (m_loadedTextures st) + 1) 0 (-1)) as [s ->]; [lia|lia|].
  by eexists.
Qed.


(** *** FindMaterial *)

Lemma FindMaterial_empty (tag : string) (material : OBJECT_MATERIAL.t)
    (st : SceneManager) :
  m_objectMaterials st = [] → FindMaterial tag material st = Ok (false, material).
Proof. intros H. unfold FindMaterial. by rewrite H. Qed.

Lemma FindMaterial_body (st : SceneManager) (tag : string) (i : Z)
    (v : OBJECT_MATERIAL.t) :
  0 ≤ i < Z.of_nat (length (m_objectMaterials st)) →
  FindMaterial_step tag st (Scan i false v) =
  if material_at (m_objectMaterials st) tag i
  then Ok (Scan i true (material_hit (m_objectMaterials st) i v))
  else Ok (Scan (i + 1) false v).
Proof.
  intros Hi. unfold FindMaterial_step. simpl.
  destruct (array_get_in_range (m_objectMaterials st) i Hi) as (e & He & ->).
  unfold material_at, material_hit. rewrite He. simpl. by destruct (String.eqb _ _).
Qed.

(** On a registry that is not empty [FindMaterial] answers [true] also
    when no entry carries the tag, and leaves [material] as it was. *)
Lemma FindMaterial_miss (tag : string) (material : OBJECT_MATERIAL.t)
    (st : SceneManager) :
  m_objectMaterials st ≠ [] → material_absent tag st →
  FindMaterial tag material st = Ok (true, material).
Proof.
  intros Hne Habs. unfold FindMaterial.
  destruct (Z.of_nat (length (m_objectMaterials st)) =? 0) eqn:Hlen.
  { apply Z.eqb_eq in Hlen. destruct (m_objectMaterials st); [done|simpl in Hlen; lia]. }
  rewrite (scan_miss _ _ (material_at (m_objectMaterials st) tag) _
             (FindMaterial_body st tag)).
  - done.
  - done.
  - lia.
  - intros j Hj. unfold material_at.
    destruct (m_objectMaterials st !! Z.to_nat j) as [e|] eqn:He; [|done].
    apply String.eqb_neq, Habs. by eapply list_elem_of_lookup_2.
Qed.

(** The first entry carrying the tag is the one copied out. *)
Lemma FindMaterial_hit (tag : string) (material e : OBJECT_MATERIAL.t)
    (st : SceneManager) (k : nat) :
  m_objectMaterials st !! k = Some e → OBJECT_MATERIAL.tag e = tag →
  (∀ (j : nat) (e' : OBJECT_MATERIAL.t),
     (j < k)%nat → m_objectMaterials st !! j = Some e' →
     OBJECT_MATERIAL.tag e' ≠ tag) →
  FindMaterial tag material st = Ok (true, copy_material e material).
Proof.
  intros He Htag Hfirst. unfold FindMaterial.
  pose proof (lookup_lt_Some _ _ _ He) as Hlt.
  destruct (Z.of_nat (length (m_objectMaterials st)) =? 0) eqn:Hlen.
  { apply Z.eqb_eq in Hlen. lia. }
  rewrite (scan_hit _ _ (material_at (m_objectMaterials st) tag) _
             (FindMaterial_body st tag) _ 0 (Z.of_nat k)).
  - simpl. unfold material_hit. by rewrite Nat2Z.id, He.
  - lia.
  - lia.
  - lia.
  - unfold material_at. rewrite Nat2Z.id, He. by apply String.eqb_eq.
  - intros j Hj. unfold material_at.
    destruct (m_objectMaterials st !! Z.to_nat j) as [e'|] eqn:He'; [|done].
    apply String.eqb_neq. apply (Hfirst (Z.to_nat j) e'); [lia|done].
Qed.

Lemma scene_materials_tags (shader : option ShaderManager) :
  OBJECT_MATERIAL.tag <$> m_objectMaterials (scene_with_materials shader) =
  ["glass"; "plastic"; "wood"; "wall"; "shelf"]%string.
Proof. reflexivity. Qed.

Lemma metal_absent (shader : option ShaderManager) :
  material_absent "metal" (scene_with_materials shader).
Proof.
  intros e He Htag.
  apply (list_elem_of_fmap_2 OBJECT_MATERIAL.tag) in He.
  rewrite scene_materials_tags, Htag in He.
  repeat (apply elem_of_cons in He as [He|He]; [discriminate He|]).
  by apply elem_of_nil in He.
Qed.

(** C1, at the failing input: with the five materials of
    [DefineObjectMaterials] registered, none of them tagged "metal",
    [FindMaterial] reports success for "metal" and hands back the caller's
    material unchanged. *)
Theorem C1_FindMaterial_true_on_miss (shader : option ShaderManager)
    (material : OBJECT_MATERIAL.t) :
  FindMaterial "metal" material (scene_with_materials shader) = Ok (true, material).
Proof. apply FindMaterial_miss; [done|apply metal_absent]. Qed.

Lemma FindTextureSlot_total (tag : string) (st : SceneManager) :
  registry_ok st → ∃ slot, FindTextureSlot tag st = Ok slot.
Proof.
  intros Hok. unfold FindTextureSlot.
  destruct (scan_total (m_loadedTextures st) _ (tag_at (m_textureIDs st) tag)
              (λ k _, k) (FindTextureSlot_body st tag Hok)
              (Z.to_nat (m_loadedTextures st) + 1) 0 (-1)) as [s ->]; [lia|lia|].
  by eexists.
Qed.

Lemma FindMaterial_total (tag : string) (material : OBJECT_MATERIAL.t)
    (st : SceneManager) :
  ∃ m, FindMaterial tag material st =
       Ok (negb (Z.of_nat (length (m_objectMaterials st)) =? 0), m).
Proof.
  unfold FindMaterial.
  destruct (Z.of_nat (length (m_objectMaterials st)) =? 0); [by eexists|].
  destruct (scan_total _ _ (material_at (m_objectMaterials st) tag) _
              (FindMaterial_body st tag)
              (length (m_objectMaterials st) + 1) 0 material) as [s ->]; [lia|lia|].
  by eexists.
Qed.

(** ** The shader-state setters *)

Section Setters.

Variable indeterminate : OBJECT_MATERIAL.t.

(** With no shader bound the four guarded setters return at once. *)
Lemma null_shader_guarded (st : SceneManager) :
  m_pShaderManager st = None →
  (∀ s rx ry rz p, SetTransformations s rx ry rz p st = Ok st)
  ∧ (∀ r g b a, SetShaderColor r g b a st = Ok st)
  ∧ (∀ tag, SetShaderTexture tag st = Ok st)
  ∧ (∀ u v, SetTextureUVScale u v st = Ok st).
Proof.
  intros H.
  unfold SetTransformations, SetShaderColor, SetShaderTexture, SetTextureUVScale.
  by rewrite H.
Qed.

(** With no material defined [SetShaderMaterial] touches nothing, shader
    bound or not. *)
Lemma SetShaderMaterial_empty (tag : string) (st : SceneManager) :
  m_objectMaterials st = [] → SetShaderMaterial indeterminate tag st = Ok st.
Proof. intros H. unfold SetShaderMaterial. by rewrite H. Qed.

(** With a material defined it goes through the shader pointer, whatever
    the tag. *)
Lemma SetShaderMaterial_defined (tag : string) (st : SceneManager) :
  m_objectMaterials st ≠ [] →
  ∃ m,
    FindMaterial tag indeterminate st = Ok (true, m) ∧
    SetShaderMaterial indeterminate tag st =
    (st ← call_shader (Shader.setVec3Value "material.diffuseColor"
                         (OBJECT_MATERIAL.diffuseColor m)) st;
     st ← call_shader (Shader.setVec3Value "material.specularColor"
                         (OBJECT_MATERIAL.specularColor m)) st;
     call_shader (Shader.setFloatValue "material.shininess"
                    (OBJECT_MATERIAL.shininess m)) st).
Proof.
  intros Hne. destruct (FindMaterial_total tag indeterminate st) as [m Hm].
  assert ((Z.of_nat (length (m_objectMaterials st)) =? 0) = false) as Hlen.
  { apply Z.eqb_neq. destruct (m_objectMaterials st); [done|simpl; lia]. }
  rewrite Hlen in Hm. exists m. split; [done|].
  unfold SetShaderMaterial. rewrite Hm.
  destruct (Z.of_nat (length (m_objectMaterials st)) >? 0) eqn:Hpos; [done|].
  apply Z.eqb_neq in Hlen. rewrite Z.gtb_ltb in Hpos. apply Z.ltb_ge in Hpos. lia.
Qed.

(** On a miss in a registry that is not empty the three material uniforms
    are written all the same, from the uninitialised local. *)
Lemma SetShaderMaterial_miss (tag : string) (st : SceneManager) (sm : ShaderManager) :
  m_pShaderManager st = Some sm → m_objectMaterials st ≠ [] →
  material_absent tag st →
  SetShaderMaterial indeterminate tag st =
  Ok (set_shader
        (Some (sm ++
           [("material.diffuseColor"%string,
             UVec3 (OBJECT_MATERIAL.diffuseColor indeterminate));
            ("material.specularColor"%string,
             UVec3 (OBJECT_MATERIAL.specularColor indeterminate));
            ("material.shininess"%string,
             UFloat (OBJECT_MATERIAL.shininess indeterminate))])) st).
Proof.
  intros Hsm Hne Habs.
  destruct (SetShaderMaterial_defined tag st Hne) as (m & Hm & ->).
  rewrite (FindMaterial_miss tag indeterminate st Hne Habs) in Hm.
  injection Hm as <-.
  unfold call_shader. rewrite Hsm.
  unfold Shader.setVec3Value, Shader.setFloatValue, set_shader.
  cbn [m_pShaderManager m_basicMeshes m_loadedTextures m_textureIDs
       m_objectMaterials gl mbind result_bind].
  by rewrite <- !app_assoc.
Qed.

(** With a material defined and no shader bound the call goes through the
    null pointer, whatever the tag. *)
Lemma SetShaderMaterial_null (tag : string) (st : SceneManager) :
  m_pShaderManager st = None → m_objectMaterials st ≠ [] →
  SetShaderMaterial indeterminate tag st = Fault.
Proof.
  intros Hsm Hne.
  destruct (SetShaderMaterial_defined tag st Hne) as (m & _ & ->).
  unfold call_shader. by rewrite Hsm.
Qed.

(** C2, at the failing input: with the five materials of
    [DefineObjectMaterials] registered and a shader bound,
    [SetShaderMaterial "metal"], a tag no material carries, writes the
    three material uniforms, with the contents of its uninitialised
    local. *)
Theorem C2_SetShaderMaterial_writes_on_miss (sm : ShaderManager) :
  SetShaderMaterial indeterminate "metal" (scene_with_materials (Some sm)) =
  Ok (set_shader
        (Some (sm ++
           [("material.diffuseColor"%string,
             UVec3 (OBJECT_MATERIAL.diffuseColor indeterminate));
            ("material.specularColor"%string,
             UVec3 (OBJECT_MATERIAL.specularColor indeterminate));
            ("material.shininess"%string,
             UFloat (OBJECT_MATERIAL.shininess indeterminate))]))
        (scene_with_materials (Some sm))).
Proof. apply SetShaderMaterial_miss; [done|done|apply metal_absent]. Qed.

(** C6, at the failing input: with the materials defined and no shader
    bound, [SetShaderMaterial "glass"] dereferences the null
    [m_pShaderManager]. *)
Theorem C6_SetShaderMaterial_null_shader_faults :
  SetShaderMaterial indeterminate "glass" (scene_with_materials None) = Fault.
Proof. by apply SetShaderMaterial_null. Qed.

Lemma FindTextureSlot_set_shader (tag : string) (p : option ShaderManager)
    (st : SceneManager) :
  FindTextureSlot tag (set_shader p st) = FindTextureSlot tag st.
Proof. reflexivity. Qed.

(** C8: with a shader bound, [SetShaderTexture] for a tag that no
    registered texture carries writes "bUseTexture" = 1 (true) and then
    the sentinel -1 as the sampler "objectTexture". *)
Theorem C8_SetShaderTexture_miss_writes_sentinel (tag : string)
    (st : SceneManager) (sm : ShaderManager) :
  m_pShaderManager st = Some sm → registry_ok st → texture_absent tag st →
  SetShaderTexture tag st =
  Ok (set_shader
        (Some (sm ++ [("bUseTexture"%string, UInt 1);
                      ("objectTexture"%string, USampler2D (-1))])) st).
Proof.
  intros Hsm Hok Habs. unfold SetShaderTexture, call_shader. rewrite Hsm.
  cbn [is_null negb mbind result_bind].
  rewrite FindTextureSlot_set_shader, (FindTextureSlot_miss tag st Hok Habs).
  cbn [mbind result_bind m_pShaderManager set_shader].
  unfold Shader.setSampler2DValue, Shader.setIntValue, int_of_bool, set_shader.
  cbn [m_pShaderManager m_basicMeshes m_loadedTextures m_textureIDs
       m_objectMaterials gl].
  by rewrite <- app_assoc.
Qed.

End Setters.

(** ** The texture registry *)

Lemma array_modify_in_range {T : Type} (a : list T) (i : Z) (f : T → T) (e : T) :
  0 ≤ i → a !! Z.to_nat i = Some e →
  array_modify a i f = Ok (<[Z.to_nat i := f e]> a).
Proof.
  intros Hi He. unfold array_modify. rewrite (array_get_Some a i e Hi He).
  cbn [mbind result_bind]. unfold array_set.
  apply lookup_lt_Some in He. by rewrite decide_True by lia.
Qed.

Lemma array_modify_outside {T : Type} (a : list T) (i : Z) (f : T → T) :
  ¬ (0 ≤ i < Z.of_nat (length a)) → array_modify a i f = Fault.
Proof.
  intros Hi. unfold array_modify, array_get. case_decide; [|done].
  by rewrite lookup_ge_None_2 by lia.
Qed.

Section TextureFacts.

Variable stbi_load : string → option stb_image.

(** A decoded image of 3 or 4 channels: the load writes slot
    [m_loadedTextures] and counts it, or runs outside the array. *)
Lemma CreateGLTexture_supported (filename tag : string) (st : SceneManager)
    (image : stb_image) :
  stbi_load filename = Some image →
  colorChannels image = 3 ∨ colorChannels image = 4 →
  CreateGLTexture stbi_load filename tag st =
  if decide (0 ≤ m_loadedTextures st < Z.of_nat (length (m_textureIDs st))) then
    Ok (true,
        set_textures (m_loadedTextures st + 1)
          (<[Z.to_nat (m_loadedTextures st) :=
               {| TEXTURE_INFO.tag := tag;
                  TEXTURE_INFO.ID := gl_unused (gl st) |}]> (m_textureIDs st))
          (set_gl (uploaded (format_of image) image (gl st)) st))
  else Fault.
Proof.
  intros Himg Hch. unfold CreateGLTexture. rewrite Himg.
  cbn [GL.glGenTextures].
  assert (∀ g,
    (if colorChannels image =? 3
     then Some (GL.glTexImage2D GL_RGB8 (width image) (height image) g)
     else if colorChannels image =? 4
          then Some (GL.glTexImage2D GL_RGBA8 (width image) (height image) g)
          else None) =
    Some (GL.glTexImage2D (format_of image) (width image) (height image) g)) as ->.
  { intros g. unfold format_of. destruct Hch as [-> | ->]; reflexivity. }
  cbn [m_textureIDs m_loadedTextures set_gl set_textures].
  case_decide as Hn.
  - destruct (lookup_lt_is_Some_2 (m_textureIDs st) (Z.to_nat (m_loadedTextures st)))
      as [e He]; [lia|].
    rewrite (array_modify_in_range _ _ _ e) by (lia || done).
    cbn [mbind result_bind].
    rewrite (array_modify_in_range _ _ _ (with_ID (gl_unused (gl st)) e));
      [|lia|by rewrite list_lookup_insert_eq by lia].
    cbn [mbind result_bind]. rewrite list_insert_insert_eq.
    reflexivity.
  - by rewrite array_modify_outside.
Qed.

(** A file that cannot be decoded, or an image of another channel count:
    the load answers [false] and the registry stays as it was. *)
Lemma CreateGLTexture_rejected (filename tag : string) (st : SceneManager) :
  match stbi_load filename with
  | Some image => colorChannels image ≠ 3 ∧ colorChannels image ≠ 4
  | None => True
  end →
  ∃ st', CreateGLTexture stbi_load filename tag st = Ok (false, st')
         ∧ m_loadedTextures st' = m_loadedTextures st
         ∧ m_textureIDs st' = m_textureIDs st.
Proof.
  intros H. unfold CreateGLTexture.
  destruct (stbi_load filename) as [image|]; [|by eexists].
  destruct H as [H3 H4]. cbn [GL.glGenTextures].
  rewrite (proj2 (Z.eqb_neq _ _) H3), (proj2 (Z.eqb_neq _ _) H4).
  by eexists.
Qed.

(** C9: an image that decodes but has neither 3 nor 4 channels makes
    [CreateGLTexture] return [false]; no entry is written and the count of
    registered textures is what it was. *)
Theorem C9_unsupported_channels_rejected (filename tag : string)
    (st : SceneManager) (image : stb_image) :
  stbi_load filename = Some image →
  colorChannels image ≠ 3 → colorChannels image ≠ 4 →
  ∃ st', CreateGLTexture stbi_load filename tag st = Ok (false, st')
         ∧ m_textureIDs st' = m_textureIDs st
         ∧ m_loadedTextures st' = m_loadedTextures st.
Proof.
  intros Himg H3 H4.
  destruct (CreateGLTexture_rejected filename tag st) as (st' & Hr & Hn & Ha).
  { by rewrite Himg. }
  by exists st'.
Qed.

(** C10: a load of a decodable 3- or 4-channel image is never answered
    with [false], whatever the count: inside the array it writes slot
    [m_loadedTextures] and increments the count, at or beyond the array's
    capacity it writes outside the array. *)
Theorem C10_no_capacity_check (filename tag : string) (st : SceneManager)
    (image : stb_image) :
  stbi_load filename = Some image →
  colorChannels image = 3 ∨ colorChannels image = 4 →
  (0 ≤ m_loadedTextures st < Z.of_nat (length (m_textureIDs st)) →
   ∃ st', CreateGLTexture stbi_load filename tag st = Ok (true, st')
          ∧ m_loadedTextures st' = m_loadedTextures st + 1
          ∧ m_textureIDs st' =
            <[Z.to_nat (m_loadedTextures st) :=
                {| TEXTURE_INFO.tag := tag;
                   TEXTURE_INFO.ID := gl_unused (gl st) |}]> (m_textureIDs st))
  ∧ (Z.of_nat (length (m_textureIDs st)) ≤ m_loadedTextures st →
     CreateGLTexture stbi_load filename tag st = Fault)
  ∧ (∀ st', CreateGLTexture stbi_load filename tag st ≠ Ok (false, st')).
Proof.
  intros Himg Hch.
  rewrite (CreateGLTexture_supported filename tag st image Himg Hch).
  split; [|split].
  - intros Hin. rewrite decide_True by done. by eexists.
  - intros Hout. by rewrite decide_False by lia.
  - intros st'. by case_decide.
Qed.

End TextureFacts.

(** *** Slots follow the order of loading *)

Section Slots.

Variable stbi_load : string → option stb_image.

Lemma CreateGLTexture_true (filename tag : string) (st st' : SceneManager) :
  CreateGLTexture stbi_load filename tag st = Ok (true, st') →
  0 ≤ m_loadedTextures st < Z.of_nat (length (m_textureIDs st))
  ∧ m_loadedTextures st' = m_loadedTextures st + 1
  ∧ m_textureIDs st' =
    <[Z.to_nat (m_loadedTextures st) :=
        {| TEXTURE_INFO.tag := tag; TEXTURE_INFO.ID := gl_unused (gl st) |}]>
      (m_textureIDs st)
  ∧ gl_unused (gl st') = gl_unused (gl st) + 1.
Proof.
  intros H.
  destruct (stbi_load filename) as [image|] eqn:Himg.
  - destruct (decide (colorChannels image = 3 ∨ colorChannels image = 4)) as [Hch|Hch].
    + rewrite (CreateGLTexture_supported _ _ _ _ _ Himg Hch) in H.
      case_decide; [|done]. by injection H as <-.
    + destruct (CreateGLTexture_rejected stbi_load filename tag st) as (? & Hr & _).
      { rewrite Himg. lia. }
      congruence.
  - destruct (CreateGLTexture_rejected stbi_load filename tag st) as (? & Hr & _).
    { by rewrite Himg. }
    congruence.
Qed.

Lemma load_all_success (files : list (string * string)) :
  ∀ (st st' : SceneManager) (results : list bool),
    load_all stbi_load files st = Ok (results, st') →
    Forall (eq true) results →
    0 ≤ m_loadedTextures st →
    loaded_after files st st'.
Proof.
  induction files as [|[filename tag] rest IH]; intros st st' results Hload Hall Hn.
  - injection Hload as <- <-. unfold loaded_after. simpl.
    repeat split; try done; lia.
  - simpl in Hload.
    destruct (CreateGLTexture stbi_load filename tag st) as [[b st1]| |] eqn:H1;
      try discriminate Hload.
    cbn [mbind result_bind] in Hload.
    destruct (load_all stbi_load rest st1) as [[bs st2]| |] eqn:H2;
      try discriminate Hload.
    cbn [mbind result_bind] in Hload. injection Hload as <- <-.
    apply Forall_cons in Hall as [<- Hall].
    destruct (CreateGLTexture_true _ _ _ _ H1) as (Hin & Hn1 & Ha1 & Hu1).
    destruct (IH st1 st2 bs H2 Hall) as (Hn2 & Hlen & Hok & Hu2 & Hlow & Hnew); [lia|].
    assert (length (m_textureIDs st1) = length (m_textureIDs st)) as Hlen1.
    { by rewrite Ha1, length_insert. }
    assert (Z.to_nat (m_loadedTextures st1) = Datatypes.S (Z.to_nat (m_loadedTextures st)))
      as Hs by lia.
    unfold loaded_after. cbn [length].
    split; [lia|]. split; [congruence|]. split.
    { intros _. destruct rest as [|r rest'].
      - unfold registry_ok. simpl in Hn2. lia.
      - by apply Hok. }
    split; [lia|]. split.
    + intros i Hi. rewrite Hlow by lia. rewrite Ha1.
      apply list_lookup_insert_ne. lia.
    + intros [|k] f t Hk; simpl in Hk.
      * injection Hk as <- <-. rewrite Nat.add_0_r, Hlow by lia.
        rewrite Ha1, Z.add_0_r. apply list_lookup_insert_eq. lia.
      * rewrite <- Nat.add_succ_comm, <- Hs, (Hnew k f t Hk), Hu1.
        do 2 f_equal. lia.
Qed.

(** The loop of [BindGLTextures] from unit [i] on: every unit up to the
    count gets the texture of its slot, the others keep theirs. *)
Lemma BindGLTextures_loop (st : SceneManager) (fuel : nat) :
  registry_ok st →
  ∀ (i : Z) (g : GLContext),
    0 ≤ i → m_loadedTextures st - i ≤ Z.of_nat fuel →
    ∃ (j : Z) (g' : GLContext),
      while fuel (λ s, fst s <? m_loadedTextures st) (BindGLTextures_body st) (i, g)
      = Ok (j, g')
      ∧ (∀ u : nat, i ≤ Z.of_nat u < m_loadedTextures st →
           gl_bound g' !! Z.of_nat u = TEXTURE_INFO.ID <$> m_textureIDs st !! u)
      ∧ (∀ u : Z, ¬ (i ≤ u < m_loadedTextures st) →
           gl_bound g' !! u = gl_bound g !! u).
Proof.
  intros Hok. induction fuel as [|n IH]; intros i g Hi Hfuel.
  - exists i, g. rewrite while_done by (simpl; apply Z.ltb_ge; lia).
    split; [done|]. split; [intros; lia|done].
  - destruct (decide (i < m_loadedTextures st)) as [Hlt|Hge].
    + destruct (array_get_in_range (m_textureIDs st) i) as (e & He & Hget).
      { unfold registry_ok in Hok. lia. }
      set (g1 := GL.glBindTexture (TEXTURE_INFO.ID e) (GL.glActiveTexture i g)).
      destruct (IH (i + 1) g1) as (j & g' & Hw & Hin & Hout); [lia|lia|].
      exists j, g'. split; [|split].
      * rewrite (while_step n _ _ _ (i + 1, g1)); [done| |].
        -- simpl. by apply Z.ltb_lt.
        -- unfold BindGLTextures_body. by rewrite Hget.
      * intros u Hu. destruct (decide (Z.of_nat u = i)) as [Heq|Hne].
        -- rewrite Hout by lia. subst i. rewrite Nat2Z.id in He. rewrite He.
           unfold g1. simpl. apply lookup_insert_eq.
        -- apply Hin. lia.
      * intros u Hu. rewrite Hout by lia.
        unfold g1. simpl. apply lookup_insert_ne. lia.
    + exists i, g. rewrite while_done by (simpl; apply Z.ltb_ge; lia).
      split; [done|]. split; [intros; lia|done].
Qed.

Lemma BindGLTextures_binds (st : SceneManager) :
  registry_ok st →
  ∃ st', BindGLTextures st = Ok st'
    ∧ (∀ u : nat, Z.of_nat u < m_loadedTextures st →
         gl_bound (gl st') !! Z.of_nat u = TEXTURE_INFO.ID <$> m_textureIDs st !! u)
    ∧ (∀ u : Z, ¬ (0 ≤ u < m_loadedTextures st) →
         gl_bound (gl st') !! u = gl_bound (gl st) !! u).
Proof.
  intros Hok. unfold BindGLTextures.
  destruct (BindGLTextures_loop st (Z.to_nat (m_loadedTextures st)) Hok 0 (gl st))
    as (j & g' & -> & Hin & Hout); [lia|lia|].
  exists (set_gl g' st). split; [done|]. split.
  - intros u Hu. apply Hin. lia.
  - done.
Qed.

(** C7: after N loads that all succeeded, from a registry holding no
    texture and with pairwise distinct tags, [FindTextureSlot] of the tag
    loaded k-th is k, and [BindGLTextures] binds to unit k the texture
    generated by load k, for each k below N, and changes the binding of no
    other unit. *)
Theorem C7_slots_follow_load_order (files : list (string * string))
    (st st' : SceneManager) (results : list bool) :
  m_loadedTextures st = 0 →
  NoDup (snd <$> files) →
  load_all stbi_load files st = Ok (results, st') →
  Forall (eq true) results →
  (∀ (k : nat) (filename tag : string),
     files !! k = Some (filename, tag) →
     FindTextureSlot tag st' = Ok (Z.of_nat k))
  ∧ ∃ st'', BindGLTextures st' = Ok st''
      ∧ (∀ (k : nat) (filename tag : string),
           files !! k = Some (filename, tag) →
           m_textureIDs st' !! k =
             Some {| TEXTURE_INFO.tag := tag;
                     TEXTURE_INFO.ID := gl_unused (gl st) + Z.of_nat k |}
           ∧ gl_bound (gl st'') !! Z.of_nat k = Some (gl_unused (gl st) + Z.of_nat k))
      ∧ (∀ u : Z, ¬ (0 ≤ u < Z.of_nat (length files)) →
           gl_bound (gl st'') !! u = gl_bound (gl st') !! u).
Proof.
  intros Hzero Hdup Hload Hall.
  destruct (load_all_success files st st' results Hload Hall)
    as (Hn & Hlen & Hok & _ & _ & Hnew); [lia|].
  rewrite Hzero in Hn, Hnew. simpl in Hn, Hnew.
  assert (registry_ok st') as Hok'.
  { destruct files; [|by apply Hok]. unfold registry_ok. simpl in Hn. lia. }
  split.
  - intros k filename tag Hk.
    eapply (FindTextureSlot_hit tag st' k); [done| |by apply (Hnew k filename)|done|].
    + apply lookup_lt_Some in Hk. lia.
    + intros j e' Hj He' Htag.
      destruct (lookup_lt_is_Some_2 files j) as [[fj tj] Hfj].
      { apply lookup_lt_Some in Hk. lia. }
      rewrite (Hnew j fj tj Hfj) in He'. injection He' as <-. simpl in Htag. subst tj.
      assert (j = k); [|lia].
      apply (NoDup_lookup _ j k tag Hdup); rewrite list_lookup_fmap.
      * by rewrite Hfj.
      * by rewrite Hk.
  - destruct (BindGLTextures_binds st' Hok') as (st'' & Hb & Hin & Hout).
    exists st''. split; [done|]. split.
    + intros k filename tag Hk. rewrite (Hnew k filename tag Hk). split; [done|].
      rewrite Hin.
      * by rewrite (Hnew k filename tag Hk).
      * apply lookup_lt_Some in Hk. lia.
    + intros u Hu. apply Hout. lia.
Qed.

End Slots.

(** *** The prepared scene *)

Lemma no_texture_tagged_absent (tag : string) (st : SceneManager) :
  no_texture_tagged tag st = true → texture_absent tag st.
Proof.
  unfold no_texture_tagged, texture_absent. intros H i e Hi He Htag.
  rewrite forallb_forall in H.
  assert (In e (take (Z.to_nat (m_loadedTextures st)) (m_textureIDs st))) as Hin.
  { apply list_elem_of_In, (list_elem_of_lookup_2 _ i).
    rewrite lookup_take_lt by lia. done. }
  apply H in Hin. apply negb_true_iff, String.eqb_neq in Hin. done.
Qed.

Lemma scene_textures_loaded :
  load_all (decode_as 3) scene_textures (scene_with_materials (Some [])) =
  Ok (replicate 9 true, loaded_scene).
Proof. vm_compute. reflexivity. Qed.

Lemma loaded_scene_registry :
  m_loadedTextures loaded_scene = 9
  ∧ m_textureIDs loaded_scene =
    ((λ '(k, (_, tag)),
        {| TEXTURE_INFO.tag := tag; TEXTURE_INFO.ID := 1 + Z.of_nat k |})
       <$> imap pair scene_textures)
    ++ replicate 7 empty_slot
  ∧ m_pShaderManager loaded_scene = Some [].
Proof. vm_compute. done. Qed.

Lemma C7_witness :
  (∀ (k : nat) (filename tag : string),
     scene_textures !! k = Some (filename, tag) →
     FindTextureSlot tag loaded_scene = Ok (Z.of_nat k))
  ∧ ∃ st'', BindGLTextures loaded_scene = Ok st''
      ∧ (∀ (k : nat) (filename tag : string),
           scene_textures !! k = Some (filename, tag) →
           m_textureIDs loaded_scene !! k =
             Some {| TEXTURE_INFO.tag := tag;
                     TEXTURE_INFO.ID :=
                       gl_unused (gl (scene_with_materials (Some []))) + Z.of_nat k |}
           ∧ gl_bound (gl st'') !! Z.of_nat k =
             Some (gl_unused (gl (scene_with_materials (Some []))) + Z.of_nat k))
      ∧ (∀ u : Z, ¬ (0 ≤ u < Z.of_nat (length scene_textures)) →
           gl_bound (gl st'') !! u = gl_bound (gl loaded_scene) !! u).
Proof.
  apply (C7_slots_follow_load_order (decode_as 3) scene_textures
           (scene_with_materials (Some [])) loaded_scene (replicate 9 true)).
  - reflexivity.
  - apply (bool_decide_unpack _). vm_compute. reflexivity.
  - vm_compute. reflexivity.
  - repeat constructor.
Defined.

Lemma C8_witness :
  SetShaderTexture "cork" loaded_scene =
  Ok (set_shader
        (Some ([] ++ [("bUseTexture"%string, UInt 1);
                      ("objectTexture"%string, USampler2D (-1))])) loaded_scene).
Proof.
  apply (C8_SetShaderTexture_miss_writes_sentinel "cork" loaded_scene []).
  - vm_compute. reflexivity.
  - unfold registry_ok. vm_compute. discriminate.
  - apply no_texture_tagged_absent. vm_compute. reflexivity.
Defined.

Lemma C9_witness :
  ∃ st', CreateGLTexture (decode_as 1) "textures/wood.jpg" "wood" loaded_scene
         = Ok (false, st')
         ∧ m_textureIDs st' = m_textureIDs loaded_scene
         ∧ m_loadedTextures st' = m_loadedTextures loaded_scene.
Proof.
  apply (C9_unsupported_channels_rejected (decode_as 1) "textures/wood.jpg" "wood"
           loaded_scene {| width := 64; height := 64; colorChannels := 1 |}).
  - reflexivity.
  - simpl. lia.
  - simpl. lia.
Defined.

Lemma C10_witness :
  CreateGLTexture (decode_as 3) "textures/cork.jpg" "cork" full_scene = Fault
  ∧ ∀ st', CreateGLTexture (decode_as 3) "textures/cork.jpg" "cork" full_scene
           ≠ Ok (false, st').
Proof.
  destruct (C10_no_capacity_check (decode_as 3) "textures/cork.jpg" "cork"
              full_scene {| width := 64; height := 64; colorChannels := 3 |})
    as (_ & Hout & Hnever).
  - reflexivity.
  - left. reflexivity.
  - split; [|exact Hnever]. apply Hout. simpl. lia.
Defined.

(** ** The bottle builder *)

Section Bottle.
#[local] Open Scope R_scope.

Variable indeterminate : OBJECT_MATERIAL.t.

Lemma uniform_app (name : string) (l1 l2 : ShaderManager) :
  Shader.uniform name (l1 ++ l2) =
  match Shader.uniform name l2 with
  | Some v => Some v
  | None => Shader.uniform name l1
  end.
Proof.
  induction l1 as [|[n v] l1 IH]; simpl.
  - by destruct (Shader.uniform name l2).
  - rewrite IH. by destruct (Shader.uniform name l2).
Qed.

Lemma uniform_after_model (sm ws : ShaderManager) (m : mat4) :
  Shader.uniform g_ModelName ws = None →
  Shader.uniform g_ModelName ((sm ++ [(g_ModelName, UMat4 m)]) ++ ws) = Some (UMat4 m).
Proof.
  intros H. rewrite uniform_app, H, uniform_app. reflexivity.
Qed.

Lemma scene_at_self (st : SceneManager) (sm : ShaderManager) :
  m_pShaderManager st = Some sm → st = scene_at sm (m_basicMeshes st) st.
Proof. destruct st. simpl. by intros ->. Qed.

Lemma SetTransformations_at (s : vec3) (rx ry rz : R) (p : vec3)
    (sm : ShaderManager) (d : list DrawCall) (st : SceneManager) :
  SetTransformations s rx ry rz p (scene_at sm d st) =
  Ok (scene_at (sm ++ [(g_ModelName, UMat4 (modelView s rx ry rz p))]) d st).
Proof. reflexivity. Qed.

Lemma draw_at (m : Mesh) (sm : ShaderManager) (d : list DrawCall)
    (st : SceneManager) :
  draw m (scene_at sm d st) = Ok (scene_at sm (d ++ [(m, Some sm)]) st).
Proof. reflexivity. Qed.

Lemma shading_UVScale (u v : R) : shading (SetTextureUVScale u v).
Proof. intros sm d st _. by eexists. Qed.

Lemma shading_Color (r g b a : R) : shading (SetShaderColor r g b a).
Proof.
  intros sm d st _. exists [(g_UseTextureName, UInt 0); (g_ColorValueName, UVec4 (Vec4 r g b a))].
  split; [|reflexivity].
  unfold SetShaderColor, call_shader, scene_at, set_shader, Shader.setIntValue,
    Shader.setVec4Value, int_of_bool.
  cbn [m_pShaderManager m_basicMeshes m_loadedTextures m_textureIDs
       m_objectMaterials gl is_null negb mbind result_bind].
  by rewrite <- app_assoc.
Qed.

Lemma shading_Texture (tag : string) : shading (SetShaderTexture tag).
Proof.
  intros sm d st Hok. destruct (FindTextureSlot_total tag st Hok) as [slot Hslot].
  exists [(g_UseTextureName, UInt 1); (g_TextureValueName, USampler2D slot)].
  split; [|reflexivity].
  unfold SetShaderTexture, call_shader.
  cbn [scene_at m_pShaderManager is_null negb mbind result_bind].
  change (FindTextureSlot tag _) with (FindTextureSlot tag st). rewrite Hslot.
  unfold scene_at, set_shader, Shader.setIntValue, Shader.setSampler2DValue,
    int_of_bool.
  cbn [m_pShaderManager m_basicMeshes m_loadedTextures m_textureIDs
       m_objectMaterials gl mbind result_bind].
  by rewrite <- app_assoc.
Qed.

Lemma shading_Material (tag : string) : shading (SetShaderMaterial indeterminate tag).
Proof.
  intros sm d st _.
  destruct (m_objectMaterials st) as [|e es] eqn:Hms.
  - exists []. split; [|reflexivity].
    rewrite SetShaderMaterial_empty by done. by rewrite app_nil_r.
  - destruct (SetShaderMaterial_defined indeterminate tag (scene_at sm d st))
      as (m & _ & ->).
    { simpl. by rewrite Hms. }
    exists [("material.diffuseColor"%string, UVec3 (OBJECT_MATERIAL.diffuseColor m));
            ("material.specularColor"%string, UVec3 (OBJECT_MATERIAL.specularColor m));
            ("material.shininess"%string, UFloat (OBJECT_MATERIAL.shininess m))].
    split; [|reflexivity].
    unfold call_shader, scene_at, set_shader, Shader.setVec3Value,
      Shader.setFloatValue.
    cbn [m_pShaderManager m_basicMeshes m_loadedTextures m_textureIDs
         m_objectMaterials gl mbind result_bind].
    by rewrite <- !app_assoc.
Qed.

Ltac shade H lem Hok :=
  match type of H with
  | context [scene_at ?sm ?d ?st] =>
      let E := fresh "E" in
      let ws := fresh "ws" in
      let W := fresh "W" in
      destruct (lem sm d st Hok) as (ws & E & W);
      rewrite E in H; clear E; cbn [mbind result_bind] in H
  end.

Ltac transform H :=
  rewrite SetTransformations_at in H; cbn [mbind result_bind] in H.

Ltac drawn H := rewrite draw_at in H; cbn [mbind result_bind] in H.

Ltac model_lookup :=
  repeat (rewrite uniform_app;
          match goal with
          | W : Shader.uniform g_ModelName ?ws = None
            |- context [Shader.uniform g_ModelName ?ws] => rewrite W
          end);
  rewrite uniform_app; reflexivity.

(** The five draw calls of [CreateBottle1], each under the model matrix
    composed from the size and position the source computes for it. *)
Lemma CreateBottle1_draws (hs1x hs1y hs1z hs1 : R) (tex : string)
    (sm : ShaderManager) (d : list DrawCall) (st : SceneManager) :
  registry_ok st →
  ∃ (sm' l1 l2 l3 l4 l5 : ShaderManager),
    CreateBottle1 indeterminate hs1x hs1y hs1z hs1 tex (scene_at sm d st) =
    Ok (scene_at sm'
          (d ++ [(CylinderMesh, Some l1); (CylinderMesh, Some l2);
                 (TaperedCylinderMesh, Some l3); (CylinderMesh, Some l4);
                 (CylinderMesh, Some l5)]) st)
    ∧ Shader.uniform g_ModelName l1 =
      Some (UMat4 (modelView (Vec3 (hs1 * 0.7) (hs1 * 2.8) (hs1 * 0.7)) 0.0 0.0 0.0
                     (Vec3 (0.0 + hs1x) (hs1 * (0.2 + hs1y)) (0.0 + hs1z))))
    ∧ Shader.uniform g_ModelName l2 =
      Some (UMat4 (modelView (Vec3 (hs1 * 0.8) (hs1 * 3.0) (hs1 * 0.8)) 0.0 0.0 0.0
                     (Vec3 (0.0 + hs1x) (hs1 * (0.0 + hs1y)) (0.0 + hs1z))))
    ∧ Shader.uniform g_ModelName l3 =
      Some (UMat4 (modelView (Vec3 (hs1 * 0.8) (hs1 * 1.0) (hs1 * 0.8)) 0.0 0.0 0.0
                     (Vec3 (0.0 + hs1x) (hs1 * (3.0 + hs1y)) (0.0 + hs1z))))
    ∧ Shader.uniform g_ModelName l4 =
      Some (UMat4 (modelView (Vec3 (hs1 * 0.5) (hs1 * 0.7) (hs1 * 0.5)) 0.0 0.0 0.0
                     (Vec3 (0.0 + hs1x) (hs1 * (4.8 + hs1y)) (0.0 + hs1z))))
    ∧ Shader.uniform g_ModelName l5 =
      Some (UMat4 (modelView (Vec3 (hs1 * 0.4) (hs1 * 1.0) (hs1 * 0.4)) 0.0 0.0 0.0
                     (Vec3 (0.0 + hs1x) (hs1 * (4.0 + hs1y)) (0.0 + hs1z)))).
Proof.
  intros Hok.
  remember (CreateBottle1 indeterminate hs1x hs1y hs1z hs1 tex (scene_at sm d st))
    as r eqn:H.
  unfold CreateBottle1 in H.
  transform H. shade H (shading_UVScale 50.0 50.0) Hok.
  shade H (shading_Texture tex) Hok. drawn H.
  transform H. shade H (shading_Color 0.7 0.7 0.8 0.3) Hok.
  shade H (shading_Material "glass") Hok. drawn H.
  transform H. shade H (shading_Color 0.7 0.7 0.8 0.3) Hok.
  shade H (shading_Material "glass") Hok. drawn H.
  transform H. shade H (shading_UVScale 1.0 1.0) Hok.
  shade H (shading_Texture "lid") Hok.
  shade H (shading_Material "plastic") Hok. drawn H.
  transform H. shade H (shading_Color 0.7 0.7 0.8 0.3) Hok.
  shade H (shading_Material "glass") Hok. drawn H.
  rewrite <- !(app_assoc d) in H. cbn [app] in H. subst r.
  do 6 eexists. split; [reflexivity|].
  repeat split; model_lookup.
Qed.

Lemma mat_mul_identity_r (m : mat4) : (m * identity)%mat = m.
Proof.
  destruct m as [[] [] [] []]. unfold mat_mul, mat_col, vec4_add, vec4_scale, identity.
  cbn [x4 y4 z4 w4 col0 col1 col2 col3]. apply mat4_eq; apply vec4_eq; ring.
Qed.

Lemma no_turn : 0.0 * PI / 180 = 0.
Proof. replace 0.0 with 0 by lra. field. Qed.

Lemma Rotate_none :
  Spec.RotateX 0.0 = identity ∧ Spec.RotateY 0.0 = identity
  ∧ Spec.RotateZ 0.0 = identity.
Proof.
  unfold Spec.RotateX, Spec.RotateY, Spec.RotateZ, Spec.of_rows, identity.
  rewrite no_turn, cos_0, sin_0. cbn [x4 y4 z4 w4].
  repeat split; apply mat4_eq; apply vec4_eq; ring.
Qed.

(** Without rotation the model matrix has the size on its diagonal and
    the position in its last column. *)
Lemma modelView_unrotated (s p : vec3) :
  size_of (modelView s 0.0 0.0 0.0 p) = s
  ∧ position_of (modelView s 0.0 0.0 0.0 p) = p.
Proof.
  rewrite modelView_spec.
  destruct Rotate_none as (-> & -> & ->). rewrite !mat_mul_identity_r.
  destruct s, p.
  unfold size_of, position_of, Spec.Translate, Spec.Scale, Spec.of_rows,
    mat_mul, mat_col, vec4_add, vec4_scale.
  cbn [x3 y3 z3 x4 y4 z4 w4 col0 col1 col2 col3].
  split; apply vec3_eq; ring.
Qed.

Lemma CreateBottle1_models (hs1x hs1y hs1z hs1 : R) (tex : string)
    (st : SceneManager) (sm : ShaderManager) :
  m_pShaderManager st = Some sm → registry_ok st →
  bottle_models indeterminate hs1x hs1y hs1z hs1 tex st =
  Some <$>
    [modelView (Vec3 (hs1 * 0.7) (hs1 * 2.8) (hs1 * 0.7)) 0.0 0.0 0.0
       (Vec3 (0.0 + hs1x) (hs1 * (0.2 + hs1y)) (0.0 + hs1z));
     modelView (Vec3 (hs1 * 0.8) (hs1 * 3.0) (hs1 * 0.8)) 0.0 0.0 0.0
       (Vec3 (0.0 + hs1x) (hs1 * (0.0 + hs1y)) (0.0 + hs1z));
     modelView (Vec3 (hs1 * 0.8) (hs1 * 1.0) (hs1 * 0.8)) 0.0 0.0 0.0
       (Vec3 (0.0 + hs1x) (hs1 * (3.0 + hs1y)) (0.0 + hs1z));
     modelView (Vec3 (hs1 * 0.5) (hs1 * 0.7) (hs1 * 0.5)) 0.0 0.0 0.0
       (Vec3 (0.0 + hs1x) (hs1 * (4.8 + hs1y)) (0.0 + hs1z));
     modelView (Vec3 (hs1 * 0.4) (hs1 * 1.0) (hs1 * 0.4)) 0.0 0.0 0.0
       (Vec3 (0.0 + hs1x) (hs1 * (4.0 + hs1y)) (0.0 + hs1z))].
Proof.
  intros Hsm Hok. unfold bottle_models, drawn_by.
  rewrite (scene_at_self st sm Hsm) at 1.
  destruct (CreateBottle1_draws hs1x hs1y hs1z hs1 tex sm (m_basicMeshes st) st Hok)
    as (sm' & l1 & l2 & l3 & l4 & l5 & -> & H1 & H2 & H3 & H4 & H5).
  cbn [m_basicMeshes scene_at]. rewrite drop_app_length.
  unfold model_of. cbn [fmap list_fmap snd].
  by rewrite H1, H2, H3, H4, H5.
Qed.

(** C3, as the code has it: from the same scene (shader bound, registry
    within its array) and with the same offsets, the builds with factors
    [hs1] and [2 * hs1] each draw five primitives; each primitive of the
    second has exactly twice the size of the same primitive of the first
    and a position whose height (y) is exactly twice, while the x and z of
    its position are the offsets [hs1x] and [hs1z] in both builds. *)
Theorem C3_bottle_size_and_height_double (hs1x hs1y hs1z hs1 : R) (tex : string)
    (st : SceneManager) (sm : ShaderManager) :
  m_pShaderManager st = Some sm → registry_ok st →
  ∃ ms ms2 : list mat4,
    bottle_models indeterminate hs1x hs1y hs1z hs1 tex st = Some <$> ms
    ∧ bottle_models indeterminate hs1x hs1y hs1z (2 * hs1) tex st = Some <$> ms2
    ∧ length ms = 5%nat ∧ length ms2 = 5%nat
    ∧ ∀ (k : nat) (a b : mat4),
        ms !! k = Some a → ms2 !! k = Some b →
        size_of b = vec3_scale (size_of a) 2
        ∧ y3 (position_of b) = y3 (position_of a) * 2
        ∧ x3 (position_of b) = hs1x ∧ x3 (position_of a) = hs1x
        ∧ z3 (position_of b) = hs1z ∧ z3 (position_of a) = hs1z.
Proof.
  intros Hsm Hok.
  rewrite !(CreateBottle1_models _ _ _ _ _ st sm Hsm Hok).
  do 2 eexists. split; [reflexivity|]. split; [reflexivity|].
  split; [reflexivity|]. split; [reflexivity|].
  intros k a b Ha Hb.
  destruct k as [|[|[|[|[|k]]]]]; cbn [lookup list_lookup] in Ha, Hb;
    try discriminate Ha; injection Ha as <-; injection Hb as <-;
    rewrite !(proj1 (modelView_unrotated _ _)), !(proj2 (modelView_unrotated _ _));
    unfold vec3_scale; cbn [x3 y3 z3];
    (split; [apply vec3_eq; ring|]); repeat split; first [lra | ring].
Qed.

End Bottle.

Lemma loaded_scene_ok :
  m_pShaderManager loaded_scene = Some [] ∧ registry_ok loaded_scene.
Proof.
  split; [vm_compute; reflexivity|]. unfold registry_ok. vm_compute. discriminate.
Qed.

Lemma C3_witness :
  ∃ ms ms2 : list mat4,
    bottle_models zero_material (-4) 10 (-1) 0.3 "sauce4" loaded_scene = Some <$> ms
    ∧ bottle_models zero_material (-4) 10 (-1) (2 * 0.3) "sauce4" loaded_scene
      = Some <$> ms2
    ∧ length ms = 5%nat ∧ length ms2 = 5%nat
    ∧ ∀ (k : nat) (a b : mat4),
        ms !! k = Some a → ms2 !! k = Some b →
        size_of b = vec3_scale (size_of a) 2
        ∧ (y3 (position_of b) = y3 (position_of a) * 2
        ∧ x3 (position_of b) = -4 ∧ x3 (position_of a) = -4
        ∧ z3 (position_of b) = -1 ∧ z3 (position_of a) = -1)%R.
Proof.
  apply (C3_bottle_size_and_height_double zero_material (-4) 10 (-1) 0.3 "sauce4"
           loaded_scene []).
  - vm_compute. reflexivity.
  - unfold registry_ok. vm_compute. discriminate.
Defined.

(** C3 as stated fails: with offsets (1, 0, 0) and factor 1 the first
    primitive is drawn at x = 1 in both builds, not at x = 2 in the build
    with factor 2. *)
Lemma C3_counterexample :
  ¬ doubles_size_and_position zero_material 1 0 0 1 "sauce1" loaded_scene.
Proof.
  intros H. destruct loaded_scene_ok as [Hsm Hok].
  unfold doubles_size_and_position in H.
  rewrite !(CreateBottle1_models zero_material _ _ _ _ _ loaded_scene [] Hsm Hok) in H.
  destruct (H 0%nat _ _ eq_refl eq_refl) as [_ Hpos].
  rewrite !(proj2 (modelView_unrotated _ _)) in Hpos.
  apply (f_equal x3) in Hpos. unfold vec3_scale in Hpos. cbn [x3] in Hpos. lra.
Qed.

(** * Further properties *)

(** ** Texture lookups as list functions *)

Lemma first_index_cases (tag : string) (tags : list string) :
  (first_index tag tags = -1 ∧ tag ∉ tags)
  ∨ ∃ k : nat,
      first_index tag tags = Z.of_nat k ∧ tags !! k = Some tag
      ∧ ∀ (j : nat) (t : string), (j < k)%nat → tags !! j = Some t → t ≠ tag.
Proof.
  induction tags as [|t rest IH]; simpl.
  - left. split; [done|apply not_elem_of_nil].
  - destruct (String.eqb t tag) eqn:Heq.
    + apply String.eqb_eq in Heq as ->. right. exists 0%nat.
      split; [done|]. split; [done|]. intros j t Hj. lia.
    + apply String.eqb_neq in Heq.
      destruct IH as [[Hm Hnot]|(k & Hk & Hat & Hlow)].
      * left. rewrite Hm. split; [done|]. by apply not_elem_of_cons.
      * right. exists (S k). rewrite Hk.
        rewrite (proj2 (Z.ltb_ge _ _)) by lia.
        split; [lia|]. split; [done|].
        intros [|j] t' Hj Ht'; simpl in Ht'.
        -- by injection Ht' as <-.
        -- apply (Hlow j t'); [lia|done].
Qed.

Lemma registered_tags_lookup (st : SceneManager) (i : nat) (t : string) :
  registered_tags st !! i = Some t ↔
  Z.of_nat i < m_loadedTextures st
  ∧ ∃ e, m_textureIDs st !! i = Some e ∧ TEXTURE_INFO.tag e = t.
Proof.
  unfold registered_tags. rewrite list_lookup_fmap, fmap_Some. split.
  - intros (e & He & ->). apply lookup_take_Some in He as [He Hi].
    split; [lia|]. by exists e.
  - intros (Hi & e & He & <-). exists e. split; [|done].
    apply lookup_take_Some. split; [done|lia].
Qed.

Lemma FindTextureSlot_first_index (tag : string) (st : SceneManager) :
  registry_ok st →
  FindTextureSlot tag st = Ok (first_index tag (registered_tags st)).
Proof.
  intros Hok.
  destruct (first_index_cases tag (registered_tags st))
    as [[-> Hnot]|(k & -> & Hat & Hlow)].
  - apply FindTextureSlot_miss; [done|].
    intros i e Hi He Htag. apply Hnot.
    apply (list_elem_of_lookup_2 _ i), registered_tags_lookup.
    split; [done|]. by exists e.
  - apply registered_tags_lookup in Hat as (Hk & e & He & Htag).
    apply (FindTextureSlot_hit tag st k e Hok Hk He Htag).
    intros j e' Hj He'. apply (Hlow j); [done|].
    apply registered_tags_lookup. split; [lia|]. by exists e'.
Qed.

(** X1: [FindTextureSlot] returns the position of the first registered
    texture carrying the tag, and -1 when none does. *)
Theorem X1_FindTextureSlot_is_first_index (tag : string) (st : SceneManager) :
  registry_ok st →
  FindTextureSlot tag st = Ok (first_index tag (registered_tags st)).
Proof. apply FindTextureSlot_first_index. Qed.

Lemma X1_witness :
  FindTextureSlot "lid" loaded_scene =
  Ok (first_index "lid" (registered_tags loaded_scene)).
Proof.
  apply (X1_FindTextureSlot_is_first_index "lid" loaded_scene).
  unfold registry_ok. vm_compute. discriminate.
Defined.

(** ** Loads that fail leave no slot *)

Section Loads.

Variable stbi_load : string → option stb_image.

Lemma CreateGLTexture_false (filename tag : string) (st st' : SceneManager) :
  CreateGLTexture stbi_load filename tag st = Ok (false, st') →
  m_loadedTextures st' = m_loadedTextures st
  ∧ m_textureIDs st' = m_textureIDs st
  ∧ m_objectMaterials st' = m_objectMaterials st
  ∧ m_pShaderManager st' = m_pShaderManager st.
Proof.
  intros H.
  destruct (stbi_load filename) as [image|] eqn:Himg.
  - destruct (decide (colorChannels image = 3 ∨ colorChannels image = 4)) as [Hch|Hch].
    + rewrite (CreateGLTexture_supported _ _ _ _ _ Himg Hch) in H.
      by case_decide.
    + unfold CreateGLTexture in H. rewrite Himg in H. cbn [GL.glGenTextures] in H.
      rewrite (proj2 (Z.eqb_neq _ 3)), (proj2 (Z.eqb_neq _ 4)) in H by lia.
      by injection H as <-.
  - unfold CreateGLTexture in H. rewrite Himg in H. by injection H as <-.
Qed.

Lemma CreateGLTexture_registers (filename tag : string) (st st' : SceneManager)
    (b : bool) :
  CreateGLTexture stbi_load filename tag st = Ok (b, st') →
  0 ≤ m_loadedTextures st → registry_ok st →
  registry_ok st'
  ∧ registered_tags st' = registered_tags st ++ (if b then [tag] else [])
  ∧ m_loadedTextures st' = m_loadedTextures st + (if b then 1 else 0).
Proof.
  intros H Hn Hok. destruct b.
  - destruct (CreateGLTexture_true _ _ _ _ _ H) as (Hin & Hn1 & Ha1 & _).
    unfold registry_ok, registered_tags. rewrite Hn1, Ha1, length_insert.
    split; [lia|]. split; [|done].
    replace (Z.to_nat (m_loadedTextures st + 1))
      with (S (Z.to_nat (m_loadedTextures st))) by lia.
    rewrite (take_S_r _ _ {| TEXTURE_INFO.tag := tag;
                             TEXTURE_INFO.ID := gl_unused (gl st) |})
      by (apply list_lookup_insert_eq; lia).
    rewrite take_insert_ge by lia. by rewrite fmap_app.
  - destruct (CreateGLTexture_false _ _ _ _ H) as (Hn1 & Ha1 & _).
    unfold registry_ok, registered_tags. rewrite Hn1, Ha1, app_nil_r.
    split; [done|]. split; [done|lia].
Qed.

Lemma load_all_registers (files : list (string * string)) :
  ∀ (st st' : SceneManager) (results : list bool),
    load_all stbi_load files st = Ok (results, st') →
    0 ≤ m_loadedTextures st → registry_ok st →
    registry_ok st'
    ∧ length results = length files
    ∧ registered_tags st' = registered_tags st ++ kept_tags files results
    ∧ m_loadedTextures st' =
      m_loadedTextures st + Z.of_nat (length (kept_tags files results)).
Proof.
  induction files as [|[filename tag] rest IH]; intros st st' results Hload Hn Hok.
  - injection Hload as <- <-. simpl. rewrite app_nil_r. repeat split; [done|lia].
  - simpl in Hload.
    destruct (CreateGLTexture stbi_load filename tag st) as [[b st1]| |] eqn:H1;
      try discriminate Hload.
    cbn [mbind result_bind] in Hload.
    destruct (load_all stbi_load rest st1) as [[bs st2]| |] eqn:H2;
      try discriminate Hload.
    cbn [mbind result_bind] in Hload. injection Hload as <- <-.
    destruct (CreateGLTexture_registers _ _ _ _ _ H1 Hn Hok) as (Hok1 & Ht1 & Hn1).
    destruct (IH st1 st2 bs H2) as (Hok2 & Hlen & Ht2 & Hn2); [destruct b; lia|done|].
    split; [done|]. split; [simpl; lia|].
    rewrite Ht2, Hn2, Ht1, Hn1. destruct b; simpl.
    + rewrite <- app_assoc. split; [done|lia].
    + rewrite app_nil_r. split; [done|lia].
Qed.

(** X2: a run of loads appends to the registered tags exactly the tags of
    the loads that answered [true], in order, and counts them; a load
    that answered [false] takes no slot. *)
Theorem X2_loads_register_accepted_tags (files : list (string * string))
    (st st' : SceneManager) (results : list bool) :
  load_all stbi_load files st = Ok (results, st') →
  0 ≤ m_loadedTextures st → registry_ok st →
  registry_ok st'
  ∧ length results = length files
  ∧ registered_tags st' = registered_tags st ++ kept_tags files results
  ∧ m_loadedTextures st' =
    m_loadedTextures st + Z.of_nat (length (kept_tags files results)).
Proof. apply load_all_registers. Qed.

(** X3: after a run of loads into a registry that held no texture, the
    slot of any tag is its first position among the tags of the loads that
    answered [true]: a file that failed leaves no gap in the numbering and
    its tag resolves to -1, and of two loads of one tag the first wins. *)
Theorem X3_slot_is_position_among_accepted (files : list (string * string))
    (st st' : SceneManager) (results : list bool) (tag : string) :
  m_loadedTextures st = 0 →
  load_all stbi_load files st = Ok (results, st') →
  FindTextureSlot tag st' = Ok (first_index tag (kept_tags files results)).
Proof.
  intros Hzero Hload.
  destruct (load_all_registers files st st' results Hload)
    as (Hok & _ & Htags & _); [lia|unfold registry_ok; lia|].
  rewrite (FindTextureSlot_first_index tag st' Hok), Htags.
  unfold registered_tags. by rewrite Hzero.
Qed.

End Loads.

Lemma gapped_scene_loaded :
  load_all (decode_except "textures/sauce2.jpg") scene_textures
    (scene_with_materials (Some [])) =
  Ok ([true; true; false; true; true; true; true; true; true], gapped_scene).
Proof. vm_compute. reflexivity. Qed.

Lemma X2_witness :
  registry_ok gapped_scene
  ∧ length [true; true; false; true; true; true; true; true; true]
    = length scene_textures
  ∧ registered_tags gapped_scene =
    registered_tags (scene_with_materials (Some []))
    ++ kept_tags scene_textures
         [true; true; false; true; true; true; true; true; true]
  ∧ m_loadedTextures gapped_scene =
    m_loadedTextures (scene_with_materials (Some []))
    + Z.of_nat (length (kept_tags scene_textures
                          [true; true; false; true; true; true; true; true; true])).
Proof.
  apply (X2_loads_register_accepted_tags (decode_except "textures/sauce2.jpg")
           scene_textures (scene_with_materials (Some [])) gapped_scene).
  - vm_compute. reflexivity.
  - simpl. lia.
  - unfold registry_ok. simpl. lia.
Defined.

Lemma X3_witness :
  FindTextureSlot "sauce3" gapped_scene =
  Ok (first_index "sauce3"
        (kept_tags scene_textures
           [true; true; false; true; true; true; true; true; true])).
Proof.
  apply (X3_slot_is_position_among_accepted (decode_except "textures/sauce2.jpg")
           scene_textures (scene_with_materials (Some [])) gapped_scene).
  - reflexivity.
  - vm_compute. reflexivity.
Defined.

(** With "textures/sauce2.jpg" unreadable, "sauce3" moves from slot 3 to
    slot 2 and "sauce2" has no slot. *)
Lemma gapped_scene_slots :
  FindTextureSlot "sauce3" gapped_scene = Ok 2
  ∧ FindTextureSlot "sauce2" gapped_scene = Ok (-1)
  ∧ FindTextureSlot "sauce3" loaded_scene = Ok 3.
Proof. vm_compute. done. Qed.

(** ** The two texture lookups agree *)




Section LoadsAndHandles.

Variable stbi_load : string → option stb_image.


(** X6: an image that decodes but has neither 3 nor 4 channels is
    rejected only after its texture object was generated and bound: the
    call consumes a texture name and leaves that texture bound to the
    active unit, with no image uploaded to it; nothing else of the scene
    changes. *)
Theorem X6_rejected_image_leaves_texture_bound (filename tag : string)
    (st : SceneManager) (image : stb_image) :
  stbi_load filename = Some image →
  colorChannels image ≠ 3 → colorChannels image ≠ 4 →
  CreateGLTexture stbi_load filename tag st =
  Ok (false,
      set_gl {| gl_unused := gl_unused (gl st) + 1;
                gl_active := gl_active (gl st);
                gl_bound := <[gl_active (gl st) := gl_unused (gl st)]>
                              (gl_bound (gl st));
                gl_images := gl_images (gl st) |} st).
Proof.
  intros Himg H3 H4. unfold CreateGLTexture. rewrite Himg.
  cbn [GL.glGenTextures].
  by rewrite (proj2 (Z.eqb_neq _ _) H3), (proj2 (Z.eqb_neq _ _) H4).
Qed.

(** An accepted image, for comparison, ends with the active unit bound to
    the default texture 0. *)
Lemma accepted_image_unbinds (filename tag : string) (st st' : SceneManager) :
  CreateGLTexture stbi_load filename tag st = Ok (true, st') →
  gl_bound (gl st') !! gl_active (gl st') = Some 0.
Proof.
  intros H.
  destruct (stbi_load filename) as [image|] eqn:Himg.
  - destruct (decide (colorChannels image = 3 ∨ colorChannels image = 4)) as [Hch|Hch].
    + rewrite (CreateGLTexture_supported _ _ _ _ _ Himg Hch) in H.
      case_decide; [|done]. injection H as <-.
      unfold uploaded. simpl. apply lookup_insert_eq.
    + destruct (CreateGLTexture_rejected stbi_load filename tag st) as (? & Hr & _).
      { rewrite Himg. lia. }
      congruence.
  - destruct (CreateGLTexture_rejected stbi_load filename tag st) as (? & Hr & _).
    { by rewrite Himg. }
    congruence.
Qed.

End LoadsAndHandles.


Lemma X6_witness :
  CreateGLTexture (decode_as 1) "textures/wood.jpg" "wood" loaded_scene =
  Ok (false,
      set_gl {| gl_unused := gl_unused (gl loaded_scene) + 1;
                gl_active := gl_active (gl loaded_scene);
                gl_bound := <[gl_active (gl loaded_scene) := gl_unused (gl loaded_scene)]>
                              (gl_bound (gl loaded_scene));
                gl_images := gl_images (gl loaded_scene) |} loaded_scene).
Proof.
  apply (X6_rejected_image_leaves_texture_bound (decode_as 1) "textures/wood.jpg"
           "wood" loaded_scene {| width := 64; height := 64; colorChannels := 1 |}).
  - reflexivity.
  - simpl. lia.
  - simpl. lia.
Defined.

(** ** Binding again, and tearing down *)

Lemma glActiveTexture_twice (i j : Z) (g : GLContext) :
  GL.glActiveTexture j (GL.glActiveTexture i g) = GL.glActiveTexture j g.
Proof. reflexivity. Qed.

Lemma glBindTexture_same (name : Z) (g : GLContext) :
  gl_bound g !! gl_active g = Some name → GL.glBindTexture name g = g.
Proof.
  intros H. destruct g as [u a b im]. unfold GL.glBindTexture. simpl in *.
  by rewrite insert_id.
Qed.

(** The active unit and the other parts of the OpenGL state after the loop
    of [BindGLTextures]. *)
Lemma BindGLTextures_loop_rest (st : SceneManager) (fuel : nat) :
  registry_ok st →
  ∀ (i : Z) (g : GLContext) (j : Z) (g' : GLContext),
    0 ≤ i → m_loadedTextures st - i ≤ Z.of_nat fuel →
    while fuel (λ s, fst s <? m_loadedTextures st) (BindGLTextures_body st) (i, g)
    = Ok (j, g') →
    gl_active g' = (if decide (i < m_loadedTextures st)
                    then m_loadedTextures st - 1 else gl_active g)
    ∧ gl_unused g' = gl_unused g ∧ gl_images g' = gl_images g.
Proof.
  intros Hok. induction fuel as [|n IH]; intros i g j g' Hi Hfuel Hw.
  - rewrite while_done in Hw by (simpl; apply Z.ltb_ge; lia).
    injection Hw as <- <-. by rewrite decide_False by lia.
  - destruct (decide (i < m_loadedTextures st)) as [Hlt|Hge].
    + destruct (array_get_in_range (m_textureIDs st) i) as (e & He & Hget).
      { unfold registry_ok in Hok. lia. }
      rewrite (while_step n _ _ _
                 (i + 1, GL.glBindTexture (TEXTURE_INFO.ID e) (GL.glActiveTexture i g)))
        in Hw; [|simpl; by apply Z.ltb_lt|unfold BindGLTextures_body; by rewrite Hget].
      destruct (IH (i + 1)
                  (GL.glBindTexture (TEXTURE_INFO.ID e) (GL.glActiveTexture i g)) j g')
        as (Ha & Hu & Him); [lia|lia|exact Hw|].
      split; [|by split]. rewrite Ha. case_decide; [done|]. simpl. lia.
    + rewrite while_done in Hw by (simpl; apply Z.ltb_ge; lia).
      by injection Hw as <- <-.
Qed.

(** On a state where every unit below the count already has the texture of
    its slot, the loop only moves the active unit. *)
Lemma BindGLTextures_loop_bound (st : SceneManager) (fuel : nat) :
  registry_ok st →
  ∀ (i : Z) (g : GLContext),
    0 ≤ i → m_loadedTextures st - i ≤ Z.of_nat fuel →
    (∀ u : nat, i ≤ Z.of_nat u < m_loadedTextures st →
       gl_bound g !! Z.of_nat u = TEXTURE_INFO.ID <$> m_textureIDs st !! u) →
    ∃ j,
      while fuel (λ s, fst s <? m_loadedTextures st) (BindGLTextures_body st) (i, g)
      = Ok (j, if decide (i < m_loadedTextures st)
               then GL.glActiveTexture (m_loadedTextures st - 1) g else g).
Proof.
  intros Hok. induction fuel as [|n IH]; intros i g Hi Hfuel Hb.
  - exists i. rewrite while_done by (simpl; apply Z.ltb_ge; lia).
    by rewrite decide_False by lia.
  - destruct (decide (i < m_loadedTextures st)) as [Hlt|Hge].
    + destruct (array_get_in_range (m_textureIDs st) i) as (e & He & Hget).
      { unfold registry_ok in Hok. lia. }
      assert (GL.glBindTexture (TEXTURE_INFO.ID e) (GL.glActiveTexture i g)
              = GL.glActiveTexture i g) as Hsame.
      { apply glBindTexture_same. simpl.
        rewrite <- (Z2Nat.id i) at 1 by lia. rewrite Hb by lia. by rewrite He. }
      destruct (IH (i + 1) (GL.glActiveTexture i g)) as [j Hj]; [lia|lia| |].
      { intros u Hu. simpl. apply Hb. lia. }
      exists j.
      rewrite (while_step n _ _ _ (i + 1, GL.glActiveTexture i g));
        [|simpl; by apply Z.ltb_lt
         |unfold BindGLTextures_body; by rewrite Hget, <- Hsame at 1].
      rewrite Hj. case_decide.
      * by rewrite glActiveTexture_twice.
      * by replace (m_loadedTextures st - 1) with i by lia.
    + exists i. by rewrite while_done by (simpl; apply Z.ltb_ge; lia).
Qed.

Lemma BindGLTextures_again (st st' : SceneManager) :
  registry_ok st → BindGLTextures st = Ok st' → BindGLTextures st' = Ok st'.
Proof.
  intros Hok Hb.
  destruct (BindGLTextures_binds st Hok) as (st1 & Hb1 & Hin & _).
  rewrite Hb in Hb1. injection Hb1 as <-.
  unfold BindGLTextures in Hb.
  destruct (while _ _ _ _) as [[j g']| |] eqn:Hw; try discriminate Hb.
  cbn [mbind result_bind] in Hb. injection Hb as <-.
  destruct (BindGLTextures_loop_rest st (Z.to_nat (m_loadedTextures st)) Hok
              0 (gl st) j g') as (Ha & _); [lia|lia|done|].
  unfold BindGLTextures. cbn [m_loadedTextures m_textureIDs set_gl gl].
  destruct (BindGLTextures_loop_bound st (Z.to_nat (m_loadedTextures st)) Hok 0 g')
    as [j' Hj']; [lia|lia| |].
  { intros u Hu. apply (Hin u). lia. }
  change (BindGLTextures_body (set_gl g' st)) with (BindGLTextures_body st).
  rewrite Hj'. cbn [mbind result_bind]. f_equal.
  unfold set_gl.
  cbn [m_pShaderManager m_basicMeshes m_loadedTextures m_textureIDs
       m_objectMaterials gl].
  f_equal. case_decide; [|done].
  destruct g'. unfold GL.glActiveTexture. simpl in *. by rewrite Ha.
Qed.

(** X7: [BindGLTextures] is idempotent and leaves the registry alone:
    run on its own result it returns that result unchanged, and the count,
    the slots, the texture names in use and the texture images are those
    from before the first run. *)
Theorem X7_BindGLTextures_idempotent (st st' : SceneManager) :
  registry_ok st → BindGLTextures st = Ok st' →
  BindGLTextures st' = Ok st'
  ∧ m_loadedTextures st' = m_loadedTextures st
  ∧ m_textureIDs st' = m_textureIDs st
  ∧ gl_unused (gl st') = gl_unused (gl st)
  ∧ gl_images (gl st') = gl_images (gl st).
Proof.
  intros Hok Hb. split; [by apply (BindGLTextures_again st)|].
  unfold BindGLTextures in Hb.
  destruct (while _ _ _ _) as [[j g']| |] eqn:Hw; try discriminate Hb.
  cbn [mbind result_bind] in Hb. injection Hb as <-.
  destruct (BindGLTextures_loop_rest st (Z.to_nat (m_loadedTextures st)) Hok
              0 (gl st) j g') as (_ & Hu & Him); [lia|lia|done|].
  done.
Qed.

Lemma X7_witness :
  BindGLTextures bound_scene = Ok bound_scene
  ∧ m_loadedTextures bound_scene = m_loadedTextures loaded_scene
  ∧ m_textureIDs bound_scene = m_textureIDs loaded_scene
  ∧ gl_unused (gl bound_scene) = gl_unused (gl loaded_scene)
  ∧ gl_images (gl bound_scene) = gl_images (gl loaded_scene).
Proof.
  apply (X7_BindGLTextures_idempotent loaded_scene bound_scene).
  - unfold registry_ok. vm_compute. discriminate.
  - vm_compute. reflexivity.
Defined.

Lemma DestroyGLTextures_loop (n : Z) (fuel : nat) :
  ∀ (i : Z) (a : list TEXTURE_INFO.t) (g : GLContext),
    0 ≤ i → n ≤ Z.of_nat (length a) → n - i ≤ Z.of_nat fuel →
    ∃ (j : Z) (a' : list TEXTURE_INFO.t) (g' : GLContext),
      while fuel (λ s, fst s <? n) DestroyGLTextures_body (i, (a, g))
      = Ok (j, (a', g'))
      ∧ length a' = length a
      ∧ (∀ (k : nat) (e : TEXTURE_INFO.t),
           i ≤ Z.of_nat k < n → a !! k = Some e →
           a' !! k = Some (with_ID (gl_unused g + (Z.of_nat k - i)) e))
      ∧ (∀ k : nat, ¬ (i ≤ Z.of_nat k < n) → a' !! k = a !! k)
      ∧ gl_unused g' = gl_unused g + Z.max 0 (n - i)
      ∧ gl_active g' = gl_active g
      ∧ gl_bound g' = gl_bound g
      ∧ gl_images g' = gl_images g.
Proof.
  induction fuel as [|m IH]; intros i a g Hi Hn Hfuel.
  - exists i, a, g. rewrite while_done by (simpl; apply Z.ltb_ge; lia).
    repeat split; try done; [intros; lia|lia].
  - destruct (decide (i < n)) as [Hlt|Hge].
    + destruct (lookup_lt_is_Some_2 a (Z.to_nat i)) as [e He]; [lia|].
      set (g1 := snd (GL.glGenTextures g)).
      set (a1 := <[Z.to_nat i := with_ID (gl_unused g) e]> a).
      destruct (IH (i + 1) a1 g1) as (j & a' & g' & Hw & Hlen & Hin & Hout & Hu & Hrest);
        [lia|unfold a1; rewrite length_insert; lia|lia|].
      exists j, a', g'. split.
      { rewrite (while_step m _ _ _ (i + 1, (a1, g1))); [done| |].
        - simpl. by apply Z.ltb_lt.
        - unfold DestroyGLTextures_body. cbn [GL.glGenTextures].
          by rewrite (array_modify_in_range a i _ e) by (lia || done). }
      split; [by rewrite Hlen; unfold a1; rewrite length_insert|].
      split; [|split; [|split]].
      * intros k x Hk Hx. destruct (decide (Z.of_nat k = i)) as [Heq|Hne].
        -- rewrite Hout by lia. unfold a1. subst i. rewrite Nat2Z.id in *.
           rewrite list_lookup_insert_eq by (by eapply lookup_lt_Some).
           rewrite Hx in He. injection He as <-.
           by replace (Z.of_nat k - Z.of_nat k) with 0 by lia; rewrite Z.add_0_r.
        -- rewrite (Hin k x); [| lia |].
           ++ simpl. do 2 f_equal. lia.
           ++ unfold a1. rewrite list_lookup_insert_ne by lia. done.
      * intros k Hk. rewrite Hout by lia. unfold a1.
        apply list_lookup_insert_ne. lia.
      * rewrite Hu. simpl. lia.
      * done.
    + exists i, a, g. rewrite while_done by (simpl; apply Z.ltb_ge; lia).
      repeat split; try done; [intros; lia|lia].
Qed.

(** X8: [DestroyGLTextures] releases nothing: it returns with the count,
    the tags, the texture images and the unit bindings as they were, and
    with the handle of every registered slot replaced by a newly generated
    texture name. *)
Theorem X8_DestroyGLTextures_only_generates (st : SceneManager) :
  registry_ok st →
  ∃ st', DestroyGLTextures st = Ok st'
    ∧ m_loadedTextures st' = m_loadedTextures st
    ∧ registered_tags st' = registered_tags st
    ∧ (∀ (k : nat) (e : TEXTURE_INFO.t),
         Z.of_nat k < m_loadedTextures st → m_textureIDs st !! k = Some e →
         m_textureIDs st' !! k =
         Some {| TEXTURE_INFO.tag := TEXTURE_INFO.tag e;
                 TEXTURE_INFO.ID := gl_unused (gl st) + Z.of_nat k |})
    ∧ gl_images (gl st') = gl_images (gl st)
    ∧ gl_bound (gl st') = gl_bound (gl st)
    ∧ gl_unused (gl st') = gl_unused (gl st) + Z.max 0 (m_loadedTextures st).
Proof.
  intros Hok. unfold DestroyGLTextures.
  destruct (DestroyGLTextures_loop (m_loadedTextures st)
              (Z.to_nat (m_loadedTextures st)) 0 (m_textureIDs st) (gl st))
    as (j & a' & g' & -> & Hlen & Hin & Hout & Hu & _ & Hb & Him); [lia|done|lia|].
  cbn [mbind result_bind]. eexists. split; [reflexivity|].
  unfold registered_tags.
  cbn [m_loadedTextures m_textureIDs gl set_gl set_textures].
  split; [done|]. split; [|split; [|split; [done|split; [done|]]]].
  - apply list_eq. intros k. rewrite !list_lookup_fmap.
    destruct (decide (Z.of_nat k < m_loadedTextures st)) as [Hk|Hk].
    + rewrite !lookup_take_lt by lia.
      destruct (lookup_lt_is_Some_2 (m_textureIDs st) k) as [e He].
      { unfold registry_ok in Hok. lia. }
      rewrite (Hin k e) by (lia || done). by rewrite He.
    + by rewrite !lookup_take_ge by lia.
  - intros k e Hk He. rewrite (Hin k e) by (lia || done).
    unfold with_ID. do 2 f_equal. lia.
  - rewrite Hu. lia.
Qed.

Lemma X8_witness :
  ∃ st', DestroyGLTextures bound_scene = Ok st'
    ∧ m_loadedTextures st' = m_loadedTextures bound_scene
    ∧ registered_tags st' = registered_tags bound_scene
    ∧ (∀ (k : nat) (e : TEXTURE_INFO.t),
         Z.of_nat k < m_loadedTextures bound_scene →
         m_textureIDs bound_scene !! k = Some e →
         m_textureIDs st' !! k =
         Some {| TEXTURE_INFO.tag := TEXTURE_INFO.tag e;
                 TEXTURE_INFO.ID := gl_unused (gl bound_scene) + Z.of_nat k |})
    ∧ gl_images (gl st') = gl_images (gl bound_scene)
    ∧ gl_bound (gl st') = gl_bound (gl bound_scene)
    ∧ gl_unused (gl st') =
      gl_unused (gl bound_scene) + Z.max 0 (m_loadedTextures bound_scene).
Proof.
  apply (X8_DestroyGLTextures_only_generates bound_scene).
  unfold registry_ok. vm_compute. discriminate.
Defined.

(** ** Material lookups as list functions *)

Lemma first_material_cases (tag : string) (ms : list OBJECT_MATERIAL.t) :
  (first_material tag ms = None
   ∧ ∀ e : OBJECT_MATERIAL.t, e ∈ ms → OBJECT_MATERIAL.tag e ≠ tag)
  ∨ ∃ (k : nat) (e : OBJECT_MATERIAL.t),
      first_material tag ms = Some e ∧ ms !! k = Some e
      ∧ OBJECT_MATERIAL.tag e = tag
      ∧ ∀ (j : nat) (e' : OBJECT_MATERIAL.t),
          (j < k)%nat → ms !! j = Some e' → OBJECT_MATERIAL.tag e' ≠ tag.
Proof.
  induction ms as [|e rest IH]; simpl.
  - left. split; [done|]. intros e He. by apply elem_of_nil in He.
  - destruct (String.eqb (OBJECT_MATERIAL.tag e) tag) eqn:Heq.
    + apply String.eqb_eq in Heq. right. exists 0%nat, e.
      split; [done|]. split; [done|]. split; [done|]. intros j e' Hj. lia.
    + apply String.eqb_neq in Heq.
      destruct IH as [[Hm Hnot]|(k & e1 & Hk & Hat & Htag & Hlow)].
      * left. split; [done|]. intros e' He'.
        apply elem_of_cons in He' as [->|He']; [done|by apply Hnot].
      * right. exists (S k), e1. split; [done|]. split; [done|]. split; [done|].
        intros [|j] e' Hj He'; simpl in He'.
        -- by injection He' as <-.
        -- apply (Hlow j e'); [lia|done].
Qed.

Lemma FindMaterial_found (tag : string) (material : OBJECT_MATERIAL.t)
    (st : SceneManager) :
  FindMaterial tag material st =
  match m_objectMaterials st with
  | [] => Ok (false, material)
  | _ :: _ => Ok (true, found_material tag material st)
  end.
Proof.
  destruct (m_objectMaterials st) as [|e0 ms0] eqn:Hms.
  { by apply FindMaterial_empty. }
  unfold found_material.
  assert (m_objectMaterials st ≠ []) as Hne by (by rewrite Hms).
  destruct (first_material_cases tag (m_objectMaterials st))
    as [[-> Hnot]|(k & e & -> & Hat & Htag & Hlow)].
  - by apply FindMaterial_miss.
  - by apply (FindMaterial_hit tag material e st k).
Qed.

(** X9: [FindMaterial] on an empty registry returns [false] and leaves the
    caller's material as it was; on any other registry it returns [true]
    and the caller's material holds the diffuse colour, specular colour
    and shininess of the first entry carrying the tag (its own tag field
    is never assigned), or is left as it was when no entry carries it. *)
Theorem X9_FindMaterial_copies_first_match (tag : string)
    (material : OBJECT_MATERIAL.t) (st : SceneManager) :
  FindMaterial tag material st =
  match m_objectMaterials st with
  | [] => Ok (false, material)
  | _ :: _ =>
      Ok (true,
          match first_material tag (m_objectMaterials st) with
          | Some e =>
              {| OBJECT_MATERIAL.diffuseColor := OBJECT_MATERIAL.diffuseColor e;
                 OBJECT_MATERIAL.specularColor := OBJECT_MATERIAL.specularColor e;
                 OBJECT_MATERIAL.shininess := OBJECT_MATERIAL.shininess e;
                 OBJECT_MATERIAL.tag := OBJECT_MATERIAL.tag material |}
          | None => material
          end)
  end.
Proof. apply FindMaterial_found. Qed.

Section MaterialWrites.

Variable indeterminate : OBJECT_MATERIAL.t.

Lemma SetShaderMaterial_found (tag : string) (st : SceneManager) (sm : ShaderManager) :
  m_pShaderManager st = Some sm →
  SetShaderMaterial indeterminate tag st =
  match m_objectMaterials st with
  | [] => Ok st
  | _ :: _ =>
      Ok (set_shader
            (Some (sm ++ material_writes (found_material tag indeterminate st))) st)
  end.
Proof.
  intros Hsm. destruct (m_objectMaterials st) as [|e0 ms0] eqn:Hms.
  { by apply SetShaderMaterial_empty. }
  destruct (SetShaderMaterial_defined indeterminate tag st) as (m & Hm & ->).
  { by rewrite Hms. }
  rewrite FindMaterial_found, Hms in Hm. injection Hm as <-.
  unfold call_shader. rewrite Hsm.
  unfold Shader.setVec3Value, Shader.setFloatValue, set_shader, material_writes.
  cbn [m_pShaderManager m_basicMeshes m_loadedTextures m_textureIDs
       m_objectMaterials gl mbind result_bind].
  by rewrite <- !app_assoc.
Qed.

(** X10: with a shader bound, [SetShaderMaterial] for a tag that some
    material carries writes the diffuse colour, the specular colour and
    the shininess of the first such material, in that order, and nothing
    else. *)
Theorem X10_SetShaderMaterial_writes_first_match (tag : string)
    (st : SceneManager) (sm : ShaderManager) (e : OBJECT_MATERIAL.t) :
  m_pShaderManager st = Some sm →
  first_material tag (m_objectMaterials st) = Some e →
  SetShaderMaterial indeterminate tag st =
  Ok (set_shader
        (Some (sm ++
           [("material.diffuseColor"%string, UVec3 (OBJECT_MATERIAL.diffuseColor e));
            ("material.specularColor"%string, UVec3 (OBJECT_MATERIAL.specularColor e));
            ("material.shininess"%string, UFloat (OBJECT_MATERIAL.shininess e))]))
        st).
Proof.
  intros Hsm He. rewrite (SetShaderMaterial_found tag st sm Hsm).
  unfold found_material. rewrite He.
  by destruct (m_objectMaterials st).
Qed.

End MaterialWrites.

Lemma X10_witness :
  SetShaderMaterial zero_material "glass" (twice_glass (Some [])) =
  Ok (set_shader
        (Some ([] ++
           [("material.diffuseColor"%string, UVec3 (Vec3 0.2 0.2 0.2)%R);
            ("material.specularColor"%string, UVec3 (Vec3 1.0 1.0 1.0)%R);
            ("material.shininess"%string, UFloat 95.0%R)]))
        (twice_glass (Some []))).
Proof.
  apply (X10_SetShaderMaterial_writes_first_match zero_material "glass"
           (twice_glass (Some [])) []
           {| OBJECT_MATERIAL.diffuseColor := Vec3 0.2 0.2 0.2;
              OBJECT_MATERIAL.specularColor := Vec3 1.0 1.0 1.0;
              OBJECT_MATERIAL.shininess := 95.0;
              OBJECT_MATERIAL.tag := "glass" |}%R).
  - reflexivity.
  - reflexivity.
Defined.

Lemma first_material_app (tag : string) (l1 l2 : list OBJECT_MATERIAL.t) :
  first_material tag (l1 ++ l2) =
  match first_material tag l1 with
  | Some e => Some e
  | None => first_material tag l2
  end.
Proof.
  induction l1 as [|e l1 IH]; simpl; [done|].
  by destruct (String.eqb _ _).
Qed.

Lemma DefineObjectMaterials_appends (st : SceneManager) :
  m_objectMaterials (DefineObjectMaterials st) =
  m_objectMaterials st ++ m_objectMaterials (scene_with_materials None).
Proof.
  unfold scene_with_materials, DefineObjectMaterials, set_materials, fresh_scene.
  cbn [m_objectMaterials]. by rewrite <- !app_assoc.
Qed.

(** X11: [DefineObjectMaterials] appends its five materials to those
    already defined and replaces none, so a lookup of a tag that was
    already defined gives what it gave before, and defining the materials
    a second time changes no lookup at all. *)
Theorem X11_redefinition_changes_no_lookup (tag : string)
    (material : OBJECT_MATERIAL.t) (st : SceneManager) :
  (first_material tag (m_objectMaterials st) ≠ None →
   FindMaterial tag material (DefineObjectMaterials st) =
   FindMaterial tag material st)
  ∧ FindMaterial tag material (DefineObjectMaterials (DefineObjectMaterials st)) =
    FindMaterial tag material (DefineObjectMaterials st).
Proof.
  split.
  - intros Hdef. rewrite !FindMaterial_found. unfold found_material.
    rewrite DefineObjectMaterials_appends, first_material_app.
    destruct (first_material tag (m_objectMaterials st)) as [e|] eqn:He; [|done].
    destruct (m_objectMaterials st) as [|e0 ms0]; [discriminate He|]. done.
  - rewrite !FindMaterial_found. unfold found_material.
    rewrite (DefineObjectMaterials_appends (DefineObjectMaterials st)),
      (DefineObjectMaterials_appends st).
    set (five := m_objectMaterials (scene_with_materials None)).
    rewrite !first_material_app.
    destruct (first_material tag (m_objectMaterials st)) as [e|] eqn:He.
    + by destruct (m_objectMaterials st).
    + destruct (first_material tag five) eqn:He2;
        by destruct (m_objectMaterials st).
Qed.

Lemma X11_witness :
  FindMaterial "glass" zero_material (DefineObjectMaterials (twice_glass None)) =
  FindMaterial "glass" zero_material (twice_glass None).
Proof.
  refine (proj1 (X11_redefinition_changes_no_lookup "glass" zero_material
                   (twice_glass None)) _).
  simpl. discriminate.
Defined.

(** ** What each setter appends *)

Section Appends.

Variable indeterminate : OBJECT_MATERIAL.t.

Lemma UVScale_at (u v : R) (sm : ShaderManager) (d : list DrawCall)
    (st : SceneManager) :
  SetTextureUVScale u v (scene_at sm d st) =
  Ok (scene_at (sm ++ [("UVscale"%string, UVec2 (Vec2 u v))]) d st).
Proof. reflexivity. Qed.

Lemma Color_at (r g b a : R) (sm : ShaderManager) (d : list DrawCall)
    (st : SceneManager) :
  SetShaderColor r g b a (scene_at sm d st) =
  Ok (scene_at (sm ++ color_log r g b a) d st).
Proof.
  unfold SetShaderColor, call_shader, scene_at, set_shader, Shader.setIntValue,
    Shader.setVec4Value, int_of_bool, color_log.
  cbn [m_pShaderManager m_basicMeshes m_loadedTextures m_textureIDs
       m_objectMaterials gl is_null negb mbind result_bind].
  by rewrite <- app_assoc.
Qed.

Lemma Texture_at (tag : string) (sm : ShaderManager) (d : list DrawCall)
    (st : SceneManager) :
  registry_ok st →
  SetShaderTexture tag (scene_at sm d st) =
  Ok (scene_at (sm ++ texture_log tag st) d st).
Proof.
  intros Hok. unfold SetShaderTexture, call_shader.
  cbn [scene_at m_pShaderManager is_null negb mbind result_bind].
  change (FindTextureSlot tag _) with (FindTextureSlot tag st).
  rewrite (FindTextureSlot_first_index tag st Hok).
  unfold scene_at, set_shader, Shader.setIntValue, Shader.setSampler2DValue,
    int_of_bool, texture_log.
  cbn [m_pShaderManager m_basicMeshes m_loadedTextures m_textureIDs
       m_objectMaterials gl mbind result_bind].
  by rewrite <- app_assoc.
Qed.

Lemma Material_at (tag : string) (sm : ShaderManager) (d : list DrawCall)
    (st : SceneManager) :
  SetShaderMaterial indeterminate tag (scene_at sm d st) =
  Ok (scene_at (sm ++ material_log indeterminate tag st) d st).
Proof.
  rewrite (SetShaderMaterial_found indeterminate tag (scene_at sm d st) sm eq_refl).
  unfold material_log, found_material. cbn [scene_at m_objectMaterials].
  destruct (m_objectMaterials st) eqn:Hms.
  - rewrite app_nil_r. unfold scene_at. by rewrite Hms.
  - unfold scene_at, set_shader.
    cbn [m_pShaderManager m_basicMeshes m_loadedTextures m_textureIDs
         m_objectMaterials gl]. by rewrite Hms.
Qed.

(** The material uniforms are the only ones [SetShaderMaterial] writes. *)
Lemma material_log_other (tag name : string) (st : SceneManager) :
  name ≠ "material.diffuseColor"%string → name ≠ "material.specularColor"%string →
  name ≠ "material.shininess"%string →
  Shader.uniform name (material_log indeterminate tag st) = None.
Proof.
  intros H1 H2 H3. unfold material_log.
  destruct (m_objectMaterials st); [done|].
  unfold material_writes. cbn [Shader.uniform].
  by rewrite (proj2 (String.eqb_neq _ _)), (proj2 (String.eqb_neq _ _)),
    (proj2 (String.eqb_neq _ _)) by done.
Qed.

(** X12: of [SetShaderTexture] and [SetShaderColor] the one called last
    decides: texture then colour leaves "bUseTexture" at 0 with the colour
    in "objectColor"; colour then texture leaves "bUseTexture" at 1 with
    the tag's slot (or -1) in "objectTexture". *)
Theorem X12_last_of_texture_and_colour_wins (tag : string) (r g b a : R)
    (st : SceneManager) (sm : ShaderManager) :
  m_pShaderManager st = Some sm → registry_ok st →
  (∃ sm',
     (st1 ← SetShaderTexture tag st; SetShaderColor r g b a st1)
     = Ok (set_shader (Some sm') st)
     ∧ Shader.uniform "bUseTexture" sm' = Some (UInt 0)
     ∧ Shader.uniform "objectColor" sm' = Some (UVec4 (Vec4 r g b a)))
  ∧ (∃ sm',
       (st1 ← SetShaderColor r g b a st; SetShaderTexture tag st1)
       = Ok (set_shader (Some sm') st)
       ∧ Shader.uniform "bUseTexture" sm' = Some (UInt 1)
       ∧ Shader.uniform "objectTexture" sm' =
         Some (USampler2D (first_index tag (registered_tags st)))).
Proof.
  intros Hsm Hok. rewrite (scene_at_self st sm Hsm). split.
  - exists ((sm ++ texture_log tag st) ++ color_log r g b a).
    rewrite (Texture_at tag sm _ st Hok). cbn [mbind result_bind].
    rewrite Color_at. split; [reflexivity|].
    split; rewrite uniform_app; reflexivity.
  - exists ((sm ++ color_log r g b a) ++ texture_log tag st).
    rewrite Color_at. cbn [mbind result_bind].
    rewrite (Texture_at tag _ _ st Hok). split; [reflexivity|].
    split; rewrite uniform_app; reflexivity.
Qed.

End Appends.

Lemma X12_witness :
  (∃ sm',
     (st1 ← SetShaderTexture "lid" loaded_scene; SetShaderColor 0.7 0.7 0.8 0.3 st1)
     = Ok (set_shader (Some sm') loaded_scene)
     ∧ Shader.uniform "bUseTexture" sm' = Some (UInt 0)
     ∧ Shader.uniform "objectColor" sm' = Some (UVec4 (Vec4 0.7 0.7 0.8 0.3)%R))
  ∧ (∃ sm',
       (st1 ← SetShaderColor 0.7 0.7 0.8 0.3 loaded_scene; SetShaderTexture "lid" st1)
       = Ok (set_shader (Some sm') loaded_scene)
       ∧ Shader.uniform "bUseTexture" sm' = Some (UInt 1)
       ∧ Shader.uniform "objectTexture" sm' =
         Some (USampler2D (first_index "lid" (registered_tags loaded_scene)))).
Proof.
  apply (X12_last_of_texture_and_colour_wins "lid" 0.7 0.7 0.8 0.3 loaded_scene []).
  - vm_compute. reflexivity.
  - unfold registry_ok. vm_compute. discriminate.
Defined.

(** ** Where the transform puts things *)

Section Placement.
#[local] Open Scope R_scope.

(** X13: whatever the scale and the three rotations, the model matrix of
    [SetTransformations] sends the origin of the mesh to [positionXYZ],
    and what it does to a direction (w = 0) does not depend on
    [positionXYZ]. *)
Theorem X13_origin_goes_to_position (s : vec3) (rx ry rz : R) (p : vec3) :
  mat_vec (modelView s rx ry rz p) (Vec4 0 0 0 1) = Vec4 (x3 p) (y3 p) (z3 p) 1
  ∧ ∀ (x y z : R) (p' : vec3),
      mat_vec (modelView s rx ry rz p) (Vec4 x y z 0) =
      mat_vec (modelView s rx ry rz p') (Vec4 x y z 0).
Proof.
  split.
  - rewrite modelView_spec, !mat_vec_mul.
    rewrite Scale_vec, RotateX_vec, RotateY_vec, RotateZ_vec, Translate_vec.
    cbn [x3 y3 z3 x4 y4 z4 w4]. apply vec4_eq; ring.
  - intros x y z p'. rewrite !modelView_spec, !mat_vec_mul.
    rewrite Scale_vec, RotateX_vec, RotateY_vec, RotateZ_vec, !Translate_vec.
    cbn [x3 y3 z3 x4 y4 z4 w4]. apply vec4_eq; ring.
Qed.

End Placement.

(** ** Preparing the scene *)

Lemma SetupSceneLights_null (st : SceneManager) :
  m_pShaderManager st = None → SetupSceneLights st = Fault.
Proof. intros H. unfold SetupSceneLights, call_shader. by rewrite H. Qed.





Section Prepare.

Variable stbi_load : string → option stb_image.

Lemma CreateGLTexture_frame (filename tag : string) (st st' : SceneManager)
    (b : bool) :
  CreateGLTexture stbi_load filename tag st = Ok (b, st') →
  m_pShaderManager st' = m_pShaderManager st
  ∧ m_objectMaterials st' = m_objectMaterials st
  ∧ m_basicMeshes st' = m_basicMeshes st.
Proof.
  intros H. unfold CreateGLTexture in H.
  destruct (stbi_load filename) as [image|]; [|by injection H as <- <-].
  cbn [GL.glGenTextures] in H.
  destruct (if colorChannels image =? 3 then _ else _) as [g|];
    [|by injection H as <- <-].
  cbn [m_textureIDs m_loadedTextures set_gl set_textures] in H.
  destruct (array_modify _ _ _) as [a1| |]; try discriminate H.
  cbn [mbind result_bind] in H.
  destruct (array_modify _ _ _) as [a2| |]; try discriminate H.
  cbn [mbind result_bind] in H. by injection H as <- <-.
Qed.

Lemma load_all_frame (files : list (string * string)) :
  ∀ (st st' : SceneManager) (results : list bool),
    load_all stbi_load files st = Ok (results, st') →
    m_pShaderManager st' = m_pShaderManager st
    ∧ m_objectMaterials st' = m_objectMaterials st
    ∧ m_basicMeshes st' = m_basicMeshes st.
Proof.
  induction files as [|[filename tag] rest IH]; intros st st' results Hload.
  - by injection Hload as <- <-.
  - simpl in Hload.
    destruct (CreateGLTexture stbi_load filename tag st) as [[b st1]| |] eqn:H1;
      try discriminate Hload.
    cbn [mbind result_bind] in Hload.
    destruct (load_all stbi_load rest st1) as [[bs st2]| |] eqn:H2;
      try discriminate Hload.
    cbn [mbind result_bind] in Hload. injection Hload as <- <-.
    destruct (CreateGLTexture_frame _ _ _ _ _ H1) as (<- & <- & <-).
    by apply (IH st1 st2 bs).
Qed.

Lemma LoadSceneTextures_frame (st st' : SceneManager) :
  LoadSceneTextures stbi_load st = Ok st' →
  m_pShaderManager st' = m_pShaderManager st
  ∧ m_objectMaterials st' = m_objectMaterials st
  ∧ m_basicMeshes st' = m_basicMeshes st.
Proof.
  unfold LoadSceneTextures. intros H.
  destruct (load_all stbi_load scene_textures st) as [[bs st1]| |] eqn:H1;
    try discriminate H.
  cbn [mbind result_bind] in H.
  destruct (load_all_frame _ _ _ _ H1) as (<- & <- & <-).
  unfold BindGLTextures in H.
  destruct (while _ _ _ _) as [[j g]| |]; try discriminate H.
  cbn [mbind result_bind] in H. by injection H as <-.
Qed.

(** X14: with no shader bound [PrepareScene] never returns: when the
    textures load it runs into the unguarded [m_pShaderManager] of
    [SetupSceneLights]. *)
Theorem X14_PrepareScene_needs_a_shader (st : SceneManager) :
  m_pShaderManager st = None →
  SetupSceneLights st = Fault
  ∧ ∀ r, PrepareScene stbi_load st ≠ Ok r.
Proof.
  intros Hnull. split; [by apply SetupSceneLights_null|].
  intros r H. unfold PrepareScene in H.
  destruct (LoadSceneTextures stbi_load st) as [st1| |] eqn:H1; try discriminate H.
  cbn [mbind result_bind] in H.
  destruct (LoadSceneTextures_frame _ _ H1) as (Hsm & _).
  rewrite SetupSceneLights_null in H; [discriminate H|].
  change (m_pShaderManager (DefineObjectMaterials st1)) with (m_pShaderManager st1).
  by rewrite Hsm.
Qed.


Lemma scene_tags_registered :
  kept_tags scene_textures (replicate (length scene_textures) true) =
  ["wood"; "sauce1"; "sauce2"; "sauce3"; "sauce4"; "lid"; "wall"; "shelf";
   "redplastic"]%string.
Proof. reflexivity. Qed.


End Prepare.

Lemma X14_witness :
  SetupSceneLights (fresh_scene 16 None) = Fault
  ∧ ∀ r, PrepareScene (decode_as 3) (fresh_scene 16 None) ≠ Ok r.
Proof.
  apply (X14_PrepareScene_needs_a_shader (decode_as 3) (fresh_scene 16 None)).
  reflexivity.
Defined.


(** ** The builders *)

Lemma uniform_singleton_ne (name n : string) (v : uvalue) :
  n ≠ name → Shader.uniform name [(n, v)] = None.
Proof. intros H. simpl. by rewrite (proj2 (String.eqb_neq _ _)). Qed.

Lemma texture_log_other (tag name : string) (st : SceneManager) :
  name ≠ g_UseTextureName → name ≠ g_TextureValueName →
  Shader.uniform name (texture_log tag st) = None.
Proof.
  intros H1 H2. unfold texture_log. cbn [Shader.uniform].
  by rewrite (proj2 (String.eqb_neq g_TextureValueName name)),
    (proj2 (String.eqb_neq g_UseTextureName name)) by done.
Qed.

Lemma color_log_other (r g b a : R) (name : string) :
  name ≠ g_UseTextureName → name ≠ g_ColorValueName →
  Shader.uniform name (color_log r g b a) = None.
Proof.
  intros H1 H2. unfold color_log. cbn [Shader.uniform].
  by rewrite (proj2 (String.eqb_neq g_ColorValueName name)),
    (proj2 (String.eqb_neq g_UseTextureName name)) by done.
Qed.

Lemma bind_Ok {A B : Type} (a : A) (f : A → result B) : (Ok a ≫= f) = f a.
Proof. reflexivity. Qed.

Lemma bind_Fault {A B : Type} (f : A → result B) : (Fault ≫= f) = Fault.
Proof. reflexivity. Qed.

Lemma Transformations_unbound (s : vec3) (rx ry rz : R) (p : vec3)
    (d : list DrawCall) (st : SceneManager) :
  SetTransformations s rx ry rz p (unbound_at d st) = Ok (unbound_at d st).
Proof. reflexivity. Qed.

Lemma UVScale_unbound (u v : R) (d : list DrawCall) (st : SceneManager) :
  SetTextureUVScale u v (unbound_at d st) = Ok (unbound_at d st).
Proof. reflexivity. Qed.

Lemma Color_unbound (r g b a : R) (d : list DrawCall) (st : SceneManager) :
  SetShaderColor r g b a (unbound_at d st) = Ok (unbound_at d st).
Proof. reflexivity. Qed.

Lemma Texture_unbound (tag : string) (d : list DrawCall) (st : SceneManager) :
  SetShaderTexture tag (unbound_at d st) = Ok (unbound_at d st).
Proof. reflexivity. Qed.

Lemma draw_unbound (m : Mesh) (d : list DrawCall) (st : SceneManager) :
  draw m (unbound_at d st) = Ok (unbound_at (d ++ [(m, None)]) st).
Proof. reflexivity. Qed.

Section BuilderFacts.
#[local] Open Scope R_scope.

Variable indeterminate : OBJECT_MATERIAL.t.

Ltac run Hok :=
  repeat (first [ rewrite SetTransformations_at
                | rewrite draw_at
                | rewrite UVScale_at
                | rewrite Color_at
                | rewrite (Texture_at _ _ _ _ Hok)
                | rewrite (Material_at indeterminate) ];
          try (rewrite bind_Ok; cbv beta)).

Ltac skip_chunk :=
  rewrite uniform_app;
  first [ rewrite (material_log_other indeterminate) by done
        | rewrite texture_log_other by done
        | rewrite color_log_other by done
        | rewrite uniform_singleton_ne by done ].

Ltac lookup := repeat skip_chunk; try rewrite uniform_app; reflexivity.

Ltac model_entry :=
  match goal with
  | |- match Shader.uniform _ ?l with _ => _ end = _ =>
      assert (Shader.uniform g_ModelName l = Some (UMat4 _)) as -> by lookup;
      reflexivity
  end.

Lemma drawn_by_at (build : SceneManager → result SceneManager)
    (st : SceneManager) (sm smf : ShaderManager) (calls : list DrawCall) :
  m_pShaderManager st = Some sm →
  build (scene_at sm (m_basicMeshes st) st)
  = Ok (scene_at smf (m_basicMeshes st ++ calls) st) →
  drawn_by build st = calls.
Proof.
  intros Hsm H. unfold drawn_by. rewrite (scene_at_self st sm Hsm) at 1.
  rewrite H. cbn [m_basicMeshes scene_at]. apply drop_app_length.
Qed.

(** X16: the first primitive of [CreateBottle1], the sauce cylinder, is
    drawn with the tiling (50, 50) and the slot of [tex], and with the
    material uniforms that the caller left in the shader: the builder sets
    no material before its first draw call. *)
Theorem X16_sauce_drawn_with_callers_material (hs1x hs1y hs1z hs1 : R)
    (tex : string) (st : SceneManager) (sm : ShaderManager) :
  m_pShaderManager st = Some sm → registry_ok st →
  ∃ (l : ShaderManager) (rest : list DrawCall),
    drawn_by (CreateBottle1 indeterminate hs1x hs1y hs1z hs1 tex) st
    = (CylinderMesh, Some l) :: rest
    ∧ length rest = 4%nat
    ∧ Shader.uniform "UVscale" l = Some (UVec2 (Vec2 50.0 50.0))
    ∧ Shader.uniform "bUseTexture" l = Some (UInt 1)
    ∧ Shader.uniform "objectTexture" l =
      Some (USampler2D (first_index tex (registered_tags st)))
    ∧ Shader.uniform "material.diffuseColor" l =
      Shader.uniform "material.diffuseColor" sm
    ∧ Shader.uniform "material.specularColor" l =
      Shader.uniform "material.specularColor" sm
    ∧ Shader.uniform "material.shininess" l =
      Shader.uniform "material.shininess" sm.
Proof.
  intros Hsm Hok. do 2 eexists. split.
  { eapply (drawn_by_at _ st sm _ _ Hsm).
    unfold CreateBottle1. run Hok.
    rewrite <- !(app_assoc (m_basicMeshes st)). cbn [app]. reflexivity. }
  split; [reflexivity|]. repeat split; lookup.
Qed.

(** [CreateBottle1] on a scene with a shader bound: five draw calls, and
    the tiling (1, 1) of the lid left in the shader. *)
Lemma CreateBottle1_at (x y z s : R) (tex : string) (sm : ShaderManager)
    (d : list DrawCall) (st : SceneManager) :
  registry_ok st →
  ∃ (smf : ShaderManager) (calls : list DrawCall),
    CreateBottle1 indeterminate x y z s tex (scene_at sm d st)
    = Ok (scene_at smf (d ++ calls) st)
    ∧ length calls = 5%nat
    ∧ Shader.uniform "UVscale" smf = Some (UVec2 (Vec2 1.0 1.0)).
Proof.
  intros Hok. do 2 eexists. split.
  { unfold CreateBottle1. run Hok.
    rewrite <- !(app_assoc d). cbn [app]. reflexivity. }
  split; [reflexivity|lookup].
Qed.

(** X17: [CreateBottle2] draws the five primitives of [CreateBottle1] and
    then one torus, placed by the product of the translation to
    (x, s * (y + 4.2), z), the rotations by 13 degrees about Z and -67
    degrees about X, and the scale (0.6 s, 0.4 s, 0.6 s); the torus is
    textured with the slot of "lid" under the tiling (1, 1) that the lid
    left. *)
Theorem X17_bottle2_is_bottle1_and_a_ring (hs2x hs2y hs2z hs2 : R)
    (tex : string) (st : SceneManager) (sm : ShaderManager) :
  m_pShaderManager st = Some sm → registry_ok st →
  ∃ l : ShaderManager,
    drawn_by (CreateBottle2 indeterminate hs2x hs2y hs2z hs2 tex) st
    = drawn_by (CreateBottle1 indeterminate hs2x hs2y hs2z hs2 tex) st
      ++ [(TorusMesh, Some l)]
    ∧ length (drawn_by (CreateBottle1 indeterminate hs2x hs2y hs2z hs2 tex) st)
      = 5%nat
    ∧ model_of (TorusMesh, Some l) =
      Some (Spec.Translate (Vec3 (hs2x + 0.0) (hs2 * (hs2y + 4.2)) (hs2z + 0.0))
            * Spec.RotateZ 13.0 * Spec.RotateY 0.0 * Spec.RotateX (-67.0)
            * Spec.Scale (Vec3 (hs2 * 0.6) (hs2 * 0.4) (hs2 * 0.6)))%mat
    ∧ Shader.uniform "bUseTexture" l = Some (UInt 1)
    ∧ Shader.uniform "objectTexture" l =
      Some (USampler2D (first_index "lid" (registered_tags st)))
    ∧ Shader.uniform "UVscale" l = Some (UVec2 (Vec2 1.0 1.0)).
Proof.
  intros Hsm Hok.
  destruct (CreateBottle1_at hs2x hs2y hs2z hs2 tex sm (m_basicMeshes st) st Hok)
    as (smf & calls & Hrun & Hlen & Huv).
  rewrite (drawn_by_at _ st sm smf calls Hsm Hrun).
  eexists. split.
  { eapply (drawn_by_at _ st sm _ _ Hsm).
    unfold CreateBottle2. rewrite Hrun, bind_Ok. cbv beta. run Hok.
    rewrite <- (app_assoc (m_basicMeshes st)). reflexivity. }
  split; [done|]. unfold model_of. cbn [snd].
  split; [|split; [|split]].
  - assert (∀ m w, Shader.uniform g_ModelName
                     (((smf ++ [(g_ModelName, UMat4 m)]) ++ texture_log "lid" st) ++ w)
                   = match Shader.uniform g_ModelName w with
                     | Some v => Some v
                     | None => Some (UMat4 m)
                     end) as Hm.
    { intros m w. rewrite !uniform_app. by destruct (Shader.uniform g_ModelName w). }
    rewrite Hm, (material_log_other indeterminate) by done.
    by rewrite modelView_spec.
  - lookup.
  - lookup.
  - repeat skip_chunk. exact Huv.
Qed.

(** X18: every primitive of [CreateBottle3] is drawn under the tiling
    (50, 50) set for the sauce, the three nozzle parts included, which
    are textured with the slot of "redplastic": the builder never sets the
    tiling back. *)
Theorem X18_bottle3_nozzle_keeps_sauce_tiling (hs3x hs3y hs3z hs3 : R)
    (tex : string) (st : SceneManager) (sm : ShaderManager) :
  m_pShaderManager st = Some sm → registry_ok st →
  ∃ l1 l2 l3 l4 l5 : ShaderManager,
    drawn_by (CreateBottle3 indeterminate hs3x hs3y hs3z hs3 tex) st
    = [(CylinderMesh, Some l1); (CylinderMesh, Some l2);
       (TaperedCylinderMesh, Some l3); (TaperedCylinderMesh, Some l4);
       (TaperedCylinderMesh, Some l5)]
    ∧ Forall (λ l, Shader.uniform "UVscale" l = Some (UVec2 (Vec2 50.0 50.0)))
        [l1; l2; l3; l4; l5]
    ∧ Forall (λ l, Shader.uniform "bUseTexture" l = Some (UInt 1)
                   ∧ Shader.uniform "objectTexture" l =
                     Some (USampler2D (first_index "redplastic" (registered_tags st))))
        [l3; l4; l5].
Proof.
  intros Hsm Hok. do 5 eexists. split.
  { eapply (drawn_by_at _ st sm _ _ Hsm).
    unfold CreateBottle3. run Hok.
    rewrite <- !(app_assoc (m_basicMeshes st)). cbn [app]. reflexivity. }
  split.
  - repeat (apply Forall_cons; split; [lookup|]). apply Forall_nil_2.
  - repeat (apply Forall_cons; split; [split; lookup|]). apply Forall_nil_2.
Qed.

Lemma CreateBottle3_models (hs3x hs3y hs3z hs3 : R) (tex : string)
    (st : SceneManager) (sm : ShaderManager) :
  m_pShaderManager st = Some sm → registry_ok st →
  model_of <$> drawn_by (CreateBottle3 indeterminate hs3x hs3y hs3z hs3 tex) st =
  Some <$>
    [modelView (Vec3 (hs3 * 1.0) (hs3 * 2.8) (hs3 * 1.0)) 0.0 0.0 0.0
       (Vec3 (0.0 + hs3x) (hs3 * (0.2 + hs3y)) (0.0 + hs3z));
     modelView (Vec3 (hs3 * 1.1) (hs3 * 3.0) (hs3 * 1.1)) 0.0 0.0 0.0
       (Vec3 (0.0 + hs3x) (hs3 * (0.0 + hs3y)) (0.0 + hs3z));
     modelView (Vec3 (hs3 * 1.0) (hs3 * 1.0) (hs3 * 1.0)) 0.0 0.0 0.0
       (Vec3 (0.0 + hs3x) (hs3 * (3.0 + hs3y)) (0.0 + hs3z));
     modelView (Vec3 (hs3 * 0.4) (hs3 * 1.3) (hs3 * 0.4)) 0.0 0.0 0.0
       (Vec3 (0.0 + hs3x) (hs3 * (4.0 + hs3y)) (0.0 + hs3z));
     modelView (Vec3 (hs3 * 0.1) (hs3 * 0.1) (hs3 * 0.1)) 0.0 0.0 0.0
       (Vec3 (0.0 + hs3x) (hs3 * (5.33 + hs3y)) (0.0 + hs3z))].
Proof.
  intros Hsm Hok.
  erewrite (drawn_by_at _ st sm _ _ Hsm); cycle 1.
  { unfold CreateBottle3. run Hok.
    rewrite <- !(app_assoc (m_basicMeshes st)). cbn [app]. reflexivity. }
  cbn [fmap list_fmap]. unfold model_of. cbn [snd].
  repeat (f_equal; [model_entry|]). f_equal. model_entry.
Qed.

(** X19: from the same scene and with the same offsets, the builds of
    [CreateBottle3] with factors [hs3] and [2 * hs3] each draw five
    primitives; each primitive of the second has exactly twice the size
    of the same primitive of the first and exactly twice its height (y),
    while the x and z of its position are the offsets [hs3x] and [hs3z] in
    both builds. *)
Theorem X19_bottle3_size_and_height_double (hs3x hs3y hs3z hs3 : R) (tex : string)
    (st : SceneManager) (sm : ShaderManager) :
  m_pShaderManager st = Some sm → registry_ok st →
  ∃ ms ms2 : list mat4,
    model_of <$> drawn_by (CreateBottle3 indeterminate hs3x hs3y hs3z hs3 tex) st
    = Some <$> ms
    ∧ model_of <$> drawn_by (CreateBottle3 indeterminate hs3x hs3y hs3z (2 * hs3) tex) st
      = Some <$> ms2
    ∧ length ms = 5%nat ∧ length ms2 = 5%nat
    ∧ ∀ (k : nat) (a b : mat4),
        ms !! k = Some a → ms2 !! k = Some b →
        size_of b = vec3_scale (size_of a) 2
        ∧ y3 (position_of b) = y3 (position_of a) * 2
        ∧ x3 (position_of b) = hs3x ∧ x3 (position_of a) = hs3x
        ∧ z3 (position_of b) = hs3z ∧ z3 (position_of a) = hs3z.
Proof.
  intros Hsm Hok.
  rewrite !(CreateBottle3_models _ _ _ _ _ st sm Hsm Hok).
  do 2 eexists. split; [reflexivity|]. split; [reflexivity|].
  split; [reflexivity|]. split; [reflexivity|].
  intros k a b Ha Hb.
  destruct k as [|[|[|[|[|k]]]]]; cbn [lookup list_lookup] in Ha, Hb;
    try discriminate Ha; injection Ha as <-; injection Hb as <-;
    rewrite !(proj1 (modelView_unrotated _ _)), !(proj2 (modelView_unrotated _ _));
    unfold vec3_scale; cbn [x3 y3 z3];
    (split; [apply vec3_eq; ring|]); repeat split; first [lra | ring].
Qed.

(** X20: [CreateShelf] draws nine boxes, each with texturing on and the
    slot of "shelf" (-1 when no texture carries that tag), and each under
    the tiling the caller left in the shader: the builder never sets
    "UVscale". *)
Theorem X20_shelf_is_nine_boxes_under_callers_tiling (st : SceneManager)
    (sm : ShaderManager) :
  m_pShaderManager st = Some sm → registry_ok st →
  ∃ logs : list ShaderManager,
    drawn_by (CreateShelf indeterminate) st = (λ l, (BoxMesh, Some l)) <$> logs
    ∧ length logs = 9%nat
    ∧ Forall (λ l, Shader.uniform "UVscale" l = Shader.uniform "UVscale" sm
                   ∧ Shader.uniform "bUseTexture" l = Some (UInt 1)
                   ∧ Shader.uniform "objectTexture" l =
                     Some (USampler2D (first_index "shelf" (registered_tags st))))
        logs.
Proof.
  intros Hsm Hok.
  assert (∃ l1 l2 l3 l4 l5 l6 l7 l8 l9 : ShaderManager,
            drawn_by (CreateShelf indeterminate) st
            = (λ l, (BoxMesh, Some l)) <$> [l1; l2; l3; l4; l5; l6; l7; l8; l9]
            ∧ Forall (λ l, Shader.uniform "UVscale" l = Shader.uniform "UVscale" sm
                           ∧ Shader.uniform "bUseTexture" l = Some (UInt 1)
                           ∧ Shader.uniform "objectTexture" l =
                             Some (USampler2D
                                     (first_index "shelf" (registered_tags st))))
                [l1; l2; l3; l4; l5; l6; l7; l8; l9])
    as (l1 & l2 & l3 & l4 & l5 & l6 & l7 & l8 & l9 & Hd & Hall).
  { do 9 eexists. split.
    - eapply (drawn_by_at _ st sm _ _ Hsm).
      unfold CreateShelf. run Hok.
    rewrite <- !(app_assoc (m_basicMeshes st)). cbn [app]. reflexivity.
    - repeat (apply Forall_cons; split; [repeat split; lookup|]).
      apply Forall_nil_2. }
  exists [l1; l2; l3; l4; l5; l6; l7; l8; l9]. by split.
Qed.

Lemma unbound_self (st : SceneManager) :
  m_pShaderManager st = None → st = unbound_at (m_basicMeshes st) st.
Proof. destruct st. simpl. by intros ->. Qed.

Lemma Material_unbound (tag : string) (d : list DrawCall) (st : SceneManager) :
  SetShaderMaterial indeterminate tag (unbound_at d st) =
  match m_objectMaterials st with
  | [] => Ok (unbound_at d st)
  | _ :: _ => Fault
  end.
Proof.
  destruct (m_objectMaterials st) eqn:Hms.
  - by apply SetShaderMaterial_empty.
  - apply SetShaderMaterial_null; [done|]. simpl. by rewrite Hms.
Qed.

Ltac run_unbound :=
  repeat (first [ rewrite Transformations_unbound
                | rewrite draw_unbound
                | rewrite UVScale_unbound
                | rewrite Color_unbound
                | rewrite Texture_unbound
                | rewrite Material_unbound ];
          try (first [rewrite bind_Ok | rewrite bind_Fault]; cbv beta)).

(** X21: with no shader bound and a material defined, every builder runs
    into the null [m_pShaderManager] at its first [SetShaderMaterial]. *)
Theorem X21_builders_fault_without_shader (x y z s : R) (tex : string)
    (st : SceneManager) :
  m_pShaderManager st = None → m_objectMaterials st ≠ [] →
  CreateShelf indeterminate st = Fault
  ∧ CreateBottle1 indeterminate x y z s tex st = Fault
  ∧ CreateBottle2 indeterminate x y z s tex st = Fault
  ∧ CreateBottle3 indeterminate x y z s tex st = Fault.
Proof.
  intros Hnull Hne. rewrite (unbound_self st Hnull).
  destruct (m_objectMaterials st) as [|e ms] eqn:Hms; [done|].
  assert (∀ tag d, SetShaderMaterial indeterminate tag (unbound_at d st) = Fault)
    as Hfault.
  { intros tag d. by rewrite Material_unbound, Hms. }
  assert (CreateBottle1 indeterminate x y z s tex
            (unbound_at (m_basicMeshes st) st) = Fault) as H1.
  { unfold CreateBottle1.
    repeat (first [ rewrite Transformations_unbound | rewrite draw_unbound
                  | rewrite UVScale_unbound | rewrite Color_unbound
                  | rewrite Texture_unbound ];
            rewrite bind_Ok; cbv beta).
    by rewrite Hfault. }
  split; [|split; [done|split]].
  - unfold CreateShelf.
    repeat (first [ rewrite Transformations_unbound | rewrite Texture_unbound ];
            rewrite bind_Ok; cbv beta).
    by rewrite Hfault.
  - unfold CreateBottle2. by rewrite H1.
  - unfold CreateBottle3.
    repeat (first [ rewrite Transformations_unbound | rewrite draw_unbound
                  | rewrite UVScale_unbound | rewrite Color_unbound
                  | rewrite Texture_unbound ];
            rewrite bind_Ok; cbv beta).
    by rewrite Hfault.
Qed.

(** X22: with no shader bound and no material defined, the builders write
    no uniform and still issue their draw calls: [CreateBottle1] its five,
    [CreateBottle2] those and the torus, [CreateBottle3] its five and
    [CreateShelf] its nine boxes. *)
Theorem X22_builders_draw_without_shader (x y z s : R) (tex : string)
    (st : SceneManager) :
  m_pShaderManager st = None → m_objectMaterials st = [] →
  drawn_by (CreateBottle1 indeterminate x y z s tex) st =
    [(CylinderMesh, None); (CylinderMesh, None); (TaperedCylinderMesh, None);
     (CylinderMesh, None); (CylinderMesh, None)]
  ∧ drawn_by (CreateBottle2 indeterminate x y z s tex) st =
    [(CylinderMesh, None); (CylinderMesh, None); (TaperedCylinderMesh, None);
     (CylinderMesh, None); (CylinderMesh, None); (TorusMesh, None)]
  ∧ drawn_by (CreateBottle3 indeterminate x y z s tex) st =
    [(CylinderMesh, None); (CylinderMesh, None); (TaperedCylinderMesh, None);
     (TaperedCylinderMesh, None); (TaperedCylinderMesh, None)]
  ∧ drawn_by (CreateShelf indeterminate) st = replicate 9 (BoxMesh, None).
Proof.
  intros Hnull Hms.
  assert (∀ tag d, SetShaderMaterial indeterminate tag (unbound_at d st)
                   = Ok (unbound_at d st)) as Hmat.
  { intros tag d. by rewrite Material_unbound, Hms. }
  repeat split; unfold drawn_by;
    rewrite (unbound_self st Hnull) at 1;
    unfold CreateBottle2, CreateBottle1, CreateBottle3, CreateShelf;
    repeat (first [ rewrite Transformations_unbound | rewrite draw_unbound
                  | rewrite UVScale_unbound | rewrite Color_unbound
                  | rewrite Texture_unbound | rewrite Hmat ];
            try (rewrite bind_Ok; cbv beta));
    cbn [m_basicMeshes unbound_at]; rewrite <- !app_assoc, drop_app_length;
    reflexivity.
Qed.

End BuilderFacts.

(** *** The builders on the loaded scene *)

Lemma X16_witness :
  ∃ (l : ShaderManager) (rest : list DrawCall),
    drawn_by (CreateBottle1 zero_material (-4) 10 (-1) 0.3 "sauce4")
      (set_shader (Some (material_writes zero_material)) loaded_scene)
    = (CylinderMesh, Some l) :: rest
    ∧ length rest = 4%nat
    ∧ Shader.uniform "UVscale" l = Some (UVec2 (Vec2 50.0 50.0)%R)
    ∧ Shader.uniform "bUseTexture" l = Some (UInt 1)
    ∧ Shader.uniform "objectTexture" l =
      Some (USampler2D
              (first_index "sauce4"
                 (registered_tags
                    (set_shader (Some (material_writes zero_material)) loaded_scene))))
    ∧ Shader.uniform "material.diffuseColor" l =
      Shader.uniform "material.diffuseColor" (material_writes zero_material)
    ∧ Shader.uniform "material.specularColor" l =
      Shader.uniform "material.specularColor" (material_writes zero_material)
    ∧ Shader.uniform "material.shininess" l =
      Shader.uniform "material.shininess" (material_writes zero_material).
Proof.
  apply (X16_sauce_drawn_with_callers_material zero_material (-4) 10 (-1) 0.3
           "sauce4" (set_shader (Some (material_writes zero_material)) loaded_scene)
           (material_writes zero_material)).
  - reflexivity.
  - unfold registry_ok. vm_compute. discriminate.
Defined.

Lemma X17_witness :
  ∃ l : ShaderManager,
    drawn_by (CreateBottle2 zero_material 2.0 4.9 1 0.4 "sauce4") loaded_scene
    = drawn_by (CreateBottle1 zero_material 2.0 4.9 1 0.4 "sauce4") loaded_scene
      ++ [(TorusMesh, Some l)]
    ∧ length (drawn_by (CreateBottle1 zero_material 2.0 4.9 1 0.4 "sauce4")
                loaded_scene) = 5%nat
    ∧ model_of (TorusMesh, Some l) =
      Some (Spec.Translate (Vec3 (2.0 + 0.0) (0.4 * (4.9 + 4.2)) (1 + 0.0))%R
            * Spec.RotateZ 13.0 * Spec.RotateY 0.0 * Spec.RotateX (-67.0)
            * Spec.Scale (Vec3 (0.4 * 0.6) (0.4 * 0.4) (0.4 * 0.6))%R)%mat
    ∧ Shader.uniform "bUseTexture" l = Some (UInt 1)
    ∧ Shader.uniform "objectTexture" l =
      Some (USampler2D (first_index "lid" (registered_tags loaded_scene)))
    ∧ Shader.uniform "UVscale" l = Some (UVec2 (Vec2 1.0 1.0)%R).
Proof.
  apply (X17_bottle2_is_bottle1_and_a_ring zero_material 2.0 4.9 1 0.4 "sauce4"
           loaded_scene []).
  - vm_compute. reflexivity.
  - unfold registry_ok. vm_compute. discriminate.
Defined.

Lemma X18_witness :
  ∃ l1 l2 l3 l4 l5 : ShaderManager,
    drawn_by (CreateBottle3 zero_material 3.2 4.9 1 0.4 "sauce2") loaded_scene
    = [(CylinderMesh, Some l1); (CylinderMesh, Some l2);
       (TaperedCylinderMesh, Some l3); (TaperedCylinderMesh, Some l4);
       (TaperedCylinderMesh, Some l5)]
    ∧ Forall (λ l, Shader.uniform "UVscale" l = Some (UVec2 (Vec2 50.0 50.0)%R))
        [l1; l2; l3; l4; l5]
    ∧ Forall (λ l, Shader.uniform "bUseTexture" l = Some (UInt 1)
                   ∧ Shader.uniform "objectTexture" l =
                     Some (USampler2D
                             (first_index "redplastic" (registered_tags loaded_scene))))
        [l3; l4; l5].
Proof.
  apply (X18_bottle3_nozzle_keeps_sauce_tiling zero_material 3.2 4.9 1 0.4 "sauce2"
           loaded_scene []).
  - vm_compute. reflexivity.
  - unfold registry_ok. vm_compute. discriminate.
Defined.

Lemma X19_witness :
  ∃ ms ms2 : list mat4,
    model_of <$> drawn_by (CreateBottle3 zero_material 3.2 4.9 1 0.4 "sauce2")
                   loaded_scene
    = Some <$> ms
    ∧ model_of <$> drawn_by (CreateBottle3 zero_material 3.2 4.9 1 (2 * 0.4) "sauce2")
                     loaded_scene
      = Some <$> ms2
    ∧ length ms = 5%nat ∧ length ms2 = 5%nat
    ∧ ∀ (k : nat) (a b : mat4),
        ms !! k = Some a → ms2 !! k = Some b →
        size_of b = vec3_scale (size_of a) 2
        ∧ (y3 (position_of b) = y3 (position_of a) * 2
        ∧ x3 (position_of b) = 3.2 ∧ x3 (position_of a) = 3.2
        ∧ z3 (position_of b) = 1 ∧ z3 (position_of a) = 1)%R.
Proof.
  apply (X19_bottle3_size_and_height_double zero_material 3.2 4.9 1 0.4 "sauce2"
           loaded_scene []).
  - vm_compute. reflexivity.
  - unfold registry_ok. vm_compute. discriminate.
Defined.

Lemma X20_witness :
  ∃ logs : list ShaderManager,
    drawn_by (CreateShelf zero_material) loaded_scene
    = (λ l, (BoxMesh, Some l)) <$> logs
    ∧ length logs = 9%nat
    ∧ Forall (λ l, Shader.uniform "UVscale" l = Shader.uniform "UVscale" []
                   ∧ Shader.uniform "bUseTexture" l = Some (UInt 1)
                   ∧ Shader.uniform "objectTexture" l =
                     Some (USampler2D
                             (first_index "shelf" (registered_tags loaded_scene))))
        logs.
Proof.
  apply (X20_shelf_is_nine_boxes_under_callers_tiling zero_material loaded_scene []).
  - vm_compute. reflexivity.
  - unfold registry_ok. vm_compute. discriminate.
Defined.

Lemma X21_witness :
  CreateShelf zero_material (scene_with_materials None) = Fault
  ∧ CreateBottle1 zero_material (-4) 10 (-1) 0.3 "sauce4" (scene_with_materials None)
    = Fault
  ∧ CreateBottle2 zero_material (-4) 10 (-1) 0.3 "sauce4" (scene_with_materials None)
    = Fault
  ∧ CreateBottle3 zero_material (-4) 10 (-1) 0.3 "sauce4" (scene_with_materials None)
    = Fault.
Proof.
  apply (X21_builders_fault_without_shader zero_material (-4) 10 (-1) 0.3 "sauce4"
           (scene_with_materials None)).
  - reflexivity.
  - discriminate.
Defined.

Lemma X22_witness :
  drawn_by (CreateBottle1 zero_material (-4) 10 (-1) 0.3 "sauce4") (fresh_scene 16 None)
  = [(CylinderMesh, None); (CylinderMesh, None); (TaperedCylinderMesh, None);
     (CylinderMesh, None); (CylinderMesh, None)]
  ∧ drawn_by (CreateBottle2 zero_material (-4) 10 (-1) 0.3 "sauce4")
      (fresh_scene 16 None)
    = [(CylinderMesh, None); (CylinderMesh, None); (TaperedCylinderMesh, None);
       (CylinderMesh, None); (CylinderMesh, None); (TorusMesh, None)]
  ∧ drawn_by (CreateBottle3 zero_material (-4) 10 (-1) 0.3 "sauce4")
      (fresh_scene 16 None)
    = [(CylinderMesh, None); (CylinderMesh, None); (TaperedCylinderMesh, None);
       (TaperedCylinderMesh, None); (TaperedCylinderMesh, None)]
  ∧ drawn_by (CreateShelf zero_material) (fresh_scene 16 None)
    = replicate 9 (BoxMesh, None).
Proof.
  apply (X22_builders_draw_without_shader zero_material (-4) 10 (-1) 0.3 "sauce4"
           (fresh_scene 16 None)).
  - reflexivity.
  - reflexivity.
Defined.
